(** * Retrieval pipeline of groq-llama-genesis: vector store, configuration,
      prompts and query orchestration

    A shallow embedding of [vector-store.ts], [config.ts], [prompts.ts] and
    [rag-pipeline.ts].  JavaScript numbers are IEEE 754 binary64 values
    ([PrimFloat.float]) where the source computes with fractions, and integers
    ([Z]) where it counts.  A string is a sequence of UTF-16 code units
    below [U+0100] (the Latin-1 range, which ASCII text is in), one per
    character of [string]; on such strings [toLowerCase], [trim] and the
    [\s] class of regular expressions are the functions written here, and
    [length] counts characters.  A thrown [Error] is the [Throw] alternative
    of [result], carrying the message. *)

From Stdlib Require Import List String Ascii ZArith Lia Bool Arith.
From Stdlib Require Import PrimFloat Uint63 DecimalString.
From Stdlib Require Import DecimalNat.
From Stdlib Require Import SpecFloat FloatOps FloatAxioms.
From Stdlib Require Import Sorted Permutation.
Import ListNotations.
Open Scope string_scope.

Set Implicit Arguments.
Set Warnings "-inexact-float".

(** ** JavaScript prelude *)

Inductive result (A : Type) : Type :=
| Ok (value : A)
| Throw (message : string).
Arguments Ok {A} value.
Arguments Throw {A} message.

(** [`${n}`] for a non-negative integer *)
Definition showNat (n : nat) : string := NilEmpty.string_of_uint (Nat.to_uint n).

(** The number a length or a counter denotes. *)
Definition num (n : nat) : float := PrimFloat.of_uint63 (Uint63.of_Z (Z.of_nat n)).

(** ToBoolean on a number: [0], [-0] and [NaN] are falsy. *)
Definition truthy (x : float) : bool := negb (PrimFloat.eqb x 0%float) && negb (PrimFloat.is_nan x).

(** [x || 0] *)
Definition orZero (x : float) : float := if truthy x then x else 0%float.

(** [Array.prototype.slice(start, end)]: a negative bound counts from the
    end of the array, and both bounds are clamped to it. *)
Definition relativeIndex (len : nat) (i : Z) : nat :=
  if (i <? 0)%Z then Z.to_nat (Z.max (Z.of_nat len + i) 0) else Nat.min (Z.to_nat i) len.

Definition slice {A : Type} (start : Z) (end_ : option Z) (l : list A) : list A :=
  let from := relativeIndex (List.length l) start in
  let to := match end_ with Some e => relativeIndex (List.length l) e | None => List.length l end in
  firstn (to - from) (skipn from l).

(** [a[i] = v].  An index inside the array replaces the element there; an
    index at or past the end makes the array grow to [i + 1] elements.  The
    slots a write skips are holes, which read as [undefined]: [hole] stands
    for that value. *)
Fixpoint arraySet {A : Type} (hole : A) (i : nat) (v : A) (a : list A) : list A :=
  match a, i with
  | [], O => [v]
  | [], S i' => hole :: arraySet hole i' v []
  | _ :: a', O => v :: a'
  | x :: a', S i' => x :: arraySet hole i' v a'
  end.

(** The elements of an array with their indices, as [reduce] and [map] pass them. *)
Definition indexed {A : Type} (l : list A) : list (nat * A) := combine (seq 0 (List.length l)) l.

(** [Array.prototype.sort(comparefn)].  An element [a] is placed after [b]
    when [comparefn(a, b) > 0]; a result of [0] or [NaN] keeps the two in
    their original order (the sort is stable).  For a comparator that is
    consistent on the array every conforming engine returns this list.  A
    comparator that returns [NaN] is not consistent, and ECMAScript leaves
    the order to the engine; V8 reads a [NaN] from the comparator as [0],
    and an array in which it finds no pair out of order comes back as it
    stands, as it does here. *)
Definition sortsAfter {A : Type} (comparefn : A -> A -> float) (a b : A) : bool :=
  PrimFloat.ltb 0%float (comparefn a b).

Fixpoint insertSorted {A : Type} (comparefn : A -> A -> float) (x : A) (sorted : list A) : list A :=
  match sorted with
  | [] => [x]
  | y :: rest =>
      if sortsAfter comparefn x y then y :: insertSorted comparefn x rest
      else x :: y :: rest
  end.

Fixpoint sort {A : Type} (comparefn : A -> A -> float) (l : list A) : list A :=
  match l with
  | [] => []
  | x :: rest => insertSorted comparefn x (sort comparefn rest)
  end.

(** [Map<string, V>]: entries in insertion order, one per key. *)
Module JSMap.

Definition t (V : Type) : Type := list (string * V).

Fixpoint get {V : Type} (m : t V) (key : string) : option V :=
  match m with
  | [] => None
  | (k, v) :: m' => if String.eqb k key then Some v else get m' key
  end.

(** [set] on a present key replaces the value where it stands; a new key
    goes to the end. *)
Fixpoint set {V : Type} (key : string) (v : V) (m : t V) : t V :=
  match m with
  | [] => [(key, v)]
  | (k, v') :: m' => if String.eqb k key then (k, v) :: m' else (k, v') :: set key v m'
  end.

Fixpoint delete {V : Type} (key : string) (m : t V) : t V :=
  match m with
  | [] => []
  | (k, v) :: m' => if String.eqb k key then m' else (k, v) :: delete key m'
  end.

Definition keys {V : Type} (m : t V) : list string := map fst m.
Definition values {V : Type} (m : t V) : list V := map snd m.
Definition size {V : Type} (m : t V) : nat := List.length m.

End JSMap.

(** ** Strings *)

(** The upper-case letters below [U+0100] are [A] to [Z] and the accented
    capitals [U+00C0] to [U+00DE] without the multiplication sign [U+00D7];
    each has its lower-case form 32 code units further. *)
Definition toLowerCaseChar (c : ascii) : ascii :=
  let n := nat_of_ascii c in
  if ((65 <=? n)%nat && (n <=? 90)%nat)
     || ((192 <=? n)%nat && (n <=? 222)%nat && negb (n =? 215)%nat)
  then ascii_of_nat (n + 32) else c.

Fixpoint toLowerCase (s : string) : string :=
  match s with
  | EmptyString => EmptyString
  | String c s' => String (toLowerCaseChar c) (toLowerCase s')
  end.

(** [s.split(c).length - 1]: the occurrences of the character [c] in [s] *)
Fixpoint occurrences (c : ascii) (s : string) : nat :=
  match s with
  | EmptyString => 0
  | String c' s' => (if Ascii.eqb c' c then 1 else 0) + occurrences c s'
  end.

(** The white space and line terminators of ECMAScript below [U+0100],
    which [trim] removes and the class [\s] matches: tab, line feed,
    vertical tab, form feed, carriage return, space and the no-break space
    [U+00A0]. *)
Definition isWhiteSpace (c : ascii) : bool :=
  let n := nat_of_ascii c in
  ((9 <=? n)%nat && (n <=? 13)%nat) || (n =? 32)%nat || (n =? 160)%nat.

(** [s.split(/\s+/)]: the pieces between maximal runs of white space; a
    run at either end leaves an empty piece there. *)
Fixpoint splitWhiteSpaceFrom (s : string) (piece : string) (inRun : bool) : list string :=
  match s with
  | EmptyString => [piece]
  | String c s' =>
      if isWhiteSpace c
      then if inRun then splitWhiteSpaceFrom s' piece true
           else piece :: splitWhiteSpaceFrom s' EmptyString true
      else splitWhiteSpaceFrom s' (piece ++ String c EmptyString) false
  end.

Definition splitWhiteSpace (s : string) : list string := splitWhiteSpaceFrom s EmptyString false.

Fixpoint trimStart (s : string) : string :=
  match s with
  | EmptyString => EmptyString
  | String c s' => if isWhiteSpace c then trimStart s' else s
  end.

Fixpoint trimEnd (s : string) : string :=
  match s with
  | EmptyString => EmptyString
  | String c s' =>
      match trimEnd s' with
      | EmptyString => if isWhiteSpace c then EmptyString else String c EmptyString
      | t => String c t
      end
  end.

Definition trim (s : string) : string := trimEnd (trimStart s).

(** [text.substr(i, 2).toLowerCase()] for [i] from [0] to [text.length - 2] *)
Fixpoint bigramsOf (text : string) : list string :=
  match text with
  | String a ((String b _) as text') =>
      toLowerCase (String a (String b EmptyString)) :: bigramsOf text'
  | _ => []
  end.

(** ** vector-store.ts: embedding and similarity *)

Definition chars : string := "abcdefghijklmnopqrstuvwxyz0123456789 ".
Definition punctuation : string := ".!?,:;-()[]{}".
Definition embeddingLength : nat := 384.

Definition countBigrams (text : string) : JSMap.t nat :=
  fold_left
    (fun bigrams bigram =>
       JSMap.set bigram (match JSMap.get bigrams bigram with Some n => n | None => 0 end + 1) bigrams)
    (bigramsOf text) [].

(** An element the embedding does not have reads as [undefined], which is
    [NaN] in the arithmetic of [cosineSimilarity]. *)
Definition createSimpleEmbedding (text : string) : list float :=
  let len := num (String.length text) in
  let embedding := repeat 0%float embeddingLength in
  (* character frequency features *)
  let embedding :=
    fold_left
      (fun e ic => arraySet nan (fst ic)
                     (num (occurrences (snd ic) (toLowerCase text)) / len)%float e)
      (indexed (list_ascii_of_string chars)) embedding in
  (* n-gram features *)
  let embedding :=
    fst (fold_left
           (fun (st : list float * nat) (entry : string * nat) =>
              let (e, idx) := st in
              if (idx <? List.length e)%nat
              then (arraySet nan idx (num (snd entry) / len)%float e, S idx)
              else (e, idx))
           (slice 0 (Some 100%Z) (countBigrams text))
           (embedding, String.length chars)) in
  (* word length features *)
  let words := splitWhiteSpace text in
  let avgWordLength :=
    orZero (fold_left (fun sum word => (sum + num (String.length word))%float) words 0%float
            / num (List.length words))%float in
  let embedding := arraySet nan 300 (avgWordLength / 20)%float embedding in
  let embedding := arraySet nan 301 (num (List.length words) / len)%float embedding in
  (* punctuation features *)
  fold_left
    (fun e ic =>
       if (302 + fst ic <? List.length e)%nat
       then arraySet nan (302 + fst ic) (num (occurrences (snd ic) text) / len)%float e
       else e)
    (indexed (list_ascii_of_string punctuation)) embedding.

Definition cosineSimilarity (a b : list float) : float :=
  let dotProduct :=
    fold_left (fun sum iv => (sum + snd iv * nth (fst iv) b nan)%float) (indexed a) 0%float in
  let magnitudeA := PrimFloat.sqrt (fold_left (fun sum val => (sum + val * val)%float) a 0%float) in
  let magnitudeB := PrimFloat.sqrt (fold_left (fun sum val => (sum + val * val)%float) b 0%float) in
  if PrimFloat.eqb magnitudeA 0%float || PrimFloat.eqb magnitudeB 0%float then 0%float
  else (dotProduct / (magnitudeA * magnitudeB))%float.

(** ** types.ts *)

Record ChunkMetadata : Type := {
  source : string;
  page : option nat;
  startIndex : Z;
  endIndex : Z
}.

Record DocumentChunk : Type := {
  id : string;
  content : string;
  metadata : ChunkMetadata
}.

(** [DocumentChunk & { embedding: number[] }], the value type of the store *)
Record StoredChunk : Type := {
  chunkOf : DocumentChunk;
  embedding : list float
}.

(** An entry of [similarities] in [similaritySearch] *)
Record Scored : Type := {
  chunk : DocumentChunk;
  similarity : float
}.

(** A line written by [console.error(label, error)] *)
Record ConsoleError : Type := {
  label : string;
  cause : string
}.

(** ** vector-store.ts: InMemoryVectorStore

    The class calls [createSimpleEmbedding] inside [try] blocks.  The
    embedding function is a parameter here, with a result that may be a
    thrown error, so that the [catch] branches are part of the model; the
    store of the repository is the instance [InMemory] below. *)
Module VectorStore.

Definition Documents : Type := JSMap.t StoredChunk.

Section WithEmbedding.

Variable createEmbedding : string -> result (list float).

(** What [addDocuments] leaves behind: the map, the console lines, and
    whether the call returned or threw. *)
Record AddOutcome : Type := {
  documentsAfter : Documents;
  consoleErrors : list ConsoleError;
  completion : result unit
}.

Fixpoint addDocuments (chunks : list DocumentChunk) (documents : Documents) : AddOutcome :=
  match chunks with
  | [] => {| documentsAfter := documents; consoleErrors := []; completion := Ok tt |}
  | chunk :: rest =>
      match createEmbedding (content chunk) with
      | Ok embedding =>
          addDocuments rest
            (JSMap.set (id chunk) {| chunkOf := chunk; embedding := embedding |} documents)
      | Throw message =>
          {| documentsAfter := documents;
             consoleErrors := [{| label := "Error adding chunk " ++ id chunk ++ ":";
                                  cause := message |}];
             completion := Throw ("Failed to add chunk: " ++ message) |}
      end
  end.

(** [(a, b) => b.similarity - a.similarity] *)
Definition comparefn (a b : Scored) : float := (similarity b - similarity a)%float.

(** [item => item.similarity > 0.1] *)
Definition aboveThreshold (item : Scored) : bool := PrimFloat.ltb 0.1%float (similarity item).

(** The loop over [this.documents.values()] *)
Definition similarities (queryEmbedding : list float) (documents : Documents) : list Scored :=
  map (fun doc =>
         {| chunk := {| id := id (chunkOf doc);
                        content := content (chunkOf doc);
                        metadata := metadata (chunkOf doc) |};
            similarity := cosineSimilarity queryEmbedding (embedding doc) |})
      (JSMap.values documents).

(** [similarities.sort(...).slice(0, k).filter(...)], before the final [map] *)
Definition rankedMatches (queryEmbedding : list float) (k : Z) (documents : Documents) : list Scored :=
  filter aboveThreshold
    (slice 0 (Some k) (sort comparefn (similarities queryEmbedding documents))).

Definition similaritySearch (query : string) (k : Z) (documents : Documents)
  : result (list DocumentChunk) :=
  if (JSMap.size documents =? 0)%nat then Ok []
  else
    match createEmbedding query with
    | Ok queryEmbedding => Ok (map chunk (rankedMatches queryEmbedding k documents))
    | Throw message => Throw ("Search failed: " ++ message)
    end.

Definition delete (documentId : string) (documents : Documents) : Documents :=
  let keysToDelete := filter (fun key => String.prefix documentId key) (JSMap.keys documents) in
  fold_left (fun docs key => JSMap.delete key docs) keysToDelete documents.

Definition getAllChunks (documents : Documents) : list DocumentChunk :=
  map (fun doc => {| id := id (chunkOf doc);
                     content := content (chunkOf doc);
                     metadata := metadata (chunkOf doc) |})
      (JSMap.values documents).

Definition clear (documents : Documents) : Documents := [].

Definition isEmpty (documents : Documents) : bool := (JSMap.size documents =? 0)%nat.

End WithEmbedding.

(** The embedding the repository ships: it returns on every string. *)
Definition InMemory (text : string) : result (list float) := Ok (createSimpleEmbedding text).

End VectorStore.

(** ** config.ts *)
Module Config.

(** [Partial<RAGConfig>]: an absent field is [None].  The four counting
    options are integers. *)
Record PartialRAGConfig : Type := {
  groqApiKey : option string;
  model : option string;
  temperature : option float;
  maxTokens : option Z;
  topK : option Z;
  chunkSize : option Z;
  chunkOverlap : option Z
}.

Record RAGConfig : Type := {
  groqApiKey' : string;
  model' : string;
  temperature' : float;
  maxTokens' : Z;
  topK' : Z;
  chunkSize' : Z;
  chunkOverlap' : Z
}.

(** [DEFAULT_RAG_CONFIG], which has no [groqApiKey] *)
Definition DEFAULT_RAG_CONFIG : PartialRAGConfig := {|
  groqApiKey := None;
  model := Some "llama-3.1-8b-instant";
  temperature := Some 0.1%float;
  maxTokens := Some 1024%Z;
  topK := Some 4%Z;
  chunkSize := Some 1000%Z;
  chunkOverlap := Some 200%Z
|}.

(** [!config.groqApiKey?.trim()] *)
Definition missingKey (key : option string) : bool :=
  match key with
  | None => true
  | Some k => String.eqb (trim k) ""
  end.

(** [config.f && config.f < bound] for a counting option: [undefined] and [0] are falsy *)
Definition presentAndBelow (field : option Z) (bound : Z) : bool :=
  match field with
  | None => false
  | Some n => negb (n =? 0)%Z && (n <? bound)%Z
  end.

(** [config.temperature && (config.temperature < 0 || config.temperature > 1)] *)
Definition temperatureOutOfRange (field : option float) : bool :=
  match field with
  | None => false
  | Some t => truthy t && (PrimFloat.ltb t 0%float || PrimFloat.ltb 1%float t)
  end.

Definition pushIf (condition : bool) (message : string) (errors : list string) : list string :=
  if condition then (errors ++ [message])%list else errors.

Definition validateConfig (config : PartialRAGConfig) : list string :=
  let errors := [] in
  let errors := pushIf (missingKey (groqApiKey config)) "Groq API key is required" errors in
  let errors := pushIf (temperatureOutOfRange (temperature config))
                  "Temperature must be between 0 and 1" errors in
  let errors := pushIf (presentAndBelow (maxTokens config) 1)
                  "Max tokens must be greater than 0" errors in
  let errors := pushIf (presentAndBelow (topK config) 1)
                  "Top K must be greater than 0" errors in
  let errors := pushIf (presentAndBelow (chunkSize config) 100)
                  "Chunk size must be at least 100 characters" errors in
  errors.

(** [{ ...DEFAULT_RAG_CONFIG, ...config } as RAGConfig]: a field of
    [config] wins; the cast leaves a key that is still absent as it is
    (the empty string stands for it: validation has refused such a record
    before the merge is used). *)
Definition orElse {A : Type} (field fallback : option A) (otherwise : A) : A :=
  match field, fallback with
  | Some v, _ => v
  | None, Some d => d
  | None, None => otherwise
  end.

Definition withDefaults (config : PartialRAGConfig) : RAGConfig := {|
  groqApiKey' := orElse (groqApiKey config) (groqApiKey DEFAULT_RAG_CONFIG) "";
  model' := orElse (model config) (model DEFAULT_RAG_CONFIG) "";
  temperature' := orElse (temperature config) (temperature DEFAULT_RAG_CONFIG) 0%float;
  maxTokens' := orElse (maxTokens config) (maxTokens DEFAULT_RAG_CONFIG) 0%Z;
  topK' := orElse (topK config) (topK DEFAULT_RAG_CONFIG) 0%Z;
  chunkSize' := orElse (chunkSize config) (chunkSize DEFAULT_RAG_CONFIG) 0%Z;
  chunkOverlap' := orElse (chunkOverlap config) (chunkOverlap DEFAULT_RAG_CONFIG) 0%Z
|}.

End Config.

(** ** prompts.ts *)
Module Prompts.

Definition nl : string := String (ascii_of_nat 10) EmptyString.

(** [RAG_PROMPT_TEMPLATE.format({ context, question })]: the template text
    with its two placeholders filled in. *)
Definition RAG_PROMPT_TEMPLATE (context question : string) : string :=
  nl ++
  "You are a helpful AI assistant that answers questions based on the provided context. " ++ nl ++
  "Follow these guidelines:" ++ nl ++
  nl ++
  "1. Use ONLY the information from the provided context to answer questions" ++ nl ++
  "2. If the context doesn't contain enough information, clearly state this limitation" ++ nl ++
  "3. Provide specific, accurate, and helpful answers" ++ nl ++
  "4. Cite relevant parts of the context when possible" ++ nl ++
  "5. If asked about something not in the context, politely explain you can only answer based on the provided documents" ++ nl ++
  nl ++
  "Context:" ++ nl ++
  context ++ nl ++
  nl ++
  "Question: " ++ question ++ nl ++
  nl ++
  "Answer: Let me help you based on the information provided in the documents." ++ nl.

(** [Array.prototype.join] *)
Fixpoint join (separator : string) (parts : list string) : string :=
  match parts with
  | [] => ""
  | [part] => part
  | part :: rest => part ++ separator ++ join separator rest
  end.

Definition formatContextChunks (chunks : list DocumentChunk) : string :=
  join (nl ++ "---" ++ nl ++ nl)
    (map (fun ic : nat * DocumentChunk =>
            let (index, chunk) := ic in
            let source := if String.eqb (source (metadata chunk)) "" then "Unknown"
                          else source (metadata chunk) in
            let page := match page (metadata chunk) with
                        | Some (S n) => " (Page " ++ showNat (S n) ++ ")"
                        | _ => ""
                        end in
            "[Source " ++ showNat (index + 1) ++ ": " ++ source ++ page ++ "]" ++ nl
            ++ content chunk ++ nl)
         (indexed chunks)).

End Prompts.

(** ** rag-pipeline.ts *)

(** An entry of [conversationHistory] *)
Module Exchange.
Record t : Type := { question : string; answer : string }.
End Exchange.

Module RAGQuery.
Record t : Type := {
  id : string;
  question : string;
  context : list string;
  answer : string;
  timestamp : Z;
  sources : list string
}.
End RAGQuery.

(** What the generator of [LLMProvider.stream] does when it is resumed:
    it hands over one more fragment, finishes, or throws. *)
Inductive LLMStream : Type :=
| Fragment (text : string) (rest : LLMStream)
| EndOfStream
| StreamError (message : string).

(** [LLMProvider] of types.ts.  The backend is a remote model: a call may
    change its state [L], and the answer depends on that state. *)
Class LLMProvider (L : Type) : Type := {
  generate : L -> string -> L * result string;
  stream : L -> string -> L * LLMStream
}.

(** [createConversationPrompt], which reads the last three exchanges *)
Definition createConversationPrompt (question context : string)
  (conversationHistory : list Exchange.t) : string :=
  let prompt := "" in
  let prompt :=
    if (0 <? List.length conversationHistory)%nat
    then
      let prompt := prompt ++ "Previous conversation:" ++ Prompts.nl in
      let prompt :=
        fold_left
          (fun prompt e =>
             prompt ++ "Q: " ++ Exchange.question e ++ Prompts.nl
                    ++ "A: " ++ Exchange.answer e ++ Prompts.nl ++ Prompts.nl)
          (slice (-3) None conversationHistory) prompt in
      prompt ++ "---" ++ Prompts.nl ++ Prompts.nl
    else prompt in
  prompt ++ Prompts.RAG_PROMPT_TEMPLATE context question.

(** [[...new Set(names)]]: the first occurrence of each name, in order *)
Definition unique (names : list string) : list string :=
  fold_left
    (fun seen name => if existsb (String.eqb name) seen then seen else (seen ++ [name])%list)
    names [].

(** An item a [streamQuery] generator yields *)
(** ['context' | 'answer'] *)
Inductive EventType : Type := TypeContext | TypeAnswer.
Record StreamEvent : Type := { type : EventType; eventContent : string }.

Module Pipeline.

Section WithCollaborators.

Variable createEmbedding : string -> result (list float).
Context {L : Type} {llm : LLMProvider L}.

(** The fields of [RAGPipeline] that answering a question reads or writes.
    The document processor takes no part in it; the constructor and
    [updateConfig], which build and replace its splitter, are modelled with
    the splitter beside this record (module [RAGPipeline]). *)
Record t : Type := {
  llmProvider : L;
  vectorStore : VectorStore.Documents;
  config : Config.RAGConfig;
  conversationHistory : list Exchange.t
}.

Definition retrieveContext (question : string) (p : t) : list DocumentChunk :=
  match VectorStore.similaritySearch createEmbedding question (Config.topK' (config p)) (vectorStore p) with
  | Ok chunks => chunks
  | Throw _ => []
  end.

(** [this.conversationHistory.push(e)] followed by the cut to the last five *)
Definition remember (e : Exchange.t) (history : list Exchange.t) : list Exchange.t :=
  let history := (history ++ [e])%list in
  if (5 <? List.length history)%nat then slice (-5) None history else history.

Definition noInformation : string :=
  "I don't have any relevant information in my knowledge base to answer your question. Please try uploading relevant documents first.".

Definition noInformationStreamed : string :=
  "I don't have any relevant information in my knowledge base to answer your question.".

(** [query(question)].  [queryId] and [now] are what [Date.now()],
    [Math.random()] and [new Date()] give during the call. *)
Definition query (queryId : string) (now : Z) (question : string) (p : t)
  : t * result RAGQuery.t :=
  let relevantChunks := retrieveContext question p in
  if (List.length relevantChunks =? 0)%nat
  then (p, Ok {| RAGQuery.id := queryId;
                 RAGQuery.question := question;
                 RAGQuery.context := [];
                 RAGQuery.answer := noInformation;
                 RAGQuery.timestamp := now;
                 RAGQuery.sources := [] |})
  else
    let formattedContext := Prompts.formatContextChunks relevantChunks in
    let prompt := createConversationPrompt question formattedContext (conversationHistory p) in
    match generate (llmProvider p) prompt with
    | (backend, Ok answer) =>
        let result := {| RAGQuery.id := queryId;
                         RAGQuery.question := question;
                         RAGQuery.context := map content relevantChunks;
                         RAGQuery.answer := answer;
                         RAGQuery.timestamp := now;
                         RAGQuery.sources := unique (map (fun c => source (metadata c)) relevantChunks) |} in
        ({| llmProvider := backend;
            vectorStore := vectorStore p;
            config := config p;
            conversationHistory :=
              remember {| Exchange.question := question; Exchange.answer := answer |}
                       (conversationHistory p) |},
         Ok result)
    | (backend, Throw message) =>
        ({| llmProvider := backend;
            vectorStore := vectorStore p;
            config := config p;
            conversationHistory := conversationHistory p |},
         Throw ("Query failed: " ++ message))
    end.

(** *** [streamQuery]: an async generator

    A generator object is the point where its body is suspended, together
    with the local variables alive there.  [next] resumes the body up to
    its next [yield], [return] or [throw]. *)
Inductive Generator : Type :=
| NotStarted (queryId : string) (now : Z) (question : string)
| AfterSearching (queryId : string) (now : Z) (question : string)
| AfterFallback (result : RAGQuery.t)
| AfterFound (queryId : string) (now : Z) (question : string) (relevantChunks : list DocumentChunk)
| InLoop (queryId : string) (now : Z) (question : string) (relevantChunks : list DocumentChunk)
         (fullAnswer : string) (fragments : LLMStream)
| Finished.

Inductive IteratorResult : Type :=
| Yielded (event : StreamEvent)
| Returned (result : RAGQuery.t)
| Thrown (message : string)
| Done.

Definition streamQuery (queryId : string) (now : Z) (question : string) : Generator :=
  NotStarted queryId now question.

(** One turn of [for await (const chunk of this.llmProvider.stream(prompt))]
    and what follows the loop *)
Definition resumeLoop (queryId : string) (now : Z) (question : string)
  (relevantChunks : list DocumentChunk) (fullAnswer : string) (fragments : LLMStream) (p : t)
  : t * Generator * IteratorResult :=
  match fragments with
  | Fragment text rest =>
      (p, InLoop queryId now question relevantChunks (fullAnswer ++ text) rest,
       Yielded {| type := TypeAnswer; eventContent := text |})
  | EndOfStream =>
      let result := {| RAGQuery.id := queryId;
                       RAGQuery.question := question;
                       RAGQuery.context := map content relevantChunks;
                       RAGQuery.answer := fullAnswer;
                       RAGQuery.timestamp := now;
                       RAGQuery.sources := unique (map (fun c => source (metadata c)) relevantChunks) |} in
      ({| llmProvider := llmProvider p;
          vectorStore := vectorStore p;
          config := config p;
          conversationHistory :=
            remember {| Exchange.question := question; Exchange.answer := fullAnswer |}
                     (conversationHistory p) |},
       Finished, Returned result)
  | StreamError message =>
      (p, Finished, Thrown ("Stream query failed: " ++ message))
  end.

Definition next (p : t) (g : Generator) : t * Generator * IteratorResult :=
  match g with
  | NotStarted queryId now question =>
      (p, AfterSearching queryId now question,
       Yielded {| type := TypeContext; eventContent := "Searching knowledge base..." |})
  | AfterSearching queryId now question =>
      let relevantChunks := retrieveContext question p in
      if (List.length relevantChunks =? 0)%nat
      then
        let result := {| RAGQuery.id := queryId;
                         RAGQuery.question := question;
                         RAGQuery.context := [];
                         RAGQuery.answer := noInformationStreamed;
                         RAGQuery.timestamp := now;
                         RAGQuery.sources := [] |} in
        (p, AfterFallback result,
         Yielded {| type := TypeAnswer; eventContent := RAGQuery.answer result |})
      else
        (p, AfterFound queryId now question relevantChunks,
         Yielded {| type := TypeContext;
                    eventContent := "Found " ++ showNat (List.length relevantChunks)
                                    ++ " relevant document(s). Generating response..." |})
  | AfterFallback result => (p, Finished, Returned result)
  | AfterFound queryId now question relevantChunks =>
      let formattedContext := Prompts.formatContextChunks relevantChunks in
      let prompt := createConversationPrompt question formattedContext (conversationHistory p) in
      let (backend, fragments) := stream (llmProvider p) prompt in
      resumeLoop queryId now question relevantChunks "" fragments
        {| llmProvider := backend;
           vectorStore := vectorStore p;
           config := config p;
           conversationHistory := conversationHistory p |}
  | InLoop queryId now question relevantChunks fullAnswer fragments =>
      resumeLoop queryId now question relevantChunks fullAnswer fragments p
  | Finished => (p, Finished, Done)
  end.

(** [generator.return()]: what [break] in a [for await] loop, or a
    consumer that gives up, does to a suspended generator.  The body has no
    [finally] block, so nothing of it runs. *)
Definition cancel (p : t) (g : Generator) : t * Generator := (p, Finished).

(** A consumer that asks for at most [pulls] items and records what it was
    handed; it stops asking once the generator has finished. *)
Fixpoint consume (pulls : nat) (p : t) (g : Generator) : t * Generator * list IteratorResult :=
  match pulls with
  | O => (p, g, [])
  | S pulls' =>
      match g with
      | Finished => (p, g, [])
      | _ =>
          let '(p1, g1, item) := next p g in
          let '(p2, g2, items) := consume pulls' p1 g1 in
          (p2, g2, item :: items)
      end
  end.





(** Calls of [query] one after the other, each awaited before the next *)
Fixpoint queries (asks : list (string * Z * string)) (p : t) : t * list (result RAGQuery.t) :=
  match asks with
  | [] => (p, [])
  | (queryId, now, question) :: rest =>
      let (p1, outcome) := query queryId now question p in
      let (p2, outcomes) := queries rest p1 in
      (p2, outcome :: outcomes)
  end.

End WithCollaborators.



(** What [query] returns when nothing was retrieved *)
Definition fallback (queryId : string) (now : Z) (question : string) : RAGQuery.t :=
  {| RAGQuery.id := queryId;
     RAGQuery.question := question;
     RAGQuery.context := [];
     RAGQuery.answer := noInformation;
     RAGQuery.timestamp := now;
     RAGQuery.sources := [] |}.

End Pipeline.

(** ** vector-store.ts: the remaining methods of InMemoryVectorStore *)
Module InMemoryVectorStore.

Record Stats : Type := {
  totalChunks : nat;
  totalDocuments : nat;
  avgChunkLength : float;
  sources : list string
}.

Definition getStats (documents : VectorStore.Documents) : Stats :=
  let chunks := VectorStore.getAllChunks documents in
  let sources := unique (map (fun chunk => source (metadata chunk)) chunks) in
  {| totalChunks := List.length chunks;
     totalDocuments := List.length sources;
     avgChunkLength :=
       orZero (fold_left (fun sum chunk => (sum + num (String.length (content chunk)))%float)
                 chunks 0%float
               / num (List.length chunks))%float;
     sources := sources |}.

Definition getChunksBySource (source' : string) (documents : VectorStore.Documents)
  : list DocumentChunk :=
  filter (fun chunk => String.eqb (source (metadata chunk)) source')
    (VectorStore.getAllChunks documents).

(** The [options] argument of [advancedSearch]; an absent field is [None]. *)
Record SearchOptions : Type := {
  k : option Z;
  minSimilarity : option float;
  sourceFilter : option (list string);
  maxChunkLength : option Z
}.

Section WithEmbedding.

Variable createEmbedding : string -> result (list float).

Definition advancedSearch (query : string) (options : SearchOptions)
  (documents : VectorStore.Documents) : result (list DocumentChunk) :=
  let k := match k options with Some k => k | None => 4%Z end in
  match VectorStore.similaritySearch createEmbedding query (k * 2) documents with
  | Throw message => Throw message
  | Ok results =>
      let results :=
        match sourceFilter options with
        | Some (name :: names) =>
            filter (fun chunk => existsb (String.eqb (source (metadata chunk))) (name :: names))
              results
        | _ => results
        end in
      let results :=
        match maxChunkLength options with
        | Some limit =>
            if (limit =? 0)%Z then results
            else filter (fun chunk => (Z.of_nat (String.length (content chunk)) <=? limit)%Z) results
        | None => results
        end in
      Ok (slice 0 (Some k) results)
  end.

End WithEmbedding.

End InMemoryVectorStore.

(** ** document-processor.ts *)

(** What the processor reads of a browser [File] *)
Module File.
Record t : Type := { name : string; type : string; size : Z }.
End File.

Module Document.
Record t : Type := {
  id : string;
  name : string;
  content : string;
  fileType : string;
  size : Z;
  uploadedAt : Z;
  processedAt : option Z;
  chunks : option (list DocumentChunk);
  status : string
}.
End Document.

Module DocumentProcessor.

(** [SUPPORTED_FILE_TYPES] of config.ts *)
Definition SUPPORTED_FILE_TYPES : list (string * string) :=
  [("application/pdf", "pdf");
   ("text/plain", "txt");
   ("application/vnd.openxmlformats-officedocument.wordprocessingml.document", "docx")].

(** [Object.keys(SUPPORTED_FILE_TYPES).includes(mimeType)] *)
Definition supported (mimeType : string) : bool :=
  existsb (String.eqb mimeType) (map fst SUPPORTED_FILE_TYPES).

(** [10 * 1024 * 1024] *)
Definition maxSize : Z := 10485760.

Definition validateFile (file : File.t) : result unit :=
  if negb (supported (File.type file))
  then Throw ("Unsupported file type: " ++ File.type file ++ ". Supported types: PDF, TXT, DOCX")
  else if (maxSize <? File.size file)%Z
  then Throw "File too large. Maximum size is 10MB"
  else if (File.size file =? 0)%Z
  then Throw "File is empty"
  else Ok tt.

(** [typeMap[mimeType] || 'txt'] *)
Definition getFileType (mimeType : string) : string :=
  match find (fun entry => String.eqb (fst entry) mimeType) SUPPORTED_FILE_TYPES with
  | Some entry => snd entry
  | None => "txt"
  end.

(** [`${document.id}_chunk_${index}`] *)
Definition chunkId (documentId : string) (index : nat) : string :=
  documentId ++ "_chunk_" ++ showNat index.

(** [s.indexOf(part)]: where [part] first occurs in [s], or [-1] *)
Definition indexOf (s part : string) : Z :=
  match String.index 0 part s with
  | Some n => Z.of_nat n
  | None => (-1)%Z
  end.

(** The text splitter and the three parsers are libraries outside the
    repository: they are parameters, each with a result that may be a
    thrown error. *)
Section WithLibraries.

Variable splitText : string -> result (list string).
Variable extractFromPDF extractFromText extractFromDocx : File.t -> result string.

Definition createChunks (document : Document.t) : result (list DocumentChunk) :=
  if String.eqb (Document.content document) "" then Throw "Document content is empty"
  else
    match splitText (Document.content document) with
    | Ok texts =>
        Ok (map (fun it : nat * string =>
                   let (index, text) := it in
                   {| id := chunkId (Document.id document) index;
                      content := trim text;
                      metadata :=
                        {| source := Document.name document;
                           page := None;
                           startIndex := indexOf (Document.content document) text;
                           endIndex := indexOf (Document.content document) text
                                       + Z.of_nat (String.length text) |} |})
                (indexed texts))
    | Throw message => Throw ("Failed to create chunks: " ++ message)
    end.

Definition extractText (file : File.t) : result string :=
  let mimeType := File.type file in
  if negb (supported mimeType) then Throw ("Unsupported file type: " ++ mimeType)
  else
    let extracted :=
      if String.eqb mimeType "application/pdf" then extractFromPDF file
      else if String.eqb mimeType "text/plain" then extractFromText file
      else if String.eqb mimeType
                "application/vnd.openxmlformats-officedocument.wordprocessingml.document"
      then extractFromDocx file
      else Throw ("Unsupported file type: " ++ mimeType) in
    match extracted with
    | Ok text => Ok text
    | Throw message => Throw ("Failed to extract text: " ++ message)
    end.

(** [processDocument(file)].  [documentId] and [now] are what
    [Date.now()], [Math.random()] and [new Date()] give during the call. *)
Definition processDocument (documentId : string) (now : Z) (file : File.t) : result Document.t :=
  match validateFile file with
  | Throw message => Throw message
  | Ok _ =>
      match extractText file with
      | Throw message => Throw message
      | Ok text =>
          if String.eqb (trim text) "" then Throw "No text content found in document"
          else
            let document :=
              {| Document.id := documentId;
                 Document.name := File.name file;
                 Document.content := text;
                 Document.fileType := getFileType (File.type file);
                 Document.size := File.size file;
                 Document.uploadedAt := now;
                 Document.processedAt := None;
                 Document.chunks := None;
                 Document.status := "processing" |} in
            match createChunks document with
            | Throw message => Throw message
            | Ok chunks =>
                Ok {| Document.id := documentId;
                      Document.name := File.name file;
                      Document.content := text;
                      Document.fileType := getFileType (File.type file);
                      Document.size := File.size file;
                      Document.uploadedAt := now;
                      Document.processedAt := Some now;
                      Document.chunks := Some chunks;
                      Document.status := "ready" |}
            end
      end
  end.

End WithLibraries.

End DocumentProcessor.

(** ** rag-pipeline.ts and llm-provider.ts: the remaining methods *)
Module RAGPipeline.

Section WithCollaborators.

Variable createEmbedding : string -> result (list float).
Variable processDocument : File.t -> result Document.t.
Context {L : Type} {llm : LLMProvider L}.

(** The components are built on libraries outside the repository.
    [new GroqLLMProvider(config)] constructs the client of the Groq
    library, and [new DocumentProcessor] and its [updateConfig] construct
    the text splitter of the LangChain library from a chunk size and an
    overlap.  The library constructors are parameters, and each may throw.
    A [Splitter] is the state of the document processor. *)
Variable newLLMProvider : Config.RAGConfig -> result L.
Variable Splitter : Type.
Variable newSplitter : Z -> Z -> result Splitter.
(** [llmProvider.updateConfig?.(config)]: the backend after the call, and
    whether the call returned or threw.  For a backend without the method
    it is [fun backend _ => (backend, Ok tt)]. *)
Variable reconfigure : L -> Config.RAGConfig -> L * result unit.

(** [{ ...this.config, ...newConfig }] *)
Definition merged (current : Config.RAGConfig) (newConfig : Config.PartialRAGConfig)
  : Config.PartialRAGConfig :=
  let pick {A : Type} (field : option A) (present : A) : option A :=
    match field with Some v => Some v | None => Some present end in
  {| Config.groqApiKey := pick (Config.groqApiKey newConfig) (Config.groqApiKey' current);
     Config.model := pick (Config.model newConfig) (Config.model' current);
     Config.temperature := pick (Config.temperature newConfig) (Config.temperature' current);
     Config.maxTokens := pick (Config.maxTokens newConfig) (Config.maxTokens' current);
     Config.topK := pick (Config.topK newConfig) (Config.topK' current);
     Config.chunkSize := pick (Config.chunkSize newConfig) (Config.chunkSize' current);
     Config.chunkOverlap := pick (Config.chunkOverlap newConfig) (Config.chunkOverlap' current) |}.

(** [new RAGPipeline(config)]: the pipeline and the splitter of its
    document processor.  The components are built after the validation, the
    backend first; the constructor has no [try], so what a component's
    constructor throws reaches the caller as it is. *)
Definition create (partial : Config.PartialRAGConfig)
  : result (Pipeline.t (L := L) * Splitter) :=
  let errors := Config.validateConfig partial in
  if (0 <? List.length errors)%nat
  then Throw ("Configuration errors: " ++ Prompts.join ", " errors)
  else
    let config := Config.withDefaults partial in
    match newLLMProvider config with
    | Throw message => Throw message
    | Ok backend =>
        match newSplitter (Config.chunkSize' config) (Config.chunkOverlap' config) with
        | Throw message => Throw message
        | Ok splitter =>
            Ok ({| Pipeline.llmProvider := backend;
                   Pipeline.vectorStore := [];
                   Pipeline.config := config;
                   Pipeline.conversationHistory := [] |},
                splitter)
        end
    end.

(** [updateConfig(newConfig)] on a pipeline and the splitter of its
    processor.  The configuration is replaced as soon as the validation has
    passed; the backend and then the processor are told of it afterwards,
    and neither call is in a [try].  [DocumentProcessor.updateConfig] assigns
    the new splitter only when its constructor has returned. *)
Definition updateConfig (newConfig : Config.PartialRAGConfig)
  (state : Pipeline.t (L := L) * Splitter) : (Pipeline.t (L := L) * Splitter) * result unit :=
  let (p, splitter) := state in
  let errors := Config.validateConfig (merged (Pipeline.config p) newConfig) in
  if (0 <? List.length errors)%nat
  then ((p, splitter), Throw ("Configuration errors: " ++ Prompts.join ", " errors))
  else
    let config := Config.withDefaults (merged (Pipeline.config p) newConfig) in
    let (backend, told) := reconfigure (Pipeline.llmProvider p) config in
    let p' := {| Pipeline.llmProvider := backend;
                 Pipeline.vectorStore := Pipeline.vectorStore p;
                 Pipeline.config := config;
                 Pipeline.conversationHistory := Pipeline.conversationHistory p |} in
    match told with
    | Throw message => ((p', splitter), Throw message)
    | Ok _ =>
        match newSplitter (Config.chunkSize' config) (Config.chunkOverlap' config) with
        | Ok splitter' => ((p', splitter'), Ok tt)
        | Throw message => ((p', splitter), Throw message)
        end
    end.

Definition addDocument (file : File.t) (p : Pipeline.t (L := L))
  : Pipeline.t (L := L) * result Document.t :=
  match processDocument file with
  | Throw message => (p, Throw ("Failed to add document: " ++ message))
  | Ok document =>
      match Document.chunks document with
      | None => (p, Ok document)
      | Some chunks =>
          let outcome := VectorStore.addDocuments createEmbedding chunks (Pipeline.vectorStore p) in
          let p' := {| Pipeline.llmProvider := Pipeline.llmProvider p;
                       Pipeline.vectorStore := VectorStore.documentsAfter outcome;
                       Pipeline.config := Pipeline.config p;
                       Pipeline.conversationHistory := Pipeline.conversationHistory p |} in
          match VectorStore.completion outcome with
          | Ok _ => (p', Ok document)
          | Throw message => (p', Throw ("Failed to add document: " ++ message))
          end
      end
  end.

Definition removeDocument (documentId : string) (p : Pipeline.t (L := L)) : Pipeline.t (L := L) :=
  {| Pipeline.llmProvider := Pipeline.llmProvider p;
     Pipeline.vectorStore := VectorStore.delete documentId (Pipeline.vectorStore p);
     Pipeline.config := Pipeline.config p;
     Pipeline.conversationHistory := Pipeline.conversationHistory p |}.

End WithCollaborators.

(** [validateGroqApiKey] of llm-provider.ts *)
Definition validateGroqApiKey (apiKey : string) : bool :=
  String.prefix "gsk_" apiKey && (20 <? String.length apiKey)%nat.

(** The fragments a backend streams before it finishes *)
Fixpoint fragments (texts : list string) : LLMStream :=
  match texts with
  | [] => EndOfStream
  | text :: rest => Fragment text (fragments rest)
  end.

(** The fragments a backend streams before it fails *)
Fixpoint fragmentsThenError (texts : list string) (message : string) : LLMStream :=
  match texts with
  | [] => StreamError message
  | text :: rest => Fragment text (fragmentsThenError rest message)
  end.

End RAGPipeline.

(** Every character of [s] is white space. *)
Fixpoint allWhiteSpace (s : string) : bool :=
  match s with
  | EmptyString => true
  | String c s' => isWhiteSpace c && allWhiteSpace s'
  end.

(** What validation lets through: a key that is not blank, a temperature
    that is zero, not a number, or between 0 and 1, and counting options
    that are zero or within their bounds. *)
Definition accepted (config : Config.RAGConfig) : Prop :=
  allWhiteSpace (Config.groqApiKey' config) = false
  /\ PrimFloat.ltb (Config.temperature' config) 0%float = false
  /\ PrimFloat.ltb 1%float (Config.temperature' config) = false
  /\ (0 <= Config.maxTokens' config)%Z
  /\ (0 <= Config.topK' config)%Z
  /\ (Config.chunkSize' config = 0 \/ 100 <= Config.chunkSize' config)%Z.

(** The store holds one entry per key, each under the id of its chunk. *)
Definition wellKeyed (documents : VectorStore.Documents) : Prop :=
  NoDup (JSMap.keys documents)
  /\ Forall (fun entry => fst entry = id (chunkOf (snd entry))) documents.

(** ** Notions the statements below are written with *)

(** ECMAScript fixes the result of [sort] only when [comparefn] is a
    consistent comparator for the values of the array.  What the sort uses
    of it: two values are never each to be placed after the other, and
    "need not come after" is transitive. *)
Definition consistentOn {A : Type} (comparefn : A -> A -> float) (l : list A) : bool :=
  forallb (fun a =>
    forallb (fun b =>
      (negb (sortsAfter comparefn a b) || negb (sortsAfter comparefn b a))
      && forallb (fun c =>
           sortsAfter comparefn a b || sortsAfter comparefn b c
           || negb (sortsAfter comparefn a c)) l) l) l.

(** [a] need not come after [b] *)
Definition notAfter {A : Type} (comparefn : A -> A -> float) (a b : A) : Prop :=
  sortsAfter comparefn a b = false.

(** What [consistentOn] says, as propositions *)
Definition Consistent {A : Type} (comparefn : A -> A -> float) (l : list A) : Prop :=
  (forall a b, In a l -> In b l -> sortsAfter comparefn a b = true -> sortsAfter comparefn b a = false)
  /\ (forall a b c, In a l -> In b l -> In c l ->
        sortsAfter comparefn a b = false -> sortsAfter comparefn b c = false ->
        sortsAfter comparefn a c = false).

(** The test [similarity > 0.1] agrees with the order of the comparator:
    whatever need not come after a value above the threshold is above it
    too. *)
Definition thresholdFollowsOrder (l : list Scored) : bool :=
  forallb (fun a =>
    forallb (fun b =>
      sortsAfter VectorStore.comparefn a b
      || negb (VectorStore.aboveThreshold b) || VectorStore.aboveThreshold a) l) l.

(** The scores of the stored entries against a query are numbers that
    compare with each other and with [0.1].  IEEE arithmetic makes this
    true of every list of scores none of which is [NaN]; a [NaN] score (the
    score of a chunk or of a query whose text is empty) breaks it. *)
Definition comparableScores (queryEmbedding : list float) (documents : VectorStore.Documents) : bool :=
  let scored := VectorStore.similarities queryEmbedding documents in
  consistentOn VectorStore.comparefn scored && thresholdFollowsOrder scored.

(** The score of a stored entry against the embedding of a query *)
Definition scoreOf (queryEmbedding : list float) (stored : StoredChunk) : float :=
  cosineSimilarity queryEmbedding (embedding stored).

(** A stored entry as the loop of [similaritySearch] scores it *)
Definition scoredEntry (queryEmbedding : list float) (stored : StoredChunk) : Scored :=
  {| chunk := {| id := id (chunkOf stored);
                 content := content (chunkOf stored);
                 metadata := metadata (chunkOf stored) |};
     similarity := scoreOf queryEmbedding stored |}.

(** The sign of the difference of two scores tells which is the larger:
    [b - a > 0] exactly when [a < b].  IEEE arithmetic makes this true of
    any two numbers. *)
Definition differencesFollowScores (scores : list float) : bool :=
  forallb (fun a =>
    forallb (fun b =>
      Bool.eqb (PrimFloat.ltb 0%float (b - a)%float) (PrimFloat.ltb a b)) scores) scores.

(** The scores of the stored entries against a query are ordered as
    numbers are: [comparableScores], and differences that follow the
    scores.  A store with a [NaN] score beside a score above [0.1] is not
    of this kind. *)
Definition orderedScores (queryEmbedding : list float) (documents : VectorStore.Documents) : bool :=
  comparableScores queryEmbedding documents
  && differencesFollowScores (map (scoreOf queryEmbedding) (JSMap.values documents)).

(** Sorting descending by score, in the words of the specification: an
    entry goes behind those that score higher, and stays before those that
    do not. *)
Fixpoint insertByScore {A : Type} (score : A -> float) (x : A) (sorted : list A) : list A :=
  match sorted with
  | [] => [x]
  | y :: rest =>
      if PrimFloat.ltb (score x) (score y) then y :: insertByScore score x rest
      else x :: y :: rest
  end.

Fixpoint sortByScore {A : Type} (score : A -> float) (l : list A) : list A :=
  match l with
  | [] => []
  | x :: rest => insertByScore score x (sortByScore score rest)
  end.

(** The search as section 4.3 of the specification words it: score every
    entry, sort descending, drop what does not exceed [0.1], return the
    first [k]. *)
Definition specifiedSearch (createEmbedding : string -> result (list float))
  (query : string) (k : Z) (documents : VectorStore.Documents) : result (list DocumentChunk) :=
  match documents with
  | [] => Ok []
  | _ =>
      match createEmbedding query with
      | Ok queryEmbedding =>
          Ok (map chunkOf
                (firstn (Z.to_nat k)
                   (filter (fun stored => PrimFloat.ltb 0.1%float (scoreOf queryEmbedding stored))
                      (sortByScore (scoreOf queryEmbedding) (JSMap.values documents)))))
      | Throw message => Throw ("Search failed: " ++ message)
      end
  end.

(** How many stored entries score above [0.1] and not lower than
    [stored], itself counted: its place among the scores above the
    threshold, ties counted against it. *)
Definition standing (queryEmbedding : list float) (stored : StoredChunk)
  (documents : VectorStore.Documents) : nat :=
  List.length
    (filter (fun other =>
               PrimFloat.ltb 0.1%float (scoreOf queryEmbedding other)
               && negb (PrimFloat.ltb (scoreOf queryEmbedding other) (scoreOf queryEmbedding stored)))
       (JSMap.values documents)).

(** No result scores higher than one before it. *)
Definition descending (matches : list Scored) : Prop :=
  StronglySorted (fun earlier later => PrimFloat.ltb (similarity earlier) (similarity later) = false)
    matches.

(** Each result scores strictly higher than all after it. *)
Definition strictlyDescending (matches : list Scored) : Prop :=
  StronglySorted (fun a b => PrimFloat.ltb (similarity b) (similarity a) = true) matches.

(** [haystack.includes(needle)] *)
Fixpoint includes (haystack needle : string) : bool :=
  String.prefix needle haystack
  || match haystack with
     | EmptyString => false
     | String _ rest => includes rest needle
     end.

(** The sentences of the specification that the code does not bear out,
    as they are worded. *)

(** Section 4.3, for every store: the search returns what dropping the
    low scores before the cut to [k] returns, and every stored entry that
    scores above [0.1] and stands among the first [k] such scores is among
    the results. *)
Definition specifiedRetrieval (createEmbedding : string -> result (list float))
  (query : string) (k : Z) (documents : VectorStore.Documents) : Prop :=
  VectorStore.similaritySearch createEmbedding query k documents
  = specifiedSearch createEmbedding query k documents
  /\ forall queryEmbedding stored,
       createEmbedding query = Ok queryEmbedding ->
       In stored (JSMap.values documents) ->
       PrimFloat.ltb 0.1%float (scoreOf queryEmbedding stored) = true ->
       (Z.of_nat (standing queryEmbedding stored documents) <= k)%Z ->
       exists results,
         VectorStore.similaritySearch createEmbedding query k documents = Ok results
         /\ In (chunkOf stored) results.

(** Section 8: at most [k] results, each above [0.1], strictly descending. *)
Definition specifiedResults (createEmbedding : string -> result (list float))
  (query : string) (k : Z) (documents : VectorStore.Documents) : Prop :=
  exists queryEmbedding,
    createEmbedding query = Ok queryEmbedding
    /\ let matches := VectorStore.rankedMatches queryEmbedding k documents in
       VectorStore.similaritySearch createEmbedding query k documents = Ok (map chunk matches)
       /\ (Z.of_nat (List.length matches) <= k)%Z
       /\ Forall (fun m => PrimFloat.ltb 0.1%float (similarity m) = true) matches
       /\ strictlyDescending matches.


(** Section 4.3: when the embedding of [failing] fails, only its
    insertion is abandoned, and the error that reaches the caller names it. *)
Definition specifiedPartialInsert (createEmbedding : string -> result (list float))
  (before : list DocumentChunk) (failing : DocumentChunk) (later : list DocumentChunk)
  (documents : VectorStore.Documents) : Prop :=
  let outcome := VectorStore.addDocuments createEmbedding (before ++ failing :: later) documents in
  VectorStore.documentsAfter outcome
  = VectorStore.documentsAfter (VectorStore.addDocuments createEmbedding (before ++ later) documents)
  /\ exists message,
       VectorStore.completion outcome = Throw message /\ includes message (id failing) = true.

(** Section 3: an overlap that is not below the chunk size, a token limit
    that is not positive and a [topK] below one are each reported. *)
Definition specifiedValidation (config : Config.PartialRAGConfig) : Prop :=
  (forall size overlap,
      Config.chunkSize config = Some size -> Config.chunkOverlap config = Some overlap ->
      (size <= overlap)%Z -> Config.validateConfig config <> [])
  /\ (forall n, Config.maxTokens config = Some n -> (n <= 0)%Z ->
                In "Max tokens must be greater than 0" (Config.validateConfig config))
  /\ (forall n, Config.topK config = Some n -> (n < 1)%Z ->
                In "Top K must be greater than 0" (Config.validateConfig config)).

(** ** Sample data *)
Module Sample.

Definition chunkFrom (source' id' content' : string) : DocumentChunk :=
  {| id := id';
     content := content';
     metadata := {| source := source'; page := None;
                    startIndex := 0; endIndex := Z.of_nat (String.length content') |} |}.

Definition sky : DocumentChunk := chunkFrom "doc1" "doc1_chunk_0" "The sky is blue.".
Definition grass : DocumentChunk := chunkFrom "doc1" "doc1_chunk_1" "Grass is green.".
(** The same sentence in a second document *)
Definition skyAgain : DocumentChunk := chunkFrom "doc2" "doc2_chunk_0" "The sky is blue.".
Definition blank : DocumentChunk := chunkFrom "doc3" "doc3_chunk_0" "".
(** A chunk that has nothing in common with a question in words *)
Definition rule : DocumentChunk :=
  chunkFrom "doc4" "doc4_chunk_0"
    "################################################################################################################################".

Definition skyQuestion : string := "What color is the sky?".
(** A question that scores below the threshold against [rule] *)
Definition letters : string := "a b c d e f g h".

Definition storeOf (chunks : list DocumentChunk) : VectorStore.Documents :=
  VectorStore.documentsAfter (VectorStore.addDocuments VectorStore.InMemory chunks []).

(** An embedding function that refuses the empty text *)
Definition strictEmbedding (text : string) : result (list float) :=
  if String.eqb text "" then Throw "cannot embed an empty text"
  else Ok (createSimpleEmbedding text).

(** A backend that counts its calls and answers with the count *)
#[export] Instance countingBackend : LLMProvider nat := {|
  generate := fun calls prompt => (S calls, Ok ("answer " ++ showNat calls));
  stream := fun calls prompt =>
    (S calls, Fragment "The sky " (Fragment "is " (Fragment "blue." EndOfStream)))
|}.

Definition validConfig : Config.PartialRAGConfig :=
  {| Config.groqApiKey := Some "gsk_0123456789abcdefghij";
     Config.model := None;
     Config.temperature := None;
     Config.maxTokens := None;
     Config.topK := None;
     Config.chunkSize := None;
     Config.chunkOverlap := None |}.

(** A pipeline over [documents], as [new RAGPipeline] and [addDocument] leave it *)
Definition pipelineOver (documents : VectorStore.Documents) : Pipeline.t (L := nat) :=
  {| Pipeline.llmProvider := 0;
     Pipeline.vectorStore := documents;
     Pipeline.config := Config.withDefaults validConfig;
     Pipeline.conversationHistory := [] |}.

(** Six questions about the two sentences *)
Definition sixAsks : list (string * Z * string) :=
  [("query_1", 1%Z, "What color is the sky?"); ("query_2", 2%Z, "Is grass green?");
   ("query_3", 3%Z, "Is the sky green?"); ("query_4", 4%Z, "What is blue?");
   ("query_5", 5%Z, "What is green?"); ("query_6", 6%Z, "Which color is grass?")].

(** The pipeline after the six questions: its history is full *)
Definition seasoned : Pipeline.t (L := nat) :=
  fst (Pipeline.queries VectorStore.InMemory sixAsks (pipelineOver (storeOf [sky; grass]))).

(** Six more questions about the two sentences *)
Definition sixMore : list (string * Z * string) :=
  [("query_7", 7%Z, "Is the sky blue?"); ("query_8", 8%Z, "Is grass blue?");
   ("query_9", 9%Z, "What color is grass?"); ("query_10", 10%Z, "Is the sky the sky?");
   ("query_11", 11%Z, "Is green a color?"); ("query_12", 12%Z, "Is blue a color?")].

(** Values the sliders of the configuration form can reach, with the two
    counting options at zero *)
Definition equalOverlap : Config.PartialRAGConfig :=
  {| Config.groqApiKey := Some "gsk_0123456789abcdefghij";
     Config.model := None;
     Config.temperature := Some 0.1%float;
     Config.maxTokens := Some 0%Z;
     Config.topK := Some 0%Z;
     Config.chunkSize := Some 500%Z;
     Config.chunkOverlap := Some 500%Z |}.

End Sample.

(** ** Further sample data *)
Module Scenario.

Import Sample.

(** A chunk of a document whose id begins with the id of [sky]'s document *)
Definition tenth : DocumentChunk := chunkFrom "ten.txt" "doc10_chunk_0" "Ten green bottles.".

(** A splitter that cuts at white space *)
Definition splitWords (text : string) : result (list string) := Ok (splitWhiteSpace text).

Definition skyFile : File.t :=
  {| File.name := "sky.txt"; File.type := "text/plain"; File.size := 16 |}.

Definition readSky (file : File.t) : result string := Ok "The sky is blue.".
Definition unreadable (file : File.t) : result string := Throw "cannot be parsed".

Definition skyDocument : Document.t :=
  {| Document.id := "doc1";
     Document.name := "sky.txt";
     Document.content := "The sky is blue.";
     Document.fileType := "txt";
     Document.size := 16;
     Document.uploadedAt := 0;
     Document.processedAt := None;
     Document.chunks := None;
     Document.status := "processing" |}.

(** One result, from the second document, of at most a hundred characters *)
Definition onlySecond : InMemoryVectorStore.SearchOptions :=
  {| InMemoryVectorStore.k := Some 1%Z;
     InMemoryVectorStore.minSimilarity := None;
     InMemoryVectorStore.sourceFilter := Some ["doc2"];
     InMemoryVectorStore.maxChunkLength := Some 100%Z |}.

(** A backend that is out of service *)
#[export] Instance failingBackend : LLMProvider unit := {|
  generate := fun backend prompt => (backend, Throw "rate limit exceeded");
  stream := fun backend prompt => (backend, Fragment "The " (StreamError "connection reset"))
|}.

(** A splitter constructor that refuses an overlap that is not below the
    chunk size, as the one of the LangChain library does; the splitter it
    returns is known by its two sizes. *)
Definition strictSplitter (chunkSize chunkOverlap : Z) : result (Z * Z) :=
  if (chunkSize <=? chunkOverlap)%Z then Throw "Cannot have chunkOverlap >= chunkSize"
  else Ok (chunkSize, chunkOverlap).

(** A backend that can be built from, and takes, any configuration *)
Definition freshBackend (config : Config.RAGConfig) : result nat := Ok 0%nat.
Definition agreeableBackend (backend : nat) (config : Config.RAGConfig) : nat * result unit :=
  (backend, Ok tt).

(** An update of the overlap alone, to the default chunk size *)
Definition widerOverlap : Config.PartialRAGConfig :=
  {| Config.groqApiKey := None;
     Config.model := None;
     Config.temperature := None;
     Config.maxTokens := None;
     Config.topK := None;
     Config.chunkSize := None;
     Config.chunkOverlap := Some 1000%Z |}.

Definition outOfService (documents : VectorStore.Documents) : Pipeline.t (L := unit) :=
  {| Pipeline.llmProvider := tt;
     Pipeline.vectorStore := documents;
     Pipeline.config := Config.withDefaults validConfig;
     Pipeline.conversationHistory := [] |}.

End Scenario.

(** * Properties *)

(** * Numbers *)

Lemma SFcompare_refl (x : spec_float) (y : spec_float) (c : comparison) :
  SFcompare x y = Some c -> SFcompare x x = Some Eq.
Proof.
  destruct x as [s|s| |s m e]; try discriminate; intros _; cbn.
  - reflexivity.
  - now destruct s.
  - rewrite Z.compare_refl, Pos.compare_cont_refl. now destruct s.
Qed.

Lemma ltb_not_nan_l (x y : float) : PrimFloat.ltb x y = true -> PrimFloat.is_nan x = false.
Proof.
  unfold PrimFloat.is_nan. rewrite ltb_spec, eqb_spec. unfold SFltb, SFeqb.
  destruct (SFcompare (Prim2SF x) (Prim2SF y)) as [c|] eqn:E; [|discriminate].
  intros _. now rewrite (SFcompare_refl _ _ E).
Qed.

Lemma SFcompare_refl_r (x : spec_float) (y : spec_float) (c : comparison) :
  SFcompare x y = Some c -> SFcompare y y = Some Eq.
Proof.
  destruct y as [s|s| |s m e]; cbn.
  - reflexivity.
  - now destruct s.
  - now destruct x.
  - rewrite Z.compare_refl, Pos.compare_cont_refl. now destruct s.
Qed.

Lemma ltb_not_nan_r (x y : float) : PrimFloat.ltb x y = true -> PrimFloat.is_nan y = false.
Proof.
  unfold PrimFloat.is_nan. rewrite ltb_spec, eqb_spec. unfold SFltb, SFeqb.
  destruct (SFcompare (Prim2SF x) (Prim2SF y)) as [c|] eqn:E; [|discriminate].
  intros _. now rewrite (SFcompare_refl_r _ _ E).
Qed.

Lemma ltb_zero_r_nonzero (x : float) : PrimFloat.ltb x 0%float = true -> PrimFloat.eqb x 0%float = false.
Proof.
  rewrite ltb_spec, eqb_spec. unfold SFltb, SFeqb.
  now destruct (SFcompare (Prim2SF x) (Prim2SF 0%float)) as [[| |]|].
Qed.

Lemma ltb_one_l_nonzero (x : float) : PrimFloat.ltb 1%float x = true -> PrimFloat.eqb x 0%float = false.
Proof.
  rewrite ltb_spec, eqb_spec. unfold SFltb, SFeqb.
  replace (Prim2SF 1%float) with (S754_finite false 4503599627370496 (-52)) by reflexivity.
  replace (Prim2SF 0%float) with (S754_zero false) by reflexivity.
  destruct (Prim2SF x) as [s|s| |s m e]; cbn; try discriminate; now destruct s.
Qed.

Lemma outside_unit_interval_truthy (t : float) :
  PrimFloat.ltb t 0%float = true \/ PrimFloat.ltb 1%float t = true -> truthy t = true.
Proof.
  unfold truthy. intros [H|H].
  - now rewrite (ltb_zero_r_nonzero H), (ltb_not_nan_l H).
  - now rewrite (ltb_one_l_nonzero H), (ltb_not_nan_r H).
Qed.

(** * Lists and sorting *)

Lemma firstn_In {A : Type} (n : nat) (l : list A) (x : A) :
  In x (firstn n l) -> In x l.
Proof.
  intro H. rewrite <- (firstn_skipn n l). apply in_or_app. now left.
Qed.

(** * Sorting *)
Section Sorting.

Variable A : Type.
Variable comparefn : A -> A -> float.


Lemma insertSorted_permutation (x : A) (l : list A) :
  Permutation (x :: l) (insertSorted comparefn x l).
Proof.
  induction l as [|y l IH]; simpl.
  - apply Permutation_refl.
  - destruct (sortsAfter comparefn x y).
    + eapply perm_trans; [apply perm_swap|]. now apply perm_skip.
    + apply Permutation_refl.
Qed.

Lemma sort_permutation (l : list A) : Permutation l (sort comparefn l).
Proof.
  induction l as [|x l IH]; simpl.
  - constructor.
  - eapply perm_trans; [|apply insertSorted_permutation]. now apply perm_skip.
Qed.

Lemma sort_In (l : list A) (x : A) : In x (sort comparefn l) -> In x l.
Proof.
  intro H. eapply Permutation_in; [apply Permutation_sym, sort_permutation|exact H].
Qed.

Lemma In_sort (l : list A) (x : A) : In x l -> In x (sort comparefn l).
Proof.
  intro H. eapply Permutation_in; [apply sort_permutation|exact H].
Qed.

Lemma sort_length (l : list A) : List.length (sort comparefn l) = List.length l.
Proof. symmetry. apply Permutation_length, sort_permutation. Qed.

Lemma consistentOn_Consistent (l : list A) :
  consistentOn comparefn l = true -> Consistent comparefn l.
Proof.
  unfold consistentOn. rewrite forallb_forall. intro H. split.
  - intros a b Ha Hb Hab. specialize (H a Ha). rewrite forallb_forall in H.
    specialize (H b Hb). apply andb_prop in H. destruct H as [H _].
    rewrite Hab in H. simpl in H. now apply negb_true_iff in H.
  - intros a b c Ha Hb Hc Hab Hbc. specialize (H a Ha). rewrite forallb_forall in H.
    specialize (H b Hb). apply andb_prop in H. destruct H as [_ H].
    rewrite forallb_forall in H. specialize (H c Hc).
    rewrite Hab, Hbc in H. simpl in H. now apply negb_true_iff in H.
Qed.

Lemma Consistent_incl (l l' : list A) :
  incl l' l -> Consistent comparefn l -> Consistent comparefn l'.
Proof.
  intros Hi [H1 H2]. split.
  - intros a b Ha Hb. apply H1; now apply Hi.
  - intros a b c Ha Hb Hc. apply H2; now apply Hi.
Qed.

Lemma insertSorted_sorted (x : A) (l : list A) :
  Consistent comparefn (x :: l) ->
  StronglySorted (notAfter comparefn) l ->
  StronglySorted (notAfter comparefn) (insertSorted comparefn x l).
Proof.
  intros Hc Hs. induction Hs as [|y l Hs IH Hy]; simpl.
  - repeat constructor.
  - destruct (sortsAfter comparefn x y) eqn:Hxy.
    + constructor.
      * apply IH. eapply Consistent_incl; [|exact Hc].
        intros z [Hz|Hz]; [left; exact Hz|right; right; exact Hz].
      * rewrite Forall_forall. intros z Hz.
        apply (Permutation_in _ (Permutation_sym (insertSorted_permutation x l))) in Hz.
        destruct Hz as [<-|Hz].
        -- destruct Hc as [Hasym _]. apply Hasym; simpl; auto.
        -- rewrite Forall_forall in Hy. now apply Hy.
    + constructor; [now constructor|].
      constructor; [exact Hxy|].
      rewrite Forall_forall in *. intros z Hz.
      destruct Hc as [_ Htrans].
      apply Htrans with (b := y); simpl; auto.
      now apply Hy.
Qed.

Lemma sort_sorted (l : list A) :
  Consistent comparefn l -> StronglySorted (notAfter comparefn) (sort comparefn l).
Proof.
  induction l as [|x l IH]; intro Hc; simpl.
  - constructor.
  - apply insertSorted_sorted.
    + eapply Consistent_incl; [|exact Hc].
      intros z [Hz|Hz]; [left; exact Hz|right; exact (sort_In l z Hz)].
    + apply IH. eapply Consistent_incl; [|exact Hc]. intros z Hz. now right.
Qed.

(** A test that the order respects keeps a prefix of a sorted list, so
    cutting before or sortsAfter comparefn the test gives the same list. *)
Lemma filter_firstn_sorted (keep : A -> bool) (l : list A) (n : nat) :
  StronglySorted (notAfter comparefn) l ->
  (forall a b, In a l -> In b l -> sortsAfter comparefn a b = false -> keep b = true -> keep a = true) ->
  filter keep (firstn n l) = firstn n (filter keep l).
Proof.
  intros Hs. revert n. induction Hs as [|x l Hs IH Hx]; intros n Hk.
  - now destruct n.
  - destruct n as [|n]; [reflexivity|]. simpl.
    assert (Hk' : forall a b, In a l -> In b l -> sortsAfter comparefn a b = false -> keep b = true -> keep a = true).
    { intros a b Ha Hb. apply Hk; now right. }
    destruct (keep x) eqn:Hkx.
    + simpl. f_equal. now apply IH.
    + assert (Hnone : forall l', incl l' l -> filter keep l' = []).
      { induction l' as [|y l' IHl']; intro Hi; [reflexivity|]. simpl.
        assert (Hy : In y l) by (apply Hi; now left).
        destruct (keep y) eqn:Hky.
        - rewrite Forall_forall in Hx.
          rewrite (Hk x y (or_introl eq_refl) (or_intror Hy) (Hx y Hy) Hky) in Hkx. discriminate.
        - apply IHl'. intros z Hz. apply Hi. now right. }
      rewrite (Hnone l (incl_refl l)). rewrite Hnone; [now destruct n|].
      intros z Hz. eapply firstn_In; exact Hz.
Qed.

End Sorting.

(** * Lists *)

Lemma filter_length_permutation {A : Type} (f : A -> bool) (l l' : list A) :
  Permutation l l' -> List.length (filter f l) = List.length (filter f l').
Proof.
  induction 1 as [|x l l' _ IH|x y l|l l' l'' _ IH1 _ IH2]; simpl.
  - reflexivity.
  - destruct (f x); simpl; now rewrite IH.
  - destruct (f x), (f y); reflexivity.
  - now rewrite IH1.
Qed.

Lemma StronglySorted_firstn {A : Type} (R : A -> A -> Prop) (n : nat) (l : list A) :
  StronglySorted R l -> StronglySorted R (firstn n l).
Proof.
  intro Hs. revert n. induction Hs as [|x l Hs IH Hx]; intros [|n]; simpl; try constructor.
  - apply IH.
  - rewrite Forall_forall in *. intros y Hy. apply Hx. eapply firstn_In; exact Hy.
Qed.

Lemma StronglySorted_filter {A : Type} (R : A -> A -> Prop) (f : A -> bool) (l : list A) :
  StronglySorted R l -> StronglySorted R (filter f l).
Proof.
  induction 1 as [|x l Hs IH Hx]; simpl; [constructor|].
  destruct (f x); [|exact IH]. constructor; [exact IH|].
  rewrite Forall_forall in *. intros y Hy. apply Hx. now apply filter_In in Hy.
Qed.

Lemma slice_prefix {A : Type} (k : Z) (l : list A) :
  (0 <= k)%Z -> slice 0 (Some k) l = firstn (Z.to_nat k) l.
Proof.
  intro Hk. unfold slice, relativeIndex.
  replace (k <? 0)%Z with false by (symmetry; apply Z.ltb_ge; exact Hk).
  simpl. rewrite Nat.sub_0_r.
  destruct (Nat.le_ge_cases (Z.to_nat k) (List.length l)) as [H|H].
  - now rewrite Nat.min_l.
  - rewrite Nat.min_r by exact H. rewrite firstn_all. symmetry. now apply firstn_all2.
Qed.

(** An element that few others may precede stands early in a sorted list. *)
Lemma sorted_rank_firstn {A : Type} (comparefn : A -> A -> float) (l : list A) (x : A) (n : nat) :
  StronglySorted (notAfter comparefn) l ->
  sortsAfter comparefn x x = false ->
  In x l ->
  (List.length (filter (fun y => negb (sortsAfter comparefn y x)) l) <= n)%nat ->
  In x (firstn n l).
Proof.
  intros Hs Hxx. revert n. induction Hs as [|y l Hs IH Hy]; intros n Hin Hn.
  - destruct Hin.
  - simpl in Hn. destruct Hin as [->|Hin].
    + rewrite Hxx in Hn. simpl in Hn. destruct n as [|n]; [lia|]. now left.
    + rewrite Forall_forall in Hy. rewrite (Hy x Hin) in Hn. simpl in Hn.
      destruct n as [|n]; [lia|]. right. apply IH; [exact Hin|lia].
Qed.

(** * Similarity search *)
Section Search.

Variable createEmbedding : string -> result (list float).

Lemma comparableScores_spec (queryEmbedding : list float) (documents : VectorStore.Documents) :
  comparableScores queryEmbedding documents = true ->
  Consistent VectorStore.comparefn (VectorStore.similarities queryEmbedding documents)
  /\ (forall a b,
        In a (VectorStore.similarities queryEmbedding documents) ->
        In b (VectorStore.similarities queryEmbedding documents) ->
        sortsAfter VectorStore.comparefn a b = false ->
        VectorStore.aboveThreshold b = true -> VectorStore.aboveThreshold a = true).
Proof.
  unfold comparableScores. intro H. apply andb_prop in H. destruct H as [Hc Ht]. split.
  - now apply consistentOn_Consistent.
  - unfold thresholdFollowsOrder in Ht. rewrite forallb_forall in Ht.
    intros a b Ha Hb Hab Hkb. specialize (Ht a Ha). rewrite forallb_forall in Ht.
    specialize (Ht b Hb). rewrite Hab, Hkb in Ht. exact Ht.
Qed.

Lemma rankedMatches_spec (queryEmbedding : list float) (k : Z) (documents : VectorStore.Documents) :
  (0 <= k)%Z ->
  comparableScores queryEmbedding documents = true ->
  VectorStore.rankedMatches queryEmbedding k documents
  = firstn (Z.to_nat k)
      (filter VectorStore.aboveThreshold
         (sort VectorStore.comparefn (VectorStore.similarities queryEmbedding documents))).
Proof.
  intros Hk Hc. apply comparableScores_spec in Hc. destruct Hc as [Hc Ht].
  unfold VectorStore.rankedMatches. rewrite slice_prefix by exact Hk.
  apply filter_firstn_sorted with (comparefn := VectorStore.comparefn).
  - now apply sort_sorted.
  - intros a b Ha Hb. apply Ht; eapply sort_In; eassumption.
Qed.

End Search.

(** * Configuration *)

Lemma pushIf_In (condition : bool) (message m : string) (errors : list string) :
  In m (Config.pushIf condition message errors) <-> In m errors \/ (condition = true /\ m = message).
Proof.
  unfold Config.pushIf. destruct condition.
  - rewrite in_app_iff. cbn. intuition congruence.
  - intuition congruence.
Qed.

(** C2, as amended.  [validateConfig] reports every check that fails, in
    one list: a missing or blank key, a temperature below [0] or above [1],
    and a [maxTokens] or [topK] below [1] or a [chunkSize] below [100] when
    the value is not zero.  It does not read [chunkOverlap]. *)
Theorem validateConfig_collects_every_failed_check (config : Config.PartialRAGConfig) :
  (Config.missingKey (Config.groqApiKey config) = true ->
   In "Groq API key is required" (Config.validateConfig config))
  /\ (forall t, Config.temperature config = Some t ->
        PrimFloat.ltb t 0%float = true \/ PrimFloat.ltb 1%float t = true ->
        In "Temperature must be between 0 and 1" (Config.validateConfig config))
  /\ (forall n, Config.maxTokens config = Some n -> n <> 0%Z -> (n < 1)%Z ->
        In "Max tokens must be greater than 0" (Config.validateConfig config))
  /\ (forall n, Config.topK config = Some n -> n <> 0%Z -> (n < 1)%Z ->
        In "Top K must be greater than 0" (Config.validateConfig config))
  /\ (forall n, Config.chunkSize config = Some n -> n <> 0%Z -> (n < 100)%Z ->
        In "Chunk size must be at least 100 characters" (Config.validateConfig config))
  /\ (forall overlap,
        Config.validateConfig
          {| Config.groqApiKey := Config.groqApiKey config;
             Config.model := Config.model config;
             Config.temperature := Config.temperature config;
             Config.maxTokens := Config.maxTokens config;
             Config.topK := Config.topK config;
             Config.chunkSize := Config.chunkSize config;
             Config.chunkOverlap := overlap |}
        = Config.validateConfig config).
Proof.
  assert (Hbelow : forall field n bound,
             field = Some n -> n <> 0%Z -> (n < bound)%Z -> Config.presentAndBelow field bound = true).
  { intros field n bound -> Hn Hb. cbn.
    apply andb_true_intro. split; [apply negb_true_iff, Z.eqb_neq, Hn|apply Z.ltb_lt, Hb]. }
  unfold Config.validateConfig. repeat split.
  - intro H. rewrite !pushIf_In. tauto.
  - intros t Ht Hout. rewrite !pushIf_In. do 3 left. right. split; [|reflexivity].
    rewrite Ht. cbn. rewrite (outside_unit_interval_truthy Hout). cbn.
    destruct Hout as [-> | ->]; [reflexivity|apply orb_true_r].
  - intros n Hf Hn Hb. rewrite !pushIf_In. do 2 left. right. split; [|reflexivity]. eauto.
  - intros n Hf Hn Hb. rewrite !pushIf_In. left. right. split; [|reflexivity]. eauto.
  - intros n Hf Hn Hb. rewrite !pushIf_In. right. split; [|reflexivity]. eauto.
Qed.

(** * The store *)

Lemma JSMap_delete_other {V : Type} (key k : string) (v : V) (m : JSMap.t V) :
  String.eqb k key = false -> JSMap.delete key ((k, v) :: m) = (k, v) :: JSMap.delete key m.
Proof. intro H. cbn. now rewrite H. Qed.

Lemma delete_fold_other {V : Type} (keys : list string) (k : string) (v : V) (m : JSMap.t V) :
  Forall (fun key => String.eqb k key = false) keys ->
  fold_left (fun docs key => JSMap.delete key docs) keys ((k, v) :: m)
  = (k, v) :: fold_left (fun docs key => JSMap.delete key docs) keys m.
Proof.
  revert m. induction keys as [|key keys IH]; intros m H; [reflexivity|].
  inversion H as [|? ? Hk Hks]; subst. cbn [fold_left].
  rewrite JSMap_delete_other by exact Hk. now apply IH.
Qed.

Lemma delete_is_filter (documentId : string) (documents : VectorStore.Documents) :
  VectorStore.delete documentId documents
  = filter (fun entry => negb (String.prefix documentId (fst entry))) documents.
Proof.
  unfold VectorStore.delete, JSMap.keys.
  induction documents as [|[k v] documents IH]; [reflexivity|].
  cbn [map filter fst]. destruct (String.prefix documentId k) eqn:Hp; cbn [negb].
  - cbn [fold_left JSMap.delete]. rewrite String.eqb_refl. exact IH.
  - rewrite delete_fold_other; [now rewrite IH|].
    rewrite Forall_forall. intros key Hkey. apply filter_In in Hkey.
    destruct Hkey as [_ Hkey]. destruct (String.eqb k key) eqn:E; [|reflexivity].
    apply String.eqb_eq in E. subst. congruence.
Qed.

Lemma get_filter_keys {V : Type} (keep : string -> bool) (m : JSMap.t V) (key : string) :
  JSMap.get (filter (fun entry => keep (fst entry)) m) key
  = if keep key then JSMap.get m key else None.
Proof.
  induction m as [|[k v] m IH]; cbn [filter fst JSMap.get].
  - now destruct (keep key).
  - destruct (keep k) eqn:Hk; cbn [JSMap.get].
    + destruct (String.eqb k key) eqn:E; [|exact IH].
      apply String.eqb_eq in E. subst. now rewrite Hk.
    + rewrite IH. destruct (keep key) eqn:Hkey; [|reflexivity].
      destruct (String.eqb k key) eqn:E; [|reflexivity].
      apply String.eqb_eq in E. subst. congruence.
Qed.

(** C9.  [delete(documentId)] removes exactly the entries whose key
    starts with [documentId]: the other entries stay, unchanged and in
    their order, and a lookup finds nothing under a removed key and what it
    found before under any other. *)
Theorem delete_removes_exactly_prefixed (documentId : string) (documents : VectorStore.Documents) :
  VectorStore.delete documentId documents
  = filter (fun entry => negb (String.prefix documentId (fst entry))) documents
  /\ forall key,
       JSMap.get (VectorStore.delete documentId documents) key
       = if String.prefix documentId key then None else JSMap.get documents key.
Proof.
  split; [apply delete_is_filter|].
  intro key. rewrite delete_is_filter.
  rewrite (get_filter_keys (fun k => negb (String.prefix documentId k))).
  now destruct (String.prefix documentId key).
Qed.

Section Insertion.

Variable createEmbedding : string -> result (list float).

Lemma addDocuments_app_ok (before rest : list DocumentChunk) (documents : VectorStore.Documents) :
  Forall (fun c => exists e, createEmbedding (content c) = Ok e) before ->
  VectorStore.completion (VectorStore.addDocuments createEmbedding before documents) = Ok tt
  /\ VectorStore.addDocuments createEmbedding (before ++ rest) documents
     = VectorStore.addDocuments createEmbedding rest
         (VectorStore.documentsAfter (VectorStore.addDocuments createEmbedding before documents)).
Proof.
  revert documents. induction before as [|c before IH]; intros documents H.
  - now split.
  - inversion H as [|? ? [e He] Hb]; subst. cbn. rewrite He. now apply IH.
Qed.

Lemma JSMap_set_keys {V : Type} (key k : string) (v : V) (m : JSMap.t V) :
  In k (JSMap.keys (JSMap.set key v m)) <-> k = key \/ In k (JSMap.keys m).
Proof.
  unfold JSMap.keys. induction m as [|[k' v'] m IH]; cbn.
  - intuition.
  - destruct (String.eqb k' key) eqn:E; cbn.
    + apply String.eqb_eq in E. subst. intuition.
    + rewrite IH. intuition.
Qed.

Lemma addDocuments_keys (chunks : list DocumentChunk) (documents : VectorStore.Documents) :
  Forall (fun c => exists e, createEmbedding (content c) = Ok e) chunks ->
  forall k,
    In k (JSMap.keys (VectorStore.documentsAfter
                        (VectorStore.addDocuments createEmbedding chunks documents)))
    <-> In k (map id chunks) \/ In k (JSMap.keys documents).
Proof.
  revert documents. induction chunks as [|c chunks IH]; intros documents H k.
  - cbn. intuition.
  - inversion H as [|? ? [e He] Hb]; subst. cbn. rewrite He. rewrite (IH _ Hb).
    rewrite JSMap_set_keys. intuition.
Qed.

(** C8, as amended.  When the embedding of a chunk fails, [addDocuments]
    stops there: the store is what the chunks before it made it (each of
    them is present), the failing chunk and the chunks after it are not
    inserted, the call throws ["Failed to add chunk: "] followed by the
    cause, and the console line names the failing chunk. *)
Theorem addDocuments_stops_at_failed_embedding
  (before : list DocumentChunk) (failing : DocumentChunk) (later : list DocumentChunk)
  (documents : VectorStore.Documents) (message : string) :
  Forall (fun c => exists e, createEmbedding (content c) = Ok e) before ->
  createEmbedding (content failing) = Throw message ->
  let outcome := VectorStore.addDocuments createEmbedding (before ++ failing :: later) documents in
  let committed := VectorStore.addDocuments createEmbedding before documents in
  VectorStore.completion committed = Ok tt
  /\ VectorStore.documentsAfter outcome = VectorStore.documentsAfter committed
  /\ (forall c, In c before -> In (id c) (JSMap.keys (VectorStore.documentsAfter outcome)))
  /\ VectorStore.completion outcome = Throw ("Failed to add chunk: " ++ message)
  /\ VectorStore.consoleErrors outcome
     = [{| label := "Error adding chunk " ++ id failing ++ ":"; cause := message |}].
Proof.
  intros Hb Hf outcome committed. subst outcome committed.
  destruct (addDocuments_app_ok (failing :: later) documents Hb) as [Hok Happ].
  rewrite Happ. cbn [VectorStore.addDocuments]. rewrite Hf. cbn. repeat split; try assumption.
  intros c Hc. apply (addDocuments_keys documents Hb). left. now apply in_map.
Qed.

End Insertion.

(** * The pipeline *)
Section PipelineFacts.

Variable createEmbedding : string -> result (list float).
Context {L : Type} {llm : LLMProvider L}.

Implicit Types (p : Pipeline.t (L := L)) (g : Pipeline.Generator).

Lemma retrieveContext_empty_store (question : string) p :
  Pipeline.vectorStore p = [] -> Pipeline.retrieveContext createEmbedding question p = [].
Proof.
  intro H. unfold Pipeline.retrieveContext, VectorStore.similaritySearch. now rewrite H.
Qed.

Lemma retrieveContext_failed_search (question message : string) p :
  VectorStore.similaritySearch createEmbedding question (Config.topK' (Pipeline.config p))
    (Pipeline.vectorStore p) = Throw message ->
  Pipeline.retrieveContext createEmbedding question p = [].
Proof.
  intro H. unfold Pipeline.retrieveContext. now rewrite H.
Qed.

Lemma query_nothing_retrieved (queryId : string) (now : Z) (question : string) p :
  Pipeline.retrieveContext createEmbedding question p = [] ->
  Pipeline.query createEmbedding queryId now question p
  = (p, Ok (Pipeline.fallback queryId now question)).
Proof.
  intro H. unfold Pipeline.query. now rewrite H.
Qed.



Lemma query_history (queryId : string) (now : Z) (question : string) p :
  Pipeline.conversationHistory (fst (Pipeline.query createEmbedding queryId now question p))
  = Pipeline.conversationHistory p
  \/ exists r,
       snd (Pipeline.query createEmbedding queryId now question p) = Ok r
       /\ RAGQuery.context r <> []
       /\ RAGQuery.question r = question
       /\ Pipeline.conversationHistory (fst (Pipeline.query createEmbedding queryId now question p))
          = Pipeline.remember {| Exchange.question := question; Exchange.answer := RAGQuery.answer r |}
              (Pipeline.conversationHistory p).
Proof.
  unfold Pipeline.query.
  destruct (Pipeline.retrieveContext createEmbedding question p) as [|c cs] eqn:Hr.
  - now left.
  - cbn [List.length Nat.eqb].
    destruct (generate _ _) as [backend [answer|message]].
    + right. eexists. cbn. repeat split. discriminate.
    + now left.
Qed.

Lemma resumeLoop_history (queryId : string) (now : Z) (question : string)
  (relevantChunks : list DocumentChunk) (fullAnswer : string) (fragments : LLMStream) p :
  let '(p', g', item) :=
    Pipeline.resumeLoop queryId now question relevantChunks fullAnswer fragments p in
  (g' <> Pipeline.Finished ->
   Pipeline.conversationHistory p' = Pipeline.conversationHistory p
   /\ exists event, item = Pipeline.Yielded event)
  /\ (Pipeline.conversationHistory p' = Pipeline.conversationHistory p
      \/ exists e, Pipeline.conversationHistory p'
                   = Pipeline.remember e (Pipeline.conversationHistory p)).
Proof.
  destruct fragments as [text rest| |message]; cbn.
  - split; [intros _; split; [reflexivity|eexists; reflexivity]|now left].
  - split; [intro H; now contradiction H|right; eexists; reflexivity].
  - split; [intro H; now contradiction H|now left].
Qed.

Lemma next_history p g :
  let '(p', g', item) := Pipeline.next createEmbedding p g in
  (g' <> Pipeline.Finished ->
   Pipeline.conversationHistory p' = Pipeline.conversationHistory p
   /\ exists event, item = Pipeline.Yielded event)
  /\ (Pipeline.conversationHistory p' = Pipeline.conversationHistory p
      \/ exists e, Pipeline.conversationHistory p'
                   = Pipeline.remember e (Pipeline.conversationHistory p)).
Proof.
  destruct g as [queryId now question|queryId now question|result
                |queryId now question chunks|queryId now question chunks full fragments|];
    cbn [Pipeline.next].
  - split; [intros _; split; [reflexivity|eexists; reflexivity]|now left].
  - destruct (List.length _ =? 0)%nat;
      (split; [intros _; split; [reflexivity|eexists; reflexivity]|now left]).
  - split; [intro H; now contradiction H|now left].
  - destruct (stream _ _) as [backend fragments].
    apply (resumeLoop_history queryId now question chunks "" fragments
             {| Pipeline.llmProvider := backend;
                Pipeline.vectorStore := Pipeline.vectorStore p;
                Pipeline.config := Pipeline.config p;
                Pipeline.conversationHistory := Pipeline.conversationHistory p |}).
  - apply resumeLoop_history.
  - split; [intro H; now contradiction H|now left].
Qed.

Lemma consume_Finished (pulls : nat) p :
  Pipeline.consume createEmbedding pulls p Pipeline.Finished = (p, Pipeline.Finished, []).
Proof. now destruct pulls. Qed.

Lemma consume_unfinished (pulls : nat) p g :
  snd (fst (Pipeline.consume createEmbedding pulls p g)) <> Pipeline.Finished ->
  Pipeline.conversationHistory (fst (fst (Pipeline.consume createEmbedding pulls p g)))
  = Pipeline.conversationHistory p
  /\ Forall (fun item => exists event, item = Pipeline.Yielded event)
       (snd (Pipeline.consume createEmbedding pulls p g)).
Proof.
  revert p g. induction pulls as [|pulls IH]; intros p g H.
  - cbn. split; [reflexivity|constructor].
  - cbn [Pipeline.consume] in *.
    assert (Hstep :
      let '(p1, g1, item) := Pipeline.next createEmbedding p g in
      let '(p2, g2, items) := Pipeline.consume createEmbedding pulls p1 g1 in
      g2 <> Pipeline.Finished ->
      Pipeline.conversationHistory p2 = Pipeline.conversationHistory p
      /\ Forall (fun item => exists event, item = Pipeline.Yielded event) (item :: items)).
    { pose proof (next_history p g) as Hn.
      destruct (Pipeline.next createEmbedding p g) as [[p1 g1] item].
      specialize (IH p1 g1).
      destruct (Pipeline.consume createEmbedding pulls p1 g1) as [[p2 g2] items] eqn:Hc.
      cbn [fst snd] in IH. intro Hg2. specialize (IH Hg2). destruct IH as [IH1 IH2].
      assert (Hg1 : g1 <> Pipeline.Finished).
      { intro Heq. subst g1. rewrite consume_Finished in Hc. inversion Hc. now subst. }
      destruct Hn as [Hn _]. destruct (Hn Hg1) as [Hh Hy].
      split; [congruence|now constructor]. }
    destruct g; try (destruct (Pipeline.next createEmbedding p _) as [[p1 g1] item];
      destruct (Pipeline.consume createEmbedding pulls p1 g1) as [[p2 g2] items];
      cbn [fst snd] in *; now apply Hstep).
    now contradiction H.
Qed.













(** C4.  If the consumer of [streamQuery] stops after any number of
    items while the generator has not finished, and abandons it, the
    conversation history is what it was before the call; every item it was
    handed was a yielded event, none the final result. *)
Theorem abandoned_stream_leaves_history
  (queryId : string) (now : Z) (question : string) (pulls : nat) p :
  snd (fst (Pipeline.consume createEmbedding pulls p (Pipeline.streamQuery queryId now question)))
  <> Pipeline.Finished ->
  Pipeline.conversationHistory
    (fst (Pipeline.cancel
            (fst (fst (Pipeline.consume createEmbedding pulls p
                         (Pipeline.streamQuery queryId now question))))
            (snd (fst (Pipeline.consume createEmbedding pulls p
                         (Pipeline.streamQuery queryId now question))))))
  = Pipeline.conversationHistory p
  /\ Forall (fun item => exists event, item = Pipeline.Yielded event)
       (snd (Pipeline.consume createEmbedding pulls p (Pipeline.streamQuery queryId now question))).
Proof.
  intro H. cbn [Pipeline.cancel fst]. now apply consume_unfinished.
Qed.

(** C6.  When the store is empty, or retrieval yields no chunk, [query]
    returns normally with the fixed answer, no context and no sources, and
    leaves the pipeline as it was. *)
Theorem query_fallback_when_nothing_retrieved
  (queryId : string) (now : Z) (question : string) p :
  Pipeline.vectorStore p = [] \/ Pipeline.retrieveContext createEmbedding question p = [] ->
  Pipeline.query createEmbedding queryId now question p
  = (p, Ok (Pipeline.fallback queryId now question))
  /\ RAGQuery.answer (Pipeline.fallback queryId now question) = Pipeline.noInformation
  /\ RAGQuery.context (Pipeline.fallback queryId now question) = []
  /\ RAGQuery.sources (Pipeline.fallback queryId now question) = [].
Proof.
  intro H. repeat split. apply query_nothing_retrieved.
  destruct H as [H|H]; [now apply retrieveContext_empty_store|exact H].
Qed.

(** C7.  When [similaritySearch] throws, retrieval yields no chunk and
    [query] returns the same result as for an empty retrieval. *)
Theorem query_survives_failed_search
  (queryId : string) (now : Z) (question message : string) p :
  VectorStore.similaritySearch createEmbedding question (Config.topK' (Pipeline.config p))
    (Pipeline.vectorStore p) = Throw message ->
  Pipeline.retrieveContext createEmbedding question p = []
  /\ Pipeline.query createEmbedding queryId now question p
     = (p, Ok (Pipeline.fallback queryId now question)).
Proof.
  intro H. pose proof (retrieveContext_failed_search question p H) as Hr.
  split; [exact Hr|now apply query_nothing_retrieved].
Qed.

Lemma consume_nothing_retrieved (queryId : string) (now : Z) (question : string) (pulls : nat) p :
  Pipeline.retrieveContext createEmbedding question p = [] ->
  fst (fst (Pipeline.consume createEmbedding pulls p (Pipeline.streamQuery queryId now question))) = p.
Proof.
  intro H. unfold Pipeline.streamQuery.
  destruct pulls as [|[|[|pulls]]]; cbn; rewrite ?H; cbn; try reflexivity.
  now rewrite consume_Finished.
Qed.

(** C10.  When retrieval yields no chunk, [query] and [streamQuery]
    (consumed to any point) leave the pipeline, and so the history, as it
    was.  In general [query] either leaves the history alone or was
    answered from retrieved context and remembered that answer. *)
Theorem fallback_leaves_history_alone
  (queryId : string) (now : Z) (question : string) p :
  Pipeline.retrieveContext createEmbedding question p = [] ->
  fst (Pipeline.query createEmbedding queryId now question p) = p
  /\ (forall pulls,
        fst (fst (Pipeline.consume createEmbedding pulls p
                    (Pipeline.streamQuery queryId now question))) = p)
  /\ (forall queryId' now' question' p',
        Pipeline.conversationHistory
          (fst (Pipeline.query createEmbedding queryId' now' question' p'))
        = Pipeline.conversationHistory p'
        \/ exists r,
             snd (Pipeline.query createEmbedding queryId' now' question' p') = Ok r
             /\ RAGQuery.context r <> []
             /\ Pipeline.conversationHistory
                  (fst (Pipeline.query createEmbedding queryId' now' question' p'))
                = Pipeline.remember
                    {| Exchange.question := question'; Exchange.answer := RAGQuery.answer r |}
                    (Pipeline.conversationHistory p')).
Proof.
  intro H. split; [|split].
  - now rewrite query_nothing_retrieved.
  - intro pulls. now apply consume_nothing_retrieved.
  - intros queryId' now' question' p'.
    destruct (query_history queryId' now' question' p') as [Hq|[r (H1 & H2 & _ & H3)]].
    + now left.
    + right. now exists r.
Qed.

End PipelineFacts.

(** * The sample store and pipeline *)

Import Sample.

Example two_chunks_scenario :
  VectorStore.similaritySearch VectorStore.InMemory skyQuestion 1 (storeOf [sky; grass]) = Ok [sky].
Proof. vm_compute. reflexivity. Qed.

Example equal_scores_both_returned :
  VectorStore.similaritySearch VectorStore.InMemory skyQuestion 2 (storeOf [sky; skyAgain])
  = Ok [sky; skyAgain].
Proof. vm_compute. reflexivity. Qed.

Example below_threshold_dropped :
  VectorStore.similaritySearch VectorStore.InMemory letters 3 (storeOf [rule; sky; grass])
  = Ok [sky; grass].
Proof. vm_compute. reflexivity. Qed.

Example blank_chunk_scores_not_comparable :
  comparableScores (createSimpleEmbedding letters) (storeOf [rule; blank; sky]) = false.
Proof. vm_compute. reflexivity. Qed.

Lemma strictlyDescending_first_two (a b : Scored) (l : list Scored) :
  strictlyDescending (a :: b :: l) -> PrimFloat.ltb (similarity b) (similarity a) = true.
Proof.
  intro H. inversion H as [|? ? _ Hall]; subst. now inversion Hall.
Qed.

Lemma InMemory_embedding (text : string) (e : list float) :
  VectorStore.InMemory text = Ok e -> e = createSimpleEmbedding text.
Proof. unfold VectorStore.InMemory. congruence. Qed.

Lemma abandoned_stream_leaves_history_witness :
  Pipeline.conversationHistory
    (fst (Pipeline.cancel
            (fst (fst (Pipeline.consume VectorStore.InMemory 4 (pipelineOver (storeOf [sky; grass]))
                         (Pipeline.streamQuery "query_1" 0 skyQuestion))))
            (snd (fst (Pipeline.consume VectorStore.InMemory 4 (pipelineOver (storeOf [sky; grass]))
                         (Pipeline.streamQuery "query_1" 0 skyQuestion))))))
  = Pipeline.conversationHistory (pipelineOver (storeOf [sky; grass]))
  /\ Forall (fun item => exists event, item = Pipeline.Yielded event)
       (snd (Pipeline.consume VectorStore.InMemory 4 (pipelineOver (storeOf [sky; grass]))
               (Pipeline.streamQuery "query_1" 0 skyQuestion))).
Proof.
  apply (@abandoned_stream_leaves_history VectorStore.InMemory nat countingBackend
           "query_1" 0%Z skyQuestion 4 (pipelineOver (storeOf [sky; grass]))).
  vm_compute. discriminate.
Defined.

Example two_fragments_then_cancel :
  snd (Pipeline.consume VectorStore.InMemory 4 (pipelineOver (storeOf [sky; grass]))
         (Pipeline.streamQuery "query_1" 0 skyQuestion))
  = [Pipeline.Yielded {| type := TypeContext; eventContent := "Searching knowledge base..." |};
     Pipeline.Yielded {| type := TypeContext;
                         eventContent := "Found 2 relevant document(s). Generating response..." |};
     Pipeline.Yielded {| type := TypeAnswer; eventContent := "The sky " |};
     Pipeline.Yielded {| type := TypeAnswer; eventContent := "is " |}].
Proof. vm_compute. reflexivity. Qed.

Example exhausted_stream_is_remembered :
  Pipeline.conversationHistory
    (fst (fst (Pipeline.consume VectorStore.InMemory 6 (pipelineOver (storeOf [sky; grass]))
                 (Pipeline.streamQuery "query_1" 0 skyQuestion))))
  = [{| Exchange.question := skyQuestion; Exchange.answer := "The sky is blue." |}].
Proof. vm_compute. reflexivity. Qed.


Example full_history_evicts_the_oldest :
  map Exchange.question (Pipeline.conversationHistory seasoned)
  = ["Is grass green?"; "Is the sky green?"; "What is blue?"; "What is green?";
     "Which color is grass?"]
  /\ map Exchange.question
       (Pipeline.conversationHistory
          (fst (Pipeline.query VectorStore.InMemory "query_7" 7 "Is the sky blue?" seasoned)))
     = ["Is the sky green?"; "What is blue?"; "What is green?"; "Which color is grass?";
        "Is the sky blue?"]
  /\ map Exchange.question
       (Pipeline.conversationHistory
          (fst (Pipeline.queries VectorStore.InMemory sixMore seasoned)))
     = ["Is grass blue?"; "What color is grass?"; "Is the sky the sky?"; "Is green a color?";
        "Is blue a color?"].
Proof. repeat split; vm_compute; reflexivity. Qed.


Example six_queries_scenario :
  map Exchange.question
    (Pipeline.conversationHistory
       (fst (Pipeline.queries VectorStore.InMemory sixAsks (pipelineOver (storeOf [sky; grass])))))
  = ["Is grass green?"; "Is the sky green?"; "What is blue?"; "What is green?";
     "Which color is grass?"].
Proof. vm_compute. reflexivity. Qed.

Lemma query_fallback_when_nothing_retrieved_witness :
  Pipeline.query VectorStore.InMemory "query_1" 0 skyQuestion (pipelineOver [])
  = (pipelineOver [], Ok (Pipeline.fallback "query_1" 0 skyQuestion))
  /\ RAGQuery.answer (Pipeline.fallback "query_1" 0 skyQuestion) = Pipeline.noInformation
  /\ RAGQuery.context (Pipeline.fallback "query_1" 0 skyQuestion) = []
  /\ RAGQuery.sources (Pipeline.fallback "query_1" 0 skyQuestion) = [].
Proof.
  apply (@query_fallback_when_nothing_retrieved VectorStore.InMemory nat countingBackend
           "query_1" 0%Z skyQuestion (pipelineOver [])).
  left. reflexivity.
Defined.

Lemma query_survives_failed_search_witness :
  Pipeline.retrieveContext strictEmbedding "" (pipelineOver (storeOf [sky])) = []
  /\ Pipeline.query strictEmbedding "query_1" 0 "" (pipelineOver (storeOf [sky]))
     = (pipelineOver (storeOf [sky]), Ok (Pipeline.fallback "query_1" 0 "")).
Proof.
  apply (@query_survives_failed_search strictEmbedding nat countingBackend "query_1" 0%Z ""
           "Search failed: cannot embed an empty text" (pipelineOver (storeOf [sky]))).
  vm_compute. reflexivity.
Defined.

Lemma fallback_leaves_history_alone_witness :
  fst (Pipeline.query VectorStore.InMemory "query_1" 0 letters (pipelineOver (storeOf [rule])))
  = pipelineOver (storeOf [rule])
  /\ forall pulls,
       fst (fst (Pipeline.consume VectorStore.InMemory pulls (pipelineOver (storeOf [rule]))
                   (Pipeline.streamQuery "query_1" 0 letters)))
       = pipelineOver (storeOf [rule]).
Proof.
  assert (H : Pipeline.retrieveContext VectorStore.InMemory letters (pipelineOver (storeOf [rule])) = [])
    by (vm_compute; reflexivity).
  pose proof (@fallback_leaves_history_alone VectorStore.InMemory nat countingBackend
                "query_1" 0%Z letters (pipelineOver (storeOf [rule])) H) as [H1 [H2 _]].
  split; [exact H1|exact H2].
Defined.

(** C8, as worded, fails: the message thrown does not contain the id of the
    failing chunk (and the chunk after it is not inserted, see the example
    below). *)
Lemma only_failing_chunk_skipped_fails :
  ~ specifiedPartialInsert strictEmbedding [sky] blank [grass] [].
Proof.
  intros [Hstore [message [Hthrown Hnamed]]].
  vm_compute in Hthrown. injection Hthrown as <-. vm_compute in Hnamed. discriminate Hnamed.
Qed.

Example later_chunk_not_inserted :
  JSMap.keys (VectorStore.documentsAfter
                (VectorStore.addDocuments strictEmbedding [sky; blank; grass] []))
  = ["doc1_chunk_0"].
Proof. vm_compute. reflexivity. Qed.

Lemma addDocuments_stops_at_failed_embedding_witness :
  VectorStore.documentsAfter (VectorStore.addDocuments strictEmbedding ([sky] ++ blank :: [grass]) [])
  = VectorStore.documentsAfter (VectorStore.addDocuments strictEmbedding [sky] [])
  /\ VectorStore.completion (VectorStore.addDocuments strictEmbedding ([sky] ++ blank :: [grass]) [])
     = Throw "Failed to add chunk: cannot embed an empty text".
Proof.
  assert (Hb : Forall (fun c => exists e, strictEmbedding (content c) = Ok e) [sky])
    by (constructor; [eexists; reflexivity|constructor]).
  assert (Hf : strictEmbedding (content blank) = Throw "cannot embed an empty text") by reflexivity.
  pose proof (@addDocuments_stops_at_failed_embedding strictEmbedding [sky] blank [grass] []
                "cannot embed an empty text" Hb Hf) as (_ & H1 & _ & H2 & _).
  split; [exact H1|exact H2].
Defined.

(** C2, as worded, fails: an overlap equal to the chunk size draws no
    error. *)
Lemma overlap_and_zero_not_reported : ~ specifiedValidation equalOverlap.
Proof.
  intros [Hoverlap _].
  apply (Hoverlap 500%Z 500%Z eq_refl eq_refl); [lia|reflexivity].
Qed.

(** * Further properties *)

(** * The embedding *)

Lemma arraySet_length {A : Type} (hole : A) (i : nat) (v : A) (a : list A) :
  List.length (arraySet hole i v a) = Nat.max (List.length a) (S i).
Proof.
  revert i. induction a as [|x a IH]; intros i.
  - induction i as [|i IHi]; cbn; [reflexivity|]. rewrite IHi. cbn. lia.
  - destruct i as [|i]; cbn; [lia|]. rewrite IH. lia.
Qed.

Lemma arraySet_length_inside {A : Type} (hole : A) (i : nat) (v : A) (a : list A) :
  (i < List.length a)%nat -> List.length (arraySet hole i v a) = List.length a.
Proof. intro H. rewrite arraySet_length. lia. Qed.

(** Writes at indices below the length leave the length as it is. *)
Lemma writes_inside_length {A B : Type} (hole : A) (value : list A -> nat * B -> A)
  (slots : list (nat * B)) (e : list A) :
  Forall (fun ic => (fst ic < List.length e)%nat) slots ->
  List.length (fold_left (fun e ic => arraySet hole (fst ic) (value e ic) e) slots e)
  = List.length e.
Proof.
  revert e. induction slots as [|ic slots IH]; intros e H; cbn [fold_left]; [reflexivity|].
  inversion H as [|? ? Hic Hrest]; subst.
  rewrite IH; rewrite arraySet_length_inside by exact Hic; [reflexivity|exact Hrest].
Qed.

Lemma bigram_slots_length (len : float) (entries : list (string * nat)) (e : list float) (idx : nat) :
  List.length
    (fst (fold_left
            (fun (st : list float * nat) (entry : string * nat) =>
               let (e, idx) := st in
               if (idx <? List.length e)%nat
               then (arraySet nan idx (num (snd entry) / len)%float e, S idx)
               else (e, idx))
            entries (e, idx)))
  = List.length e.
Proof.
  revert e idx. induction entries as [|entry entries IH]; intros e idx; cbn [fold_left];
    [reflexivity|].
  destruct (idx <? List.length e)%nat eqn:Hidx; rewrite IH; [|reflexivity].
  apply arraySet_length_inside. now apply Nat.ltb_lt.
Qed.

Lemma punctuation_slots_length (value : list float -> nat * ascii -> float)
  (slots : list (nat * ascii)) (e : list float) :
  List.length
    (fold_left
       (fun e ic =>
          if (302 + fst ic <? List.length e)%nat
          then arraySet nan (302 + fst ic) (value e ic) e
          else e)
       slots e)
  = List.length e.
Proof.
  revert e. induction slots as [|ic slots IH]; intro e; cbn [fold_left]; [reflexivity|].
  destruct (302 + fst ic <? List.length e)%nat eqn:Hic; rewrite IH; [|reflexivity].
  apply arraySet_length_inside. now apply Nat.ltb_lt.
Qed.

Lemma character_slots_inside :
  Forall (fun ic : nat * ascii => (fst ic < 384)%nat) (indexed (list_ascii_of_string chars)).
Proof.
  rewrite Forall_forall. intros [i c] Hin. unfold indexed in Hin.
  apply in_combine_l, in_seq in Hin. cbn in *. lia.
Qed.

(** X1. Every embedding has 384 entries, whatever the text: every write
    is inside the array (the 37 character slots, the n-gram slots and the
    punctuation slots behind their guards, and slots 300 and 301), so the
    array never grows, on the empty text, a text of one character and a
    text with more than a hundred distinct pairs of letters alike. *)
Theorem createSimpleEmbedding_length (text : string) :
  List.length (createSimpleEmbedding text) = 384%nat.
Proof.
  unfold createSimpleEmbedding.
  rewrite (punctuation_slots_length (fun _ ic => (num (occurrences (snd ic) text)
                                                  / num (String.length text))%float)).
  assert (Hchars : List.length
            (fold_left
               (fun e ic => arraySet nan (fst ic)
                              (num (occurrences (snd ic) (toLowerCase text))
                               / num (String.length text))%float e)
               (indexed (list_ascii_of_string chars)) (repeat 0%float embeddingLength))
          = 384%nat).
  { rewrite (writes_inside_length nan
               (fun _ ic => (num (occurrences (snd ic) (toLowerCase text))
                             / num (String.length text))%float)).
    - apply repeat_length.
    - rewrite repeat_length. exact character_slots_inside. }
  match goal with
  | |- List.length (arraySet nan 301 _ (arraySet nan 300 _ ?slots)) = _ =>
      assert (Hslots : List.length slots = 384%nat)
        by (rewrite bigram_slots_length; exact Hchars)
  end.
  rewrite !arraySet_length. rewrite Hslots. reflexivity.
Qed.

Lemma sum_of_squares_zero (n : nat) :
  fold_left (fun sum val => (sum + val * val)%float) (repeat 0%float n) 0%float = 0%float.
Proof.
  induction n as [|n IH]; [reflexivity|]. cbn [repeat fold_left].
  replace (0 + 0 * 0)%float with 0%float by reflexivity. exact IH.
Qed.

(** X2. The similarity with a vector of zeros is 0 and not a NaN, on
    either side, whatever the other vector holds and whatever the two
    lengths are. *)
Theorem cosineSimilarity_zero_vector (n : nat) (v : list float) :
  cosineSimilarity (repeat 0%float n) v = 0%float
  /\ cosineSimilarity v (repeat 0%float n) = 0%float.
Proof.
  unfold cosineSimilarity. rewrite sum_of_squares_zero.
  replace (PrimFloat.eqb (PrimFloat.sqrt 0) 0) with true by reflexivity.
  split; [reflexivity|]. now rewrite orb_true_r.
Qed.

(** * The map under the store *)

Lemma JSMap_get_set_same {V : Type} (key : string) (v : V) (m : JSMap.t V) :
  JSMap.get (JSMap.set key v m) key = Some v.
Proof.
  induction m as [|[k v'] m IH]; cbn.
  - now rewrite String.eqb_refl.
  - destruct (String.eqb k key) eqn:E; cbn; rewrite E; [reflexivity|exact IH].
Qed.

Lemma JSMap_get_set_other {V : Type} (key key' : string) (v : V) (m : JSMap.t V) :
  key' <> key -> JSMap.get (JSMap.set key v m) key' = JSMap.get m key'.
Proof.
  intro Hne. induction m as [|[k v'] m IH]; cbn.
  - destruct (String.eqb key key') eqn:E; [|reflexivity].
    apply String.eqb_eq in E. congruence.
  - destruct (String.eqb k key) eqn:E; cbn.
    + apply String.eqb_eq in E. subst k.
      destruct (String.eqb key key') eqn:E'; [|reflexivity].
      apply String.eqb_eq in E'. congruence.
    + now rewrite IH.
Qed.

Lemma JSMap_keys_set_present {V : Type} (key : string) (v : V) (m : JSMap.t V) :
  In key (JSMap.keys m) -> JSMap.keys (JSMap.set key v m) = JSMap.keys m.
Proof.
  unfold JSMap.keys. induction m as [|[k v'] m IH]; cbn; [tauto|].
  intros [->|H].
  - now rewrite String.eqb_refl.
  - destruct (String.eqb k key); cbn; [reflexivity|]. now rewrite IH.
Qed.

Lemma JSMap_keys_set_absent {V : Type} (key : string) (v : V) (m : JSMap.t V) :
  ~ In key (JSMap.keys m) -> JSMap.keys (JSMap.set key v m) = (JSMap.keys m ++ [key])%list.
Proof.
  unfold JSMap.keys. induction m as [|[k v'] m IH]; cbn; [reflexivity|].
  intro H. destruct (String.eqb k key) eqn:E.
  - apply String.eqb_eq in E. tauto.
  - cbn. rewrite IH; tauto.
Qed.

Lemma JSMap_set_entries {V : Type} (P : string * V -> Prop) (key : string) (v : V) (m : JSMap.t V) :
  Forall P m ->
  (forall k, In k (JSMap.keys m) -> k = key -> P (k, v)) ->
  P (key, v) ->
  Forall P (JSMap.set key v m).
Proof.
  intros Hm Hk Hnew. induction m as [|[k v'] m IH]; cbn.
  - now repeat constructor.
  - inversion Hm as [|? ? Hkv Hm']; subst.
    destruct (String.eqb k key) eqn:E.
    + apply String.eqb_eq in E. subst. now constructor.
    + constructor; [exact Hkv|]. apply IH; [exact Hm'|].
      intros k0 Hin. apply Hk. cbn. now right.
Qed.

(** * Invariant of the store *)

Lemma wellKeyed_set (chunk : DocumentChunk) (e : list float) (documents : VectorStore.Documents) :
  wellKeyed documents ->
  wellKeyed (JSMap.set (id chunk) {| chunkOf := chunk; embedding := e |} documents).
Proof.
  intros [Hnd Hid]. split.
  - destruct (in_dec String.string_dec (id chunk) (JSMap.keys documents)) as [Hin|Hout].
    + now rewrite JSMap_keys_set_present.
    + rewrite JSMap_keys_set_absent by exact Hout.
      apply NoDup_app; [exact Hnd|repeat constructor; intros []|].
      intros k Hk [<-|[]]. contradiction.
  - apply JSMap_set_entries; [exact Hid| |reflexivity]. intros k _ ->. reflexivity.
Qed.

Lemma NoDup_map_filter {A B : Type} (f : A -> B) (keep : A -> bool) (l : list A) :
  NoDup (map f l) -> NoDup (map f (filter keep l)).
Proof.
  induction l as [|x l IH]; cbn; [trivial|].
  intro H. inversion H as [|? ? Hx Hl]; subst.
  destruct (keep x); cbn; [|now apply IH].
  constructor; [|now apply IH].
  intro Hin. apply Hx. apply in_map_iff in Hin. destruct Hin as [y [Hy Hin]].
  apply filter_In in Hin. apply in_map_iff. exists y. tauto.
Qed.

Section StoreInvariant.

Variable createEmbedding : string -> result (list float).

Lemma addDocuments_wellKeyed (chunks : list DocumentChunk) (documents : VectorStore.Documents) :
  wellKeyed documents ->
  wellKeyed (VectorStore.documentsAfter (VectorStore.addDocuments createEmbedding chunks documents)).
Proof.
  revert documents. induction chunks as [|c chunks IH]; intros documents H; cbn; [exact H|].
  destruct (createEmbedding (content c)) as [e|message]; cbn; [|exact H].
  apply IH. now apply wellKeyed_set.
Qed.

(** X3. The store keeps one entry per chunk id, each under the id of
    its chunk: [addDocuments] (also when it stops at a failed embedding),
    [delete] and [clear] preserve this, and then [getAllChunks] lists no id
    twice. *)
Theorem store_stays_wellKeyed
  (chunks : list DocumentChunk) (documentId : string) (documents : VectorStore.Documents) :
  wellKeyed documents ->
  wellKeyed (VectorStore.documentsAfter (VectorStore.addDocuments createEmbedding chunks documents))
  /\ wellKeyed (VectorStore.delete documentId documents)
  /\ wellKeyed (VectorStore.clear documents)
  /\ NoDup (map id (VectorStore.getAllChunks documents)).
Proof.
  intro H. split; [now apply addDocuments_wellKeyed|]. split; [|split].
  - rewrite delete_is_filter. destruct H as [Hnd Hid]. split.
    + unfold JSMap.keys in *. now apply NoDup_map_filter.
    + rewrite Forall_forall in *. intros entry Hin. apply filter_In in Hin. now apply Hid.
  - split; constructor.
  - destruct H as [Hnd Hid]. unfold VectorStore.getAllChunks, JSMap.values, JSMap.keys in *.
    rewrite !map_map. cbn.
    replace (map (fun x => id (chunkOf (snd x))) documents) with (map fst documents); [exact Hnd|].
    apply map_ext_in. intros entry Hin. rewrite Forall_forall in Hid. now apply Hid.
Qed.

(** X4. After [addDocuments] of chunks with distinct ids whose
    embeddings all succeed, the store holds under each id the chunk given
    and the embedding of its content, and every other key is as before. *)
Theorem addDocuments_then_get (chunks : list DocumentChunk) (documents : VectorStore.Documents) :
  Forall (fun c => exists e, createEmbedding (content c) = Ok e) chunks ->
  NoDup (map id chunks) ->
  let stored := VectorStore.documentsAfter (VectorStore.addDocuments createEmbedding chunks documents) in
  (forall c, In c chunks ->
     exists e, createEmbedding (content c) = Ok e
               /\ JSMap.get stored (id c) = Some {| chunkOf := c; embedding := e |})
  /\ (forall key, ~ In key (map id chunks) -> JSMap.get stored key = JSMap.get documents key).
Proof.
  revert documents. induction chunks as [|c chunks IH]; intros documents Hok Hnd stored.
  - split; [intros c []|reflexivity].
  - inversion Hok as [|? ? [e He] Hok']; subst. inversion Hnd as [|? ? Hc Hnd']; subst.
    subst stored. cbn [VectorStore.addDocuments]. rewrite He.
    destruct (IH (JSMap.set (id c) {| chunkOf := c; embedding := e |} documents) Hok' Hnd')
      as [IH1 IH2].
    split.
    + intros c' [<-|Hin].
      * exists e. split; [exact He|]. rewrite IH2 by exact Hc. apply JSMap_get_set_same.
      * now apply IH1.
    + intros key Hkey. rewrite IH2.
      * apply JSMap_get_set_other. intros ->. apply Hkey. now left.
      * intro Hin. apply Hkey. now right.
Qed.

(** X5. Adding chunks whose ids are all in the store replaces their
    entries where they stand: the keys of the store and their order are
    unchanged. *)
Theorem addDocuments_overwrites_in_place (chunks : list DocumentChunk) (documents : VectorStore.Documents) :
  Forall (fun c => In (id c) (JSMap.keys documents)) chunks ->
  JSMap.keys (VectorStore.documentsAfter (VectorStore.addDocuments createEmbedding chunks documents))
  = JSMap.keys documents.
Proof.
  revert documents. induction chunks as [|c chunks IH]; intros documents H; cbn; [reflexivity|].
  inversion H as [|? ? Hc Hcs]; subst.
  destruct (createEmbedding (content c)) as [e|message]; cbn; [|reflexivity].
  rewrite IH.
  - now apply JSMap_keys_set_present.
  - rewrite JSMap_keys_set_present by exact Hc. exact Hcs.
Qed.

End StoreInvariant.

(** * Strings *)

Lemma prefix_empty (s : string) : String.prefix "" s = true.
Proof. now destruct s. Qed.

Lemma prefix_append (s t : string) : String.prefix s (s ++ t) = true.
Proof.
  induction s as [|c s IH]; cbn; [apply prefix_empty|].
  destruct (ascii_dec c c) as [_|H]; [exact IH|now contradiction H].
Qed.

Lemma prefix_append_r (s u t : string) :
  String.prefix s u = true -> String.prefix s (u ++ t) = true.
Proof.
  revert u. induction s as [|c s IH]; intros u H; [apply prefix_empty|].
  destruct u as [|d u]; [discriminate H|]. cbn in *.
  destruct (ascii_dec c d); [now apply IH|discriminate H].
Qed.

Lemma append_cancel_l (s t u : string) : s ++ t = s ++ u -> t = u.
Proof.
  induction s as [|c s IH]; cbn; [trivial|]. intros [= H]. now apply IH.
Qed.

Lemma showNat_injective (n m : nat) : showNat n = showNat m -> n = m.
Proof.
  unfold showNat. intro H. apply Unsigned.to_uint_inj.
  assert (E : Some (Nat.to_uint n) = Some (Nat.to_uint m))
    by (rewrite <- !NilEmpty.usu; now rewrite H).
  now injection E.
Qed.

Lemma chunkId_injective (documentId : string) (i j : nat) :
  DocumentProcessor.chunkId documentId i = DocumentProcessor.chunkId documentId j -> i = j.
Proof.
  unfold DocumentProcessor.chunkId. intro H.
  apply append_cancel_l in H. apply (append_cancel_l "_chunk_") in H.
  now apply showNat_injective.
Qed.

Lemma chunkId_prefix (prefix' documentId : string) (i : nat) :
  String.prefix prefix' documentId = true ->
  String.prefix prefix' (DocumentProcessor.chunkId documentId i) = true.
Proof. intro H. unfold DocumentProcessor.chunkId. now apply prefix_append_r. Qed.

Lemma prefix_refl (s : string) : String.prefix s s = true.
Proof.
  induction s as [|c s IH]; cbn; [reflexivity|]. destruct (ascii_dec c c); [exact IH|congruence].
Qed.

(** [trim] *)

Lemma trimEnd_cons (c d : ascii) (s t : string) :
  trimEnd s = String d t -> trimEnd (String c s) = String c (String d t).
Proof. intro H. cbn. now rewrite H. Qed.

Lemma trimEnd_idempotent (s : string) : trimEnd (trimEnd s) = trimEnd s.
Proof.
  induction s as [|c s IH]; [reflexivity|].
  destruct (trimEnd s) as [|d t] eqn:E.
  - cbn. rewrite E. destruct (isWhiteSpace c) eqn:Hc; cbn; [reflexivity|]. now rewrite Hc.
  - rewrite (@trimEnd_cons c d s t E). now apply trimEnd_cons.
Qed.

Lemma trimStart_head (s : string) :
  trimStart s = "" \/ exists c t, trimStart s = String c t /\ isWhiteSpace c = false.
Proof.
  induction s as [|c s IH]; cbn; [now left|].
  destruct (isWhiteSpace c) eqn:Hc; [exact IH|]. right. now exists c, s.
Qed.

Lemma trimEnd_head (c : ascii) (t : string) :
  isWhiteSpace c = false -> exists t', trimEnd (String c t) = String c t'.
Proof.
  intro Hc. cbn. destruct (trimEnd t); rewrite ?Hc; eexists; reflexivity.
Qed.

Lemma trim_idempotent (s : string) : trim (trim s) = trim s.
Proof.
  unfold trim. destruct (trimStart_head s) as [->|(c & t & -> & Hc)]; [reflexivity|].
  destruct (@trimEnd_head c t Hc) as [t' Ht]. rewrite Ht.
  cbn [trimStart]. rewrite Hc. rewrite <- Ht. apply trimEnd_idempotent.
Qed.

Lemma trimEnd_length (s : string) : (String.length (trimEnd s) <= String.length s)%nat.
Proof.
  induction s as [|c s IH]; cbn; [lia|].
  destruct (trimEnd s); [destruct (isWhiteSpace c)|]; cbn in *; lia.
Qed.

Lemma trimStart_length (s : string) : (String.length (trimStart s) <= String.length s)%nat.
Proof.
  induction s as [|c s IH]; cbn; [lia|]. destruct (isWhiteSpace c); cbn; lia.
Qed.

Lemma trim_length (s : string) : (String.length (trim s) <= String.length s)%nat.
Proof.
  unfold trim. eapply Nat.le_trans; [apply trimEnd_length|apply trimStart_length].
Qed.

(** * More on lists *)

Lemma skipn_In' {A : Type} (n : nat) (l : list A) (x : A) : In x (skipn n l) -> In x l.
Proof.
  intro H. rewrite <- (firstn_skipn n l). apply in_or_app. now right.
Qed.

Lemma slice_In {A : Type} (start : Z) (end_ : option Z) (l : list A) (x : A) :
  In x (slice start end_ l) -> In x l.
Proof.
  unfold slice. intro H. apply firstn_In in H. now apply skipn_In' in H.
Qed.

Lemma slice_length_le {A : Type} (start : Z) (end_ : option Z) (l : list A) :
  (List.length (slice start end_ l) <= List.length l)%nat.
Proof.
  unfold slice. rewrite length_firstn, length_skipn. lia.
Qed.

Lemma NoDup_map_firstn {A B : Type} (f : A -> B) (n : nat) (l : list A) :
  NoDup (map f l) -> NoDup (map f (firstn n l)).
Proof.
  intro H. rewrite <- (firstn_skipn n l), map_app in H. now apply NoDup_app_remove_r in H.
Qed.

Lemma NoDup_map_skipn {A B : Type} (f : A -> B) (n : nat) (l : list A) :
  NoDup (map f l) -> NoDup (map f (skipn n l)).
Proof.
  intro H. rewrite <- (firstn_skipn n l), map_app in H. now apply NoDup_app_remove_l in H.
Qed.

Lemma slice_empty {A : Type} (start : Z) (l : list A) : slice start (Some 0%Z) l = [].
Proof.
  unfold slice. cbn. now destruct (relativeIndex (List.length l) start).
Qed.

(** * Searching *)
Section SearchFacts.

Variable createEmbedding : string -> result (list float).

Lemma similarities_chunks (queryEmbedding : list float) (documents : VectorStore.Documents) :
  map chunk (VectorStore.similarities queryEmbedding documents) = VectorStore.getAllChunks documents.
Proof.
  unfold VectorStore.similarities, VectorStore.getAllChunks. now rewrite map_map.
Qed.

Lemma rankedMatches_In (queryEmbedding : list float) (k : Z) (documents : VectorStore.Documents)
  (m : Scored) :
  In m (VectorStore.rankedMatches queryEmbedding k documents) ->
  In m (VectorStore.similarities queryEmbedding documents) /\ VectorStore.aboveThreshold m = true.
Proof.
  unfold VectorStore.rankedMatches. intro H. apply filter_In in H. destruct H as [H Ha].
  split; [|exact Ha]. apply slice_In in H. eapply sort_In; exact H.
Qed.

Lemma rankedMatches_NoDup (queryEmbedding : list float) (k : Z) (documents : VectorStore.Documents) :
  wellKeyed documents ->
  NoDup (map id (map chunk (VectorStore.rankedMatches queryEmbedding k documents))).
Proof.
  intro H. rewrite map_map. unfold VectorStore.rankedMatches, slice.
  apply NoDup_map_filter, NoDup_map_firstn, NoDup_map_skipn.
  eapply Permutation_NoDup; [apply Permutation_map, sort_permutation|].
  rewrite <- map_map, similarities_chunks.
  destruct H as [Hnd Hid]. unfold VectorStore.getAllChunks, JSMap.values, JSMap.keys in *.
  rewrite !map_map. cbn.
  replace (map (fun x => id (chunkOf (snd x))) documents) with (map fst documents); [exact Hnd|].
  apply map_ext_in. intros entry Hin. rewrite Forall_forall in Hid. now apply Hid.
Qed.

Lemma similaritySearch_incl
  (query : string) (k : Z) (documents : VectorStore.Documents) (results : list DocumentChunk) :
  VectorStore.similaritySearch createEmbedding query k documents = Ok results ->
  incl results (VectorStore.getAllChunks documents).
Proof.
  unfold VectorStore.similaritySearch.
  destruct (JSMap.size documents =? 0)%nat; [intros [= <-] c []|].
  destruct (createEmbedding query) as [queryEmbedding|message]; [|discriminate].
  intros [= <-] c Hc. apply in_map_iff in Hc. destruct Hc as [m [<- Hm]].
  apply rankedMatches_In in Hm. rewrite <- (similarities_chunks queryEmbedding).
  now apply in_map.
Qed.

Lemma similaritySearch_length_le
  (query : string) (k : Z) (documents : VectorStore.Documents) (results : list DocumentChunk) :
  VectorStore.similaritySearch createEmbedding query k documents = Ok results ->
  (0 <= k)%Z -> (Z.of_nat (List.length results) <= k)%Z.
Proof.
  unfold VectorStore.similaritySearch.
  destruct (JSMap.size documents =? 0)%nat; [intros [= <-]; cbn; lia|].
  destruct (createEmbedding query) as [queryEmbedding|message]; [|discriminate].
  intros H Hk. assert (E : results = map chunk (VectorStore.rankedMatches queryEmbedding k documents))
    by congruence.
  subst results. rewrite length_map. unfold VectorStore.rankedMatches.
  rewrite slice_prefix by exact Hk.
  pose proof (filter_length_le VectorStore.aboveThreshold
                (firstn (Z.to_nat k)
                   (sort VectorStore.comparefn
                      (VectorStore.similarities queryEmbedding documents)))) as H1.
  pose proof (firstn_le_length (Z.to_nat k)
                (sort VectorStore.comparefn
                   (VectorStore.similarities queryEmbedding documents))) as H2.
  lia.
Qed.

(** X6. What [similaritySearch] returns are chunks of the store, no
    more than the store holds, no more than [k] for [k >= 0], and with
    distinct ids when the store is well keyed. *)
Theorem similaritySearch_results_from_store
  (query : string) (k : Z) (documents : VectorStore.Documents) (results : list DocumentChunk) :
  VectorStore.similaritySearch createEmbedding query k documents = Ok results ->
  incl results (VectorStore.getAllChunks documents)
  /\ (List.length results <= JSMap.size documents)%nat
  /\ ((0 <= k)%Z -> (Z.of_nat (List.length results) <= k)%Z)
  /\ (wellKeyed documents -> NoDup (map id results)).
Proof.
  unfold VectorStore.similaritySearch.
  destruct documents as [|d documents'] eqn:Hd.
  - cbn. intros [= <-]. repeat split; try (cbn; lia); try constructor. intros c [].
  - rewrite <- Hd. replace (JSMap.size documents =? 0)%nat with false by now rewrite Hd.
    destruct (createEmbedding query) as [queryEmbedding|message]; [|discriminate].
    intros [= <-]. repeat split.
    + intros c Hc. apply in_map_iff in Hc. destruct Hc as [m [<- Hm]].
      apply rankedMatches_In in Hm. rewrite <- (similarities_chunks queryEmbedding).
      now apply in_map.
    + rewrite length_map. unfold VectorStore.rankedMatches.
      eapply Nat.le_trans; [apply filter_length_le|].
      eapply Nat.le_trans; [apply slice_length_le|].
      rewrite sort_length. unfold VectorStore.similarities, JSMap.values, JSMap.size.
      now rewrite !length_map.
    + intro Hk. rewrite length_map. unfold VectorStore.rankedMatches.
      rewrite slice_prefix by exact Hk.
      pose proof (filter_length_le VectorStore.aboveThreshold
                    (firstn (Z.to_nat k)
                       (sort VectorStore.comparefn
                          (VectorStore.similarities queryEmbedding documents)))) as H1.
      pose proof (firstn_le_length (Z.to_nat k)
                    (sort VectorStore.comparefn
                       (VectorStore.similarities queryEmbedding documents))) as H2.
      lia.
    + intro Hw. now apply rankedMatches_NoDup.
Qed.

(** X7. [similaritySearch] on an empty store returns no result
    without embedding the query; it throws exactly when the store is not
    empty and the embedding of the query fails, with the message
    [Search failed: ] followed by the cause; and with [k = 0] it returns
    no result. *)
Theorem similaritySearch_throws_exactly
  (query : string) (k : Z) (documents : VectorStore.Documents) :
  (documents = [] -> VectorStore.similaritySearch createEmbedding query k documents = Ok [])
  /\ (forall message,
        VectorStore.similaritySearch createEmbedding query k documents = Throw message
        <-> documents <> []
            /\ exists cause, createEmbedding query = Throw cause
                             /\ message = "Search failed: " ++ cause)
  /\ (forall results,
        VectorStore.similaritySearch createEmbedding query 0 documents = Ok results ->
        results = []).
Proof.
  unfold VectorStore.similaritySearch. split; [now intros ->|]. split.
  - intro message. destruct documents as [|d documents'] eqn:Hd.
    + cbn. split; [discriminate|]. now intros [H _].
    + rewrite <- Hd. replace (JSMap.size documents =? 0)%nat with false by now rewrite Hd.
      destruct (createEmbedding query) as [queryEmbedding|cause]; split.
      * discriminate.
      * intros [_ [cause [Hc _]]]. discriminate.
      * intros [= <-]. split; [now rewrite Hd|]. now exists cause.
      * intros [_ [cause' [[= <-] ->]]]. reflexivity.
  - intros results. destruct (JSMap.size documents =? 0)%nat; [now intros [= <-]|].
    destruct (createEmbedding query) as [queryEmbedding|cause]; [|discriminate].
    intros [= <-]. unfold VectorStore.rankedMatches. now rewrite ?slice_empty.
Qed.

End SearchFacts.

(** * The search against its specification *)

Lemma chunk_copy (c : DocumentChunk) :
  {| id := id c; content := content c; metadata := metadata c |} = c.
Proof. now destruct c. Qed.

Lemma filter_map_commute {A B : Type} (keep : B -> bool) (g : A -> B) (l : list A) :
  filter keep (map g l) = map g (filter (fun x => keep (g x)) l).
Proof.
  induction l as [|x l IH]; cbn; [reflexivity|]. destruct (keep (g x)); cbn; now rewrite IH.
Qed.

Lemma StronglySorted_weaken {A : Type} (R R' : A -> A -> Prop) (l : list A) :
  StronglySorted R l ->
  (forall a b, In a l -> In b l -> R a b -> R' a b) ->
  StronglySorted R' l.
Proof.
  induction 1 as [|x l Hs IH Hx]; intro H; constructor.
  - apply IH. intros a b Ha Hb. apply H; now right.
  - rewrite Forall_forall in *. intros y Hy. apply H; [now left|now right|now apply Hx].
Qed.

Lemma insertByScore_In {A : Type} (score : A -> float) (x z : A) (l : list A) :
  In z (insertByScore score x l) -> z = x \/ In z l.
Proof.
  induction l as [|y l IH]; cbn.
  - intros [<-|[]]. now left.
  - destruct (PrimFloat.ltb (score x) (score y)); cbn; intros [H|H]; subst; auto.
    destruct (IH H); auto.
Qed.

Lemma sortByScore_In {A : Type} (score : A -> float) (z : A) (l : list A) :
  In z (sortByScore score l) -> In z l.
Proof.
  induction l as [|x l IH]; cbn; [auto|]. intro H. apply insertByScore_In in H.
  destruct H as [->|H]; [now left|right; now apply IH].
Qed.

(** Where the comparator of the code decides as the scores do, its sort
    is the sort by score. *)
Lemma insertSorted_by_score {A B : Type} (comparefn : B -> B -> float) (score : A -> float)
  (g : A -> B) (x : A) (l : list A) :
  (forall y, In y l -> sortsAfter comparefn (g x) (g y) = PrimFloat.ltb (score x) (score y)) ->
  insertSorted comparefn (g x) (map g l) = map g (insertByScore score x l).
Proof.
  induction l as [|y l IH]; intro H; cbn [insertSorted map insertByScore]; [reflexivity|].
  rewrite (H y) by now left.
  destruct (PrimFloat.ltb (score x) (score y)); cbn [map]; [|reflexivity].
  rewrite IH; [reflexivity|]. intros z Hz. apply H. now right.
Qed.

Lemma sort_by_score {A B : Type} (comparefn : B -> B -> float) (score : A -> float)
  (g : A -> B) (l : list A) :
  (forall x y, In x l -> In y l ->
     sortsAfter comparefn (g x) (g y) = PrimFloat.ltb (score x) (score y)) ->
  sort comparefn (map g l) = map g (sortByScore score l).
Proof.
  induction l as [|x l IH]; intro H; cbn [sort map sortByScore]; [reflexivity|].
  rewrite IH by (intros a b Ha Hb; apply H; now right).
  apply insertSorted_by_score. intros y Hy. apply H; [now left|].
  right. eapply sortByScore_In; exact Hy.
Qed.

Lemma differences_follow (scores : list float) (a b : float) :
  differencesFollowScores scores = true -> In a scores -> In b scores ->
  PrimFloat.ltb 0%float (b - a)%float = PrimFloat.ltb a b.
Proof.
  unfold differencesFollowScores. rewrite forallb_forall. intros H Ha Hb.
  specialize (H a Ha). rewrite forallb_forall in H. specialize (H b Hb).
  now apply Bool.eqb_prop in H.
Qed.

Section Retrieval.

Variable createEmbedding : string -> result (list float).

Lemma similarities_scored (queryEmbedding : list float) (documents : VectorStore.Documents) :
  VectorStore.similarities queryEmbedding documents
  = map (scoredEntry queryEmbedding) (JSMap.values documents).
Proof. reflexivity. Qed.

Lemma chunk_scoredEntry (queryEmbedding : list float) (stored : StoredChunk) :
  chunk (scoredEntry queryEmbedding stored) = chunkOf stored.
Proof. apply chunk_copy. Qed.

Lemma comparefn_follows_scores (queryEmbedding : list float) (documents : VectorStore.Documents)
  (x y : StoredChunk) :
  differencesFollowScores (map (scoreOf queryEmbedding) (JSMap.values documents)) = true ->
  In x (JSMap.values documents) ->
  In y (JSMap.values documents) ->
  sortsAfter VectorStore.comparefn (scoredEntry queryEmbedding x) (scoredEntry queryEmbedding y)
  = PrimFloat.ltb (scoreOf queryEmbedding x) (scoreOf queryEmbedding y).
Proof.
  intros Hd Hx Hy. unfold sortsAfter, VectorStore.comparefn. cbn [similarity scoredEntry].
  apply (differences_follow _ _ _ Hd); now apply in_map.
Qed.

(** With ordered scores the code returns the sort by score, the scores
    above the threshold, the first [k]. *)
Lemma similaritySearch_by_score
  (documents : VectorStore.Documents) (query : string) (k : Z) (queryEmbedding : list float) :
  (0 <= k)%Z ->
  createEmbedding query = Ok queryEmbedding ->
  orderedScores queryEmbedding documents = true ->
  VectorStore.similaritySearch createEmbedding query k documents
  = specifiedSearch createEmbedding query k documents.
Proof.
  intros Hk Hq Ho. unfold orderedScores in Ho. apply andb_prop in Ho. destruct Ho as [Hc Hd].
  unfold VectorStore.similaritySearch, specifiedSearch.
  destruct documents as [|d documents'] eqn:E; [reflexivity|]. rewrite <- E in *.
  replace (JSMap.size documents =? 0)%nat with false by now rewrite E.
  rewrite Hq. f_equal. rewrite rankedMatches_spec by assumption.
  rewrite similarities_scored.
  rewrite sort_by_score with (score := scoreOf queryEmbedding)
    by (intros x y; now apply comparefn_follows_scores).
  rewrite filter_map_commute, firstn_map, map_map.
  apply map_ext. intro stored. apply chunk_scoredEntry.
Qed.

(** An entry above the threshold that stands among the first [k] is in
    the results. *)
Lemma similaritySearch_keeps_the_first
  (documents : VectorStore.Documents) (query : string) (k : Z) (queryEmbedding : list float)
  (stored : StoredChunk) :
  (0 <= k)%Z ->
  createEmbedding query = Ok queryEmbedding ->
  orderedScores queryEmbedding documents = true ->
  In stored (JSMap.values documents) ->
  PrimFloat.ltb 0.1%float (scoreOf queryEmbedding stored) = true ->
  (Z.of_nat (standing queryEmbedding stored documents) <= k)%Z ->
  exists results,
    VectorStore.similaritySearch createEmbedding query k documents = Ok results
    /\ In (chunkOf stored) results.
Proof.
  intros Hk Hq Ho Hin Habove Hstanding.
  pose proof Ho as Ho'. unfold orderedScores in Ho'. apply andb_prop in Ho'.
  destruct Ho' as [Hc Hd]. pose proof (comparableScores_spec _ _ Hc) as [Hcons Ht].
  rewrite similarities_scored in Hcons, Ht.
  assert (Hitem : In (scoredEntry queryEmbedding stored)
                    (map (scoredEntry queryEmbedding) (JSMap.values documents)))
    by now apply in_map.
  assert (Hrank : (List.length
                     (filter (fun other => negb (sortsAfter VectorStore.comparefn other
                                                   (scoredEntry queryEmbedding stored)))
                        (map (scoredEntry queryEmbedding) (JSMap.values documents)))
                   <= Z.to_nat k)%nat).
  { apply Nat2Z.inj_le. rewrite Z2Nat.id by exact Hk.
    eapply Z.le_trans; [|exact Hstanding]. apply Nat2Z.inj_le. apply Nat.eq_le_incl.
    unfold standing. rewrite filter_map_commute, length_map.
    f_equal. apply filter_ext_in. intros other Hother.
    pose proof (comparefn_follows_scores queryEmbedding documents other stored Hd Hother Hin)
      as Hfollow.
    rewrite Hfollow.
    destruct (PrimFloat.ltb (scoreOf queryEmbedding other) (scoreOf queryEmbedding stored)) eqn:Hlt;
      [now rewrite andb_false_r|].
    rewrite andb_true_r. cbn [negb]. symmetry.
    exact (Ht (scoredEntry queryEmbedding other) (scoredEntry queryEmbedding stored)
              (in_map _ _ _ Hother) Hitem Hfollow Habove). }
  unfold VectorStore.similaritySearch.
  destruct documents as [|d documents'] eqn:E; [destruct Hin|]. rewrite <- E in *.
  replace (JSMap.size documents =? 0)%nat with false by now rewrite E.
  rewrite Hq. eexists. split; [reflexivity|].
  rewrite <- (chunk_scoredEntry queryEmbedding stored). apply in_map.
  rewrite rankedMatches_spec by assumption. rewrite similarities_scored.
  rewrite <- filter_firstn_sorted with (comparefn := VectorStore.comparefn).
  - apply filter_In. split; [|exact Habove].
    apply sorted_rank_firstn with (comparefn := VectorStore.comparefn).
    + now apply sort_sorted.
    + destruct Hcons as [Hasym _].
      destruct (sortsAfter VectorStore.comparefn (scoredEntry queryEmbedding stored)
                  (scoredEntry queryEmbedding stored)) eqn:Hxx; [|reflexivity].
      now rewrite (Hasym _ _ Hitem Hitem Hxx) in Hxx.
    + now apply In_sort.
    + rewrite <- (filter_length_permutation _ (sort_permutation VectorStore.comparefn _)).
      exact Hrank.
  - now apply sort_sorted.
  - intros a b Ha Hb. apply Ht; eapply sort_In; eassumption.
Qed.

(** C1, as amended.  For every store, query and [k >= 1] whose scores are
    ordered, [similaritySearch] returns what scoring every entry, sorting
    descending by score, dropping the scores that do not exceed [0.1] and
    then taking the first [k] returns: the cut to [k] that the code makes
    before the threshold test loses nothing.  Every stored entry that
    scores above [0.1] and stands among the first [k] such scores is among
    the results. *)
Theorem similaritySearch_threshold_before_truncation
  (documents : VectorStore.Documents) (query : string) (k : Z) (queryEmbedding : list float) :
  (1 <= k)%Z ->
  createEmbedding query = Ok queryEmbedding ->
  orderedScores queryEmbedding documents = true ->
  VectorStore.similaritySearch createEmbedding query k documents
  = specifiedSearch createEmbedding query k documents
  /\ forall stored,
       In stored (JSMap.values documents) ->
       PrimFloat.ltb 0.1%float (scoreOf queryEmbedding stored) = true ->
       (Z.of_nat (standing queryEmbedding stored documents) <= k)%Z ->
       exists results,
         VectorStore.similaritySearch createEmbedding query k documents = Ok results
         /\ In (chunkOf stored) results.
Proof.
  intros Hk Hq Ho. split.
  - apply similaritySearch_by_score with (queryEmbedding := queryEmbedding); [lia|assumption..].
  - intros stored Hin Habove Hstanding.
    apply similaritySearch_keeps_the_first with (queryEmbedding := queryEmbedding);
      [lia|assumption..].
Qed.

(** C3, as amended.  For every store, query and [k]: [similaritySearch]
    returns at most [k] results when [k >= 0]; each result is the chunk of a
    stored entry whose score against the query is strictly above [0.1]; and
    when the scores are ordered, no result scores higher than one before it
    (two results may score the same). *)
Theorem similaritySearch_bounded_above_threshold_descending
  (documents : VectorStore.Documents) (query : string) (k : Z) (queryEmbedding : list float) :
  createEmbedding query = Ok queryEmbedding ->
  let matches := VectorStore.rankedMatches queryEmbedding k documents in
  VectorStore.similaritySearch createEmbedding query k documents = Ok (map chunk matches)
  /\ ((0 <= k)%Z -> (Z.of_nat (List.length (map chunk matches)) <= k)%Z)
  /\ Forall (fun m =>
               (exists stored,
                   In stored (JSMap.values documents)
                   /\ chunk m = chunkOf stored
                   /\ similarity m = cosineSimilarity queryEmbedding (embedding stored))
               /\ PrimFloat.ltb 0.1%float (similarity m) = true) matches
  /\ (orderedScores queryEmbedding documents = true -> descending matches).
Proof.
  intros Hq matches. subst matches.
  assert (Hs : VectorStore.similaritySearch createEmbedding query k documents
               = Ok (map chunk (VectorStore.rankedMatches queryEmbedding k documents))).
  { unfold VectorStore.similaritySearch.
    destruct documents as [|d documents'].
    - cbn. unfold VectorStore.rankedMatches, slice. cbn.
      now rewrite ?skipn_nil, ?firstn_nil.
    - cbn [JSMap.size List.length Nat.eqb]. now rewrite Hq. }
  split; [exact Hs|]. split; [|split].
  - intro Hk. exact (@similaritySearch_length_le createEmbedding query k documents _ Hs Hk).
  - rewrite Forall_forall. intros m Hm. apply rankedMatches_In in Hm. destruct Hm as [Hm Ha].
    split; [|exact Ha]. rewrite similarities_scored in Hm. apply in_map_iff in Hm.
    destruct Hm as [stored [<- Hin]]. exists stored.
    split; [exact Hin|]. split; [apply chunk_scoredEntry|reflexivity].
  - intro Ho. unfold orderedScores in Ho. apply andb_prop in Ho. destruct Ho as [Hc Hd].
    pose proof (comparableScores_spec _ _ Hc) as [Hcons _].
    unfold descending, VectorStore.rankedMatches, slice.
    apply StronglySorted_filter, StronglySorted_firstn.
    replace (relativeIndex _ 0) with 0%nat by (unfold relativeIndex; cbn; lia).
    cbn [skipn].
    apply StronglySorted_weaken with (R := notAfter VectorStore.comparefn);
      [now apply sort_sorted|].
    intros a b Ha Hb Hab. apply sort_In in Ha, Hb. rewrite similarities_scored in Ha, Hb.
    apply in_map_iff in Ha, Hb. destruct Ha as [x [<- Hx]]. destruct Hb as [y [<- Hy]].
    unfold notAfter in Hab.
    rewrite (comparefn_follows_scores queryEmbedding documents x y Hd Hx Hy) in Hab.
    exact Hab.
Qed.

End Retrieval.

(** The amended C1 and C3 at sample data: of four entries, one scores
    below the threshold, two score the same, and a cut to two leaves out an
    entry above the threshold. *)

Example cut_to_two_scenario :
  VectorStore.similaritySearch VectorStore.InMemory letters 2 (storeOf [grass; rule; sky; skyAgain])
  = Ok [sky; skyAgain]
  /\ map (fun stored => PrimFloat.ltb 0.1%float (scoreOf (createSimpleEmbedding letters) stored))
       (JSMap.values (storeOf [grass; rule; sky; skyAgain]))
     = [true; false; true; true]
  /\ map (fun stored => standing (createSimpleEmbedding letters) stored
                          (storeOf [grass; rule; sky; skyAgain]))
       (JSMap.values (storeOf [grass; rule; sky; skyAgain]))
     = [3; 3; 2; 2]%nat.
Proof. repeat split; vm_compute; reflexivity. Qed.

Lemma similaritySearch_threshold_before_truncation_witness :
  VectorStore.similaritySearch VectorStore.InMemory letters 2 (storeOf [grass; rule; sky; skyAgain])
  = specifiedSearch VectorStore.InMemory letters 2 (storeOf [grass; rule; sky; skyAgain])
  /\ forall stored,
       In stored (JSMap.values (storeOf [grass; rule; sky; skyAgain])) ->
       PrimFloat.ltb 0.1%float (scoreOf (createSimpleEmbedding letters) stored) = true ->
       (Z.of_nat (standing (createSimpleEmbedding letters) stored
                    (storeOf [grass; rule; sky; skyAgain])) <= 2)%Z ->
       exists results,
         VectorStore.similaritySearch VectorStore.InMemory letters 2
           (storeOf [grass; rule; sky; skyAgain]) = Ok results
         /\ In (chunkOf stored) results.
Proof.
  apply (@similaritySearch_threshold_before_truncation VectorStore.InMemory
           (storeOf [grass; rule; sky; skyAgain]) letters 2%Z (createSimpleEmbedding letters)).
  - lia.
  - reflexivity.
  - vm_compute. reflexivity.
Defined.

(** C1, as worded, fails: the score of a chunk without text is [NaN],
    which the sort leaves where it stands and the cut to [k] counts; with
    [k = 1] the only entry above the threshold is cut off, and nothing is
    returned. *)
Lemma nan_score_takes_a_result_slot :
  VectorStore.similaritySearch VectorStore.InMemory skyQuestion 1 (storeOf [blank; sky]) = Ok []
  /\ specifiedSearch VectorStore.InMemory skyQuestion 1 (storeOf [blank; sky]) = Ok [sky]
  /\ ~ specifiedRetrieval VectorStore.InMemory skyQuestion 1 (storeOf [blank; sky]).
Proof.
  assert (E : VectorStore.similaritySearch VectorStore.InMemory skyQuestion 1 (storeOf [blank; sky])
              = Ok []) by (vm_compute; reflexivity).
  split; [exact E|]. split; [vm_compute; reflexivity|].
  intros [_ H].
  assert (Hin : In {| chunkOf := sky; embedding := createSimpleEmbedding (content sky) |}
                  (JSMap.values (storeOf [blank; sky])))
    by (vm_compute; right; left; reflexivity).
  assert (Habove : PrimFloat.ltb 0.1%float
                     (scoreOf (createSimpleEmbedding skyQuestion)
                        {| chunkOf := sky; embedding := createSimpleEmbedding (content sky) |})
                   = true) by (vm_compute; reflexivity).
  assert (Hstanding : standing (createSimpleEmbedding skyQuestion)
                        {| chunkOf := sky; embedding := createSimpleEmbedding (content sky) |}
                        (storeOf [blank; sky]) = 1%nat) by (vm_compute; reflexivity).
  destruct (H (createSimpleEmbedding skyQuestion)
              {| chunkOf := sky; embedding := createSimpleEmbedding (content sky) |}
              eq_refl Hin Habove) as (results & Hr & Hres).
  - rewrite Hstanding. lia.
  - rewrite E in Hr. assert (Hnone : results = []) by congruence.
    subst results. destruct Hres.
Qed.

Lemma descending_first_two (a b : Scored) (l : list Scored) :
  descending (a :: b :: l) -> PrimFloat.ltb (similarity a) (similarity b) = false.
Proof.
  intro H. inversion H as [|? ? _ Hall]; subst. now inversion Hall.
Qed.

(** Where a score is [NaN] the results need not be in order: the chunk
    without text keeps the lower score before the higher one. *)
Example nan_score_breaks_the_order :
  orderedScores (createSimpleEmbedding skyQuestion) (storeOf [grass; blank; sky]) = false
  /\ VectorStore.similaritySearch VectorStore.InMemory skyQuestion 3 (storeOf [grass; blank; sky])
     = Ok [grass; sky]
  /\ ~ descending (VectorStore.rankedMatches (createSimpleEmbedding skyQuestion) 3
                     (storeOf [grass; blank; sky])).
Proof.
  split; [vm_compute; reflexivity|]. split; [vm_compute; reflexivity|].
  assert (E : exists a b, VectorStore.rankedMatches (createSimpleEmbedding skyQuestion) 3
                  (storeOf [grass; blank; sky]) = [a; b]
                /\ PrimFloat.ltb (similarity a) (similarity b) = true).
  { do 2 eexists. split; vm_compute; reflexivity. }
  destruct E as (a & b & E & Hab). rewrite E. intro Hs.
  apply descending_first_two in Hs. congruence.
Qed.

(** C3, as worded, fails: two chunks with the same text score the same and
    are both returned; for [k = -1], [slice(0, -1)] keeps all but the last
    entry, one result here; and beside a [NaN] score the results are not
    even in descending order. *)
Lemma strictly_descending_fails :
  ~ specifiedResults VectorStore.InMemory skyQuestion 2 (storeOf [sky; skyAgain])
  /\ ~ specifiedResults VectorStore.InMemory skyQuestion (-1) (storeOf [sky; skyAgain])
  /\ ~ specifiedResults VectorStore.InMemory skyQuestion 3 (storeOf [grass; blank; sky]).
Proof.
  split; [|split]; intros (queryEmbedding & Hq & H); apply InMemory_embedding in Hq;
    subst queryEmbedding; destruct H as (_ & Hlen & _ & Hs).
  - assert (E : exists a b, VectorStore.rankedMatches (createSimpleEmbedding skyQuestion) 2
                  (storeOf [sky; skyAgain]) = [a; b]
                /\ PrimFloat.ltb (similarity b) (similarity a) = false).
    { do 2 eexists. split; vm_compute; reflexivity. }
    destruct E as (a & b & E & Hab). rewrite E in Hs.
    apply strictlyDescending_first_two in Hs. congruence.
  - assert (E : List.length (VectorStore.rankedMatches (createSimpleEmbedding skyQuestion) (-1)
                  (storeOf [sky; skyAgain])) = 1%nat) by (vm_compute; reflexivity).
    rewrite E in Hlen. lia.
  - assert (E : exists a b, VectorStore.rankedMatches (createSimpleEmbedding skyQuestion) 3
                  (storeOf [grass; blank; sky]) = [a; b]
                /\ PrimFloat.ltb (similarity b) (similarity a) = false).
    { do 2 eexists. split; vm_compute; reflexivity. }
    destruct E as (a & b & E & Hab). rewrite E in Hs.
    apply strictlyDescending_first_two in Hs. congruence.
Qed.

Lemma similaritySearch_bounded_above_threshold_descending_witness :
  let matches := VectorStore.rankedMatches (createSimpleEmbedding letters) 2
                   (storeOf [grass; rule; sky; skyAgain]) in
  VectorStore.similaritySearch VectorStore.InMemory letters 2 (storeOf [grass; rule; sky; skyAgain])
  = Ok (map chunk matches)
  /\ ((0 <= 2)%Z -> (Z.of_nat (List.length (map chunk matches)) <= 2)%Z)
  /\ Forall (fun m =>
               (exists stored,
                   In stored (JSMap.values (storeOf [grass; rule; sky; skyAgain]))
                   /\ chunk m = chunkOf stored
                   /\ similarity m
                      = cosineSimilarity (createSimpleEmbedding letters) (embedding stored))
               /\ PrimFloat.ltb 0.1%float (similarity m) = true) matches
  /\ (orderedScores (createSimpleEmbedding letters) (storeOf [grass; rule; sky; skyAgain]) = true ->
      descending matches).
Proof.
  apply (@similaritySearch_bounded_above_threshold_descending VectorStore.InMemory
           (storeOf [grass; rule; sky; skyAgain]) letters 2%Z (createSimpleEmbedding letters)).
  reflexivity.
Defined.

Example ordered_scores_scenario :
  orderedScores (createSimpleEmbedding letters) (storeOf [grass; rule; sky; skyAgain]) = true
  /\ map similarity (VectorStore.rankedMatches (createSimpleEmbedding letters) 3
                       (storeOf [grass; rule; sky; skyAgain]))
     = [0.78465971711215776; 0.78465971711215776; 0.62571409344930295]%float.
Proof. split; vm_compute; reflexivity. Qed.

(** * Deleting *)

Lemma filter_all {A : Type} (keep : A -> bool) (l : list A) :
  Forall (fun x => keep x = true) l -> filter keep l = l.
Proof.
  induction 1 as [|x l Hx _ IH]; cbn; [reflexivity|]. now rewrite Hx, IH.
Qed.

Lemma filter_none {A : Type} (keep : A -> bool) (l : list A) :
  Forall (fun x => keep x = false) l -> filter keep l = [].
Proof.
  induction 1 as [|x l Hx _ IH]; cbn; [reflexivity|]. now rewrite Hx.
Qed.

Lemma filter_idempotent {A : Type} (keep : A -> bool) (l : list A) :
  filter keep (filter keep l) = filter keep l.
Proof.
  induction l as [|x l IH]; cbn; [reflexivity|].
  destruct (keep x) eqn:E; cbn; rewrite ?E, IH; reflexivity.
Qed.

Lemma delete_no_match (documentId : string) (documents : VectorStore.Documents) :
  Forall (fun key => String.prefix documentId key = false) (JSMap.keys documents) ->
  VectorStore.delete documentId documents = documents.
Proof.
  intro H. rewrite delete_is_filter. apply filter_all.
  unfold JSMap.keys in H. rewrite Forall_map in H.
  eapply Forall_impl; [|exact H]. cbn. now intros entry ->.
Qed.

(** X8. [delete] with the empty id empties the store; deleting twice
    is deleting once; and when no key starts with the id the store is
    unchanged. *)
Theorem delete_edge_cases (documentId : string) (documents : VectorStore.Documents) :
  VectorStore.delete "" documents = []
  /\ VectorStore.delete documentId (VectorStore.delete documentId documents)
     = VectorStore.delete documentId documents
  /\ (Forall (fun key => String.prefix documentId key = false) (JSMap.keys documents) ->
      VectorStore.delete documentId documents = documents).
Proof.
  split; [|split].
  - rewrite delete_is_filter. apply filter_none. rewrite Forall_forall.
    intros entry _. now rewrite prefix_empty.
  - rewrite !delete_is_filter. apply filter_idempotent.
  - apply delete_no_match.
Qed.

(** X9. [delete] of a document also removes the chunks of every
    document whose id starts with the id given: after [delete documentId],
    no chunk [longerId_chunk_i] is left when [documentId] is a prefix of
    [longerId]. *)
Theorem delete_reaches_documents_sharing_the_prefix
  (documentId longerId : string) (index : nat) (documents : VectorStore.Documents) :
  String.prefix documentId longerId = true ->
  JSMap.get (VectorStore.delete documentId documents) (DocumentProcessor.chunkId longerId index)
  = None.
Proof.
  intro H. rewrite delete_is_filter.
  rewrite (get_filter_keys (fun k => negb (String.prefix documentId k))).
  now rewrite chunkId_prefix.
Qed.

Section Deleted.

Variable createEmbedding : string -> result (list float).

(** X10. After [delete documentId], no search returns a chunk whose id
    starts with [documentId]. *)
Theorem deleted_chunks_are_not_retrieved
  (documentId query : string) (k : Z) (documents : VectorStore.Documents)
  (results : list DocumentChunk) :
  wellKeyed documents ->
  VectorStore.similaritySearch createEmbedding query k (VectorStore.delete documentId documents)
  = Ok results ->
  Forall (fun c => String.prefix documentId (id c) = false) results.
Proof.
  intros Hw Hs. pose proof (similaritySearch_incl _ _ _ _ Hs) as Hincl.
  rewrite Forall_forall. intros c Hc. apply Hincl in Hc.
  unfold VectorStore.getAllChunks, JSMap.values in Hc. rewrite map_map in Hc.
  apply in_map_iff in Hc. destruct Hc as [[key stored] [<- Hin]]. cbn.
  rewrite delete_is_filter in Hin. apply filter_In in Hin. destruct Hin as [Hin Hp].
  destruct Hw as [_ Hid]. rewrite Forall_forall in Hid. specialize (Hid _ Hin). cbn in *.
  rewrite <- Hid. now apply negb_true_iff in Hp.
Qed.

Lemma filter_set_dropped {V : Type} (drop : string -> bool) (key : string) (v : V) (m : JSMap.t V) :
  drop key = true ->
  filter (fun entry => negb (drop (fst entry))) (JSMap.set key v m)
  = filter (fun entry => negb (drop (fst entry))) m.
Proof.
  intro H. induction m as [|[k v'] m IH]; cbn.
  - now rewrite H.
  - destruct (String.eqb k key) eqn:E; cbn.
    + apply String.eqb_eq in E. subst k. now rewrite H.
    + now rewrite IH.
Qed.

Lemma delete_after_addDocuments
  (documentId : string) (chunks : list DocumentChunk) (documents : VectorStore.Documents) :
  Forall (fun c => String.prefix documentId (id c) = true) chunks ->
  VectorStore.delete documentId
    (VectorStore.documentsAfter (VectorStore.addDocuments createEmbedding chunks documents))
  = VectorStore.delete documentId documents.
Proof.
  intro H. rewrite !delete_is_filter. revert documents.
  induction H as [|c chunks Hc _ IH]; intro documents; cbn; [reflexivity|].
  destruct (createEmbedding (content c)) as [e|message]; cbn; [|reflexivity].
  rewrite IH. now apply (filter_set_dropped (String.prefix documentId)).
Qed.

(** X11. [delete documentId] after [addDocuments] of chunks whose ids
    start with [documentId] leaves what [delete documentId] leaves of the
    store before; when the store held no key starting with [documentId],
    that is the store before, also when [addDocuments] stopped at a failed
    embedding. *)
Theorem delete_undoes_addDocuments
  (documentId : string) (chunks : list DocumentChunk) (documents : VectorStore.Documents) :
  Forall (fun c => String.prefix documentId (id c) = true) chunks ->
  VectorStore.delete documentId
    (VectorStore.documentsAfter (VectorStore.addDocuments createEmbedding chunks documents))
  = VectorStore.delete documentId documents
  /\ (Forall (fun key => String.prefix documentId key = false) (JSMap.keys documents) ->
      VectorStore.delete documentId
        (VectorStore.documentsAfter (VectorStore.addDocuments createEmbedding chunks documents))
      = documents).
Proof.
  intro H. split; [now apply delete_after_addDocuments|].
  intro Hfresh. rewrite delete_after_addDocuments by exact H.
  now apply delete_no_match.
Qed.

End Deleted.

(** * Distinct names *)

Lemma unique_from (names seen : list string) :
  let result :=
    fold_left
      (fun seen name => if existsb (String.eqb name) seen then seen else (seen ++ [name])%list)
      names seen in
  (NoDup seen -> NoDup result)
  /\ (forall name, In name result <-> In name seen \/ In name names)
  /\ (List.length result <= List.length seen + List.length names)%nat.
Proof.
  revert seen. induction names as [|n names IH]; intro seen; cbn.
  - repeat split; auto; try lia. now intros [H|[]].
  - specialize (IH (if existsb (String.eqb n) seen then seen else (seen ++ [n])%list)).
    cbn in IH. destruct IH as (IH1 & IH2 & IH3).
    assert (Hex : existsb (String.eqb n) seen = true <-> In n seen).
    { rewrite existsb_exists. split.
      - intros [x [Hx E]]. apply String.eqb_eq in E. now subst.
      - intro H. exists n. split; [exact H|apply String.eqb_refl]. }
    destruct (existsb (String.eqb n) seen) eqn:E.
    + repeat split.
      * exact IH1.
      * intro H. apply IH2 in H. tauto.
      * intro H. apply IH2. destruct H as [H|[<-|H]]; auto. left. now apply Hex.
      * lia.
    + assert (Hn : ~ In n seen) by (intro H; apply Hex in H; discriminate).
      repeat split.
      * intro Hnd. apply IH1. apply NoDup_app; [exact Hnd|repeat constructor; intros []|].
        intros x Hx [<-|[]]. contradiction.
      * intro H. apply IH2 in H. rewrite in_app_iff in H. cbn in H. tauto.
      * intro H. apply IH2. rewrite in_app_iff. cbn. tauto.
      * rewrite length_app in IH3. cbn in IH3. lia.
Qed.

Lemma unique_NoDup (names : list string) : NoDup (unique names).
Proof. apply (unique_from names []). constructor. Qed.

Lemma unique_In (names : list string) (name : string) : In name (unique names) <-> In name names.
Proof.
  unfold unique. rewrite (proj1 (proj2 (unique_from names [])) name). cbn. tauto.
Qed.

Lemma unique_length (names : list string) : (List.length (unique names) <= List.length names)%nat.
Proof. exact (proj2 (proj2 (unique_from names []))). Qed.

(** X12. [getStats]: [totalChunks] is the size of the store,
    [totalDocuments] the number of [sources], which are the distinct source
    names of the stored chunks, never more than the chunks; the average
    length of an empty store is 0. *)
Theorem getStats_counts (documents : VectorStore.Documents) :
  let stats := InMemoryVectorStore.getStats documents in
  InMemoryVectorStore.totalChunks stats = JSMap.size documents
  /\ InMemoryVectorStore.totalDocuments stats = List.length (InMemoryVectorStore.sources stats)
  /\ (InMemoryVectorStore.totalDocuments stats <= InMemoryVectorStore.totalChunks stats)%nat
  /\ NoDup (InMemoryVectorStore.sources stats)
  /\ (forall name,
        In name (InMemoryVectorStore.sources stats)
        <-> exists c, In c (VectorStore.getAllChunks documents) /\ source (metadata c) = name)
  /\ (documents = [] -> InMemoryVectorStore.avgChunkLength stats = 0%float).
Proof.
  cbn. repeat split.
  - unfold VectorStore.getAllChunks, JSMap.values, JSMap.size. now rewrite !length_map.
  - eapply Nat.le_trans; [apply unique_length|]. now rewrite length_map.
  - apply unique_NoDup.
  - intro H. apply (proj1 (unique_In _ _)) in H. apply in_map_iff in H. destruct H as [c [Hc Hin]]. now exists c.
  - intros [c [Hin Hc]]. apply (proj2 (unique_In _ _)). apply in_map_iff. now exists c.
  - now intros ->.
Qed.

(** * Filtered search *)
Section Advanced.

Variable createEmbedding : string -> result (list float).

(** X13. What [advancedSearch] returns are chunks of the store, no
    more than [k] (4 when not given) for [k >= 0], all from a listed source
    when a non-empty [sourceFilter] is given, and none longer than a
    non-zero [maxChunkLength]. *)
Theorem advancedSearch_filters_and_bounds
  (query : string) (options : InMemoryVectorStore.SearchOptions)
  (documents : VectorStore.Documents) (results : list DocumentChunk) :
  InMemoryVectorStore.advancedSearch createEmbedding query options documents = Ok results ->
  let k := match InMemoryVectorStore.k options with Some k => k | None => 4%Z end in
  incl results (VectorStore.getAllChunks documents)
  /\ ((0 <= k)%Z -> (Z.of_nat (List.length results) <= k)%Z)
  /\ (forall name names,
        InMemoryVectorStore.sourceFilter options = Some (name :: names) ->
        Forall (fun c => In (source (metadata c)) (name :: names)) results)
  /\ (forall limit,
        InMemoryVectorStore.maxChunkLength options = Some limit -> limit <> 0%Z ->
        Forall (fun c => (Z.of_nat (String.length (content c)) <= limit)%Z) results).
Proof.
  unfold InMemoryVectorStore.advancedSearch.
  destruct (VectorStore.similaritySearch createEmbedding query _ documents) as [found|message] eqn:Hs;
    [|discriminate].
  set (k := match InMemoryVectorStore.k options with Some k => k | None => 4%Z end) in *.
  set (bySource := match InMemoryVectorStore.sourceFilter options with
                   | Some (name :: names) =>
                       filter (fun chunk => existsb (String.eqb (source (metadata chunk))) (name :: names))
                         found
                   | _ => found
                   end).
  set (byLength := match InMemoryVectorStore.maxChunkLength options with
                   | Some limit =>
                       if (limit =? 0)%Z then bySource
                       else filter (fun chunk => (Z.of_nat (String.length (content chunk)) <=? limit)%Z)
                              bySource
                   | None => bySource
                   end).
  intro H. assert (H' : slice 0 (Some k) byLength = results) by congruence. clear H.
  pose proof (similaritySearch_incl _ _ _ _ Hs) as Hincl.
  assert (Hb1 : incl bySource found).
  { subst bySource. destruct (InMemoryVectorStore.sourceFilter options) as [[|name names]|];
      try apply incl_refl. apply incl_filter. }
  assert (Hb2 : incl byLength bySource).
  { subst byLength. destruct (InMemoryVectorStore.maxChunkLength options) as [limit|];
      [destruct (limit =? 0)%Z|]; try apply incl_refl. apply incl_filter. }
  subst results. repeat split.
  - intros c Hc. apply slice_In in Hc. now apply Hincl, Hb1, Hb2.
  - intro Hk. rewrite slice_prefix by exact Hk.
    pose proof (firstn_le_length (Z.to_nat k) byLength) as Hn. lia.
  - intros name names Hf. rewrite Forall_forall. intros c Hc.
    apply slice_In, Hb2 in Hc. subst bySource. rewrite Hf in Hc.
    apply filter_In in Hc. destruct Hc as [_ Hc]. apply existsb_exists in Hc.
    destruct Hc as [n [Hn E]]. apply String.eqb_eq in E. now rewrite E.
  - intros limit Hl Hne. rewrite Forall_forall. intros c Hc.
    apply slice_In in Hc. subst byLength. rewrite Hl in Hc.
    replace (limit =? 0)%Z with false in Hc by (symmetry; now apply Z.eqb_neq).
    apply filter_In in Hc. destruct Hc as [_ Hc]. now apply Z.leb_le in Hc.
Qed.

(** X14. Without a source filter and a length limit,
    [advancedSearch] with [k >= 0] returns what [similaritySearch] returns
    for [k], whatever [minSimilarity] is: the option is read and not used.
    Stated for scores that compare consistently. *)
Theorem advancedSearch_without_filters
  (query : string) (k : Z) (minSimilarity : option float)
  (documents : VectorStore.Documents) (queryEmbedding : list float) :
  (0 <= k)%Z ->
  createEmbedding query = Ok queryEmbedding ->
  comparableScores queryEmbedding documents = true ->
  InMemoryVectorStore.advancedSearch createEmbedding query
    {| InMemoryVectorStore.k := Some k;
       InMemoryVectorStore.minSimilarity := minSimilarity;
       InMemoryVectorStore.sourceFilter := None;
       InMemoryVectorStore.maxChunkLength := None |} documents
  = VectorStore.similaritySearch createEmbedding query k documents.
Proof.
  intros Hk Hq Hc. unfold InMemoryVectorStore.advancedSearch.
  cbn [InMemoryVectorStore.k InMemoryVectorStore.sourceFilter InMemoryVectorStore.maxChunkLength].
  unfold VectorStore.similaritySearch.
  destruct (JSMap.size documents =? 0)%nat.
  - f_equal. rewrite slice_prefix by exact Hk. apply firstn_nil.
  - rewrite Hq. rewrite !rankedMatches_spec by (try exact Hc; lia).
    f_equal. rewrite slice_prefix by exact Hk.
    rewrite <- firstn_map, firstn_firstn.
    replace (Nat.min (Z.to_nat k) (Z.to_nat (k * 2))) with (Z.to_nat k) by lia.
    apply firstn_map.
Qed.

End Advanced.

(** * Processing documents *)

Lemma indexed_map_fst {A : Type} (l : list A) : map fst (indexed l) = seq 0 (List.length l).
Proof.
  unfold indexed. generalize 0%nat. induction l as [|x l IH]; intro n; cbn; [reflexivity|].
  now rewrite IH.
Qed.

Lemma indexed_map_snd {A : Type} (l : list A) : map snd (indexed l) = l.
Proof.
  unfold indexed. generalize 0%nat. induction l as [|x l IH]; intro n; cbn; [reflexivity|].
  now rewrite IH.
Qed.

Lemma indexed_length {A : Type} (l : list A) : List.length (indexed l) = List.length l.
Proof. unfold indexed. rewrite length_combine, length_seq. lia. Qed.

(** What [validateFile] lets through, and the three types supported *)
Lemma validateFile_accepts_exactly (file : File.t) :
  (DocumentProcessor.validateFile file = Ok tt
   <-> DocumentProcessor.supported (File.type file) = true
       /\ (File.size file <= 10485760)%Z /\ File.size file <> 0%Z)
  /\ (DocumentProcessor.supported (File.type file) = true
      <-> File.type file = "application/pdf" \/ File.type file = "text/plain"
          \/ File.type file
             = "application/vnd.openxmlformats-officedocument.wordprocessingml.document").
Proof.
  split.
  - unfold DocumentProcessor.validateFile, DocumentProcessor.maxSize.
    destruct (DocumentProcessor.supported (File.type file)); cbn.
    + destruct (Z.ltb_spec 10485760 (File.size file)); [split; [discriminate|lia]|].
      destruct (Z.eqb_spec (File.size file) 0); [split; [discriminate|lia]|].
      split; [intros _; repeat split; assumption|reflexivity].
    + split; [discriminate|]. now intros [H _].
  - unfold DocumentProcessor.supported. cbn. rewrite !orb_true_iff, !String.eqb_eq.
    intuition congruence.
Qed.

Section Processing.

Variable splitText : string -> result (list string).
Variable extractFromPDF extractFromText extractFromDocx : File.t -> result string.

Lemma createChunks_ids (document : Document.t) (chunks : list DocumentChunk) :
  DocumentProcessor.createChunks splitText document = Ok chunks ->
  map id chunks
  = map (DocumentProcessor.chunkId (Document.id document)) (seq 0 (List.length chunks)).
Proof.
  unfold DocumentProcessor.createChunks.
  destruct (String.eqb (Document.content document) ""); [discriminate|].
  destruct (splitText (Document.content document)) as [texts|message]; [|discriminate].
  intro H. assert (E : chunks = map (fun it : nat * string =>
                   let (index, text) := it in
                   {| id := DocumentProcessor.chunkId (Document.id document) index;
                      content := trim text;
                      metadata :=
                        {| source := Document.name document;
                           page := None;
                           startIndex := DocumentProcessor.indexOf (Document.content document) text;
                           endIndex := DocumentProcessor.indexOf (Document.content document) text
                                       + Z.of_nat (String.length text) |} |})
                (indexed texts)) by congruence.
  clear H. subst chunks. rewrite length_map, indexed_length, map_map.
  rewrite <- indexed_map_fst, map_map. apply map_ext. now intros [index text].
Qed.

Lemma createChunks_prefixed (document : Document.t) (chunks : list DocumentChunk) :
  DocumentProcessor.createChunks splitText document = Ok chunks ->
  Forall (fun c => String.prefix (Document.id document) (id c) = true) chunks.
Proof.
  intro H. apply createChunks_ids in H. rewrite Forall_forall. intros c Hc.
  apply (in_map id) in Hc. rewrite H in Hc. apply in_map_iff in Hc.
  destruct Hc as [i [<- _]]. apply chunkId_prefix, prefix_refl.
Qed.

(** X15. The chunks [createChunks] returns: the document is not empty,
    the contents are the trimmed texts of the splitter in order, the ids are
    [id_chunk_0], [id_chunk_1], ... and distinct, each starts with the id of
    the document, names the document as its source, is trimmed, and is no
    longer than the range its metadata gives. *)
Theorem createChunks_shape (document : Document.t) (chunks : list DocumentChunk) :
  DocumentProcessor.createChunks splitText document = Ok chunks ->
  Document.content document <> ""
  /\ (exists texts,
        splitText (Document.content document) = Ok texts
        /\ map content chunks = map trim texts)
  /\ map id chunks
     = map (DocumentProcessor.chunkId (Document.id document)) (seq 0 (List.length chunks))
  /\ NoDup (map id chunks)
  /\ Forall (fun c =>
               String.prefix (Document.id document) (id c) = true
               /\ source (metadata c) = Document.name document
               /\ trim (content c) = content c
               /\ (Z.of_nat (String.length (content c))
                   <= endIndex (metadata c) - startIndex (metadata c))%Z) chunks.
Proof.
  intro H. pose proof (createChunks_ids document H) as Hids.
  pose proof (createChunks_prefixed document H) as Hpre.
  unfold DocumentProcessor.createChunks in H.
  destruct (String.eqb (Document.content document) "") eqn:Hc; [discriminate|].
  destruct (splitText (Document.content document)) as [texts|message]; [|discriminate].
  assert (E : chunks = map (fun it : nat * string =>
                   let (index, text) := it in
                   {| id := DocumentProcessor.chunkId (Document.id document) index;
                      content := trim text;
                      metadata :=
                        {| source := Document.name document;
                           page := None;
                           startIndex := DocumentProcessor.indexOf (Document.content document) text;
                           endIndex := DocumentProcessor.indexOf (Document.content document) text
                                       + Z.of_nat (String.length text) |} |})
                (indexed texts)) by congruence.
  clear H. split; [now apply String.eqb_neq|]. split; [|split; [exact Hids|split]].
  - exists texts. split; [reflexivity|]. subst chunks. rewrite map_map.
    rewrite <- (indexed_map_snd texts) at 2. rewrite map_map.
    apply map_ext. now intros [index text].
  - rewrite Hids. apply NoDup_map_NoDup_ForallPairs; [|apply seq_NoDup].
    intros i j _ _. apply chunkId_injective.
  - rewrite Forall_forall in *. intros c Hin. split; [now apply Hpre|].
    subst chunks. apply in_map_iff in Hin. destruct Hin as [[index text] [<- _]]. cbn.
    split; [reflexivity|]. split; [apply trim_idempotent|].
    pose proof (trim_length text). lia.
Qed.

(** What a successful [processDocument] went through *)
Lemma processDocument_inversion
  (documentId : string) (now : Z) (file : File.t) (document : Document.t) :
  DocumentProcessor.processDocument splitText extractFromPDF extractFromText extractFromDocx
    documentId now file = Ok document ->
  exists text chunks,
    DocumentProcessor.validateFile file = Ok tt
    /\ DocumentProcessor.extractText extractFromPDF extractFromText extractFromDocx file = Ok text
    /\ String.eqb (trim text) "" = false
    /\ DocumentProcessor.createChunks splitText
         {| Document.id := documentId;
            Document.name := File.name file;
            Document.content := text;
            Document.fileType := DocumentProcessor.getFileType (File.type file);
            Document.size := File.size file;
            Document.uploadedAt := now;
            Document.processedAt := None;
            Document.chunks := None;
            Document.status := "processing" |} = Ok chunks
    /\ document = {| Document.id := documentId;
                     Document.name := File.name file;
                     Document.content := text;
                     Document.fileType := DocumentProcessor.getFileType (File.type file);
                     Document.size := File.size file;
                     Document.uploadedAt := now;
                     Document.processedAt := Some now;
                     Document.chunks := Some chunks;
                     Document.status := "ready" |}.
Proof.
  unfold DocumentProcessor.processDocument.
  destruct (DocumentProcessor.validateFile file) as [[]|message] eqn:Hv; [|discriminate].
  destruct (DocumentProcessor.extractText _ _ _ file) as [text|message] eqn:He; [|discriminate].
  destruct (String.eqb (trim text) "") eqn:Ht; [discriminate|].
  destruct (DocumentProcessor.createChunks splitText _) as [chunks|message] eqn:Hc; [|discriminate].
  intro H. exists text, chunks.
  split; [reflexivity|]. split; [reflexivity|]. split; [exact Ht|].
  split; [exact Hc|congruence].
Qed.

(** X16. A document [processDocument] returns has passed
    [validateFile], has the id and the name given, status [ready], a content
    that is not blank, and carries the chunks [createChunks] makes of it. *)
Theorem processDocument_ready
  (documentId : string) (now : Z) (file : File.t) (document : Document.t) :
  DocumentProcessor.processDocument splitText extractFromPDF extractFromText extractFromDocx
    documentId now file = Ok document ->
  DocumentProcessor.validateFile file = Ok tt
  /\ Document.id document = documentId
  /\ Document.name document = File.name file
  /\ Document.status document = "ready"
  /\ trim (Document.content document) <> ""
  /\ exists chunks,
       Document.chunks document = Some chunks
       /\ DocumentProcessor.createChunks splitText document = Ok chunks.
Proof.
  intro H. apply processDocument_inversion in H.
  destruct H as (text & chunks & Hv & _ & Ht & Hc & ->).
  cbn [Document.id Document.name Document.status Document.content Document.chunks].
  repeat split; try reflexivity; [exact Hv|now apply String.eqb_neq|].
  exists chunks. split; [reflexivity|exact Hc].
Qed.

End Processing.

(** * Blank keys *)

Lemma trimStart_blank (s : string) : allWhiteSpace s = true -> trimStart s = "".
Proof.
  induction s as [|c s IH]; cbn; [reflexivity|]. intro H. apply andb_prop in H.
  destruct H as [Hc Hs]. rewrite Hc. now apply IH.
Qed.

Lemma trimStart_not_blank (s : string) :
  allWhiteSpace s = false -> exists c t, trimStart s = String c t /\ isWhiteSpace c = false.
Proof.
  induction s as [|c s IH]; cbn; [discriminate|].
  destruct (isWhiteSpace c) eqn:Hc; cbn; [exact IH|]. intros _. now exists c, s.
Qed.

Lemma trim_empty_iff (s : string) : trim s = "" <-> allWhiteSpace s = true.
Proof.
  unfold trim. destruct (allWhiteSpace s) eqn:E.
  - rewrite (trimStart_blank _ E). now split.
  - destruct (trimStart_not_blank _ E) as (c & t & -> & Hc).
    destruct (@trimEnd_head c t Hc) as [t' ->]. split; discriminate.
Qed.

(** X17. The API key counts as missing exactly when it is absent or
    consists of white space only (the empty key included): of the characters
    below [U+0100], which the strings here are made of, tab, line feed,
    vertical tab, form feed, carriage return, space and the no-break
    space. *)
Theorem missingKey_iff_blank (key : option string) :
  Config.missingKey key = true
  <-> key = None \/ exists k, key = Some k /\ allWhiteSpace k = true.
Proof.
  destruct key as [k|]; cbn.
  - rewrite String.eqb_eq, trim_empty_iff. split.
    + intro H. right. now exists k.
    + intros [H|[k' [[= <-] H]]]; [discriminate|exact H].
  - split; [now left|reflexivity].
Qed.

(** * Validation *)

Lemma presentAndBelow_true (field : option Z) (bound : Z) :
  Config.presentAndBelow field bound = true <-> exists n, field = Some n /\ n <> 0%Z /\ (n < bound)%Z.
Proof.
  destruct field as [n|]; cbn.
  - rewrite andb_true_iff, negb_true_iff, Z.eqb_neq, Z.ltb_lt. split.
    + intros [H1 H2]. now exists n.
    + intros [n' [[= <-] H]]. exact H.
  - split; [discriminate|]. intros [n [H _]]. discriminate.
Qed.

Lemma temperatureOutOfRange_true (field : option float) :
  Config.temperatureOutOfRange field = true
  <-> exists t, field = Some t /\ (PrimFloat.ltb t 0%float = true \/ PrimFloat.ltb 1%float t = true).
Proof.
  destruct field as [t|]; cbn.
  - split.
    + intro H. apply andb_prop in H. destruct H as [_ H]. apply orb_prop in H. now exists t.
    + intros [t' [[= <-] H]]. rewrite (outside_unit_interval_truthy H). cbn.
      destruct H as [-> | ->]; [reflexivity|apply orb_true_r].
  - split; [discriminate|]. intros [t [H _]]. discriminate.
Qed.

(** X18. [validateConfig] reports nothing that did not fail: each of
    its five messages appears only when its check fails on a value that is
    present and not zero (the key: absent or blank), it reports no other
    message, and at most five. *)
Theorem validateConfig_reports_only_failures (config : Config.PartialRAGConfig) :
  (In "Groq API key is required" (Config.validateConfig config) ->
   Config.missingKey (Config.groqApiKey config) = true)
  /\ (In "Temperature must be between 0 and 1" (Config.validateConfig config) ->
      exists t, Config.temperature config = Some t
                /\ (PrimFloat.ltb t 0%float = true \/ PrimFloat.ltb 1%float t = true))
  /\ (In "Max tokens must be greater than 0" (Config.validateConfig config) ->
      exists n, Config.maxTokens config = Some n /\ n <> 0%Z /\ (n < 1)%Z)
  /\ (In "Top K must be greater than 0" (Config.validateConfig config) ->
      exists n, Config.topK config = Some n /\ n <> 0%Z /\ (n < 1)%Z)
  /\ (In "Chunk size must be at least 100 characters" (Config.validateConfig config) ->
      exists n, Config.chunkSize config = Some n /\ n <> 0%Z /\ (n < 100)%Z)
  /\ (forall message, In message (Config.validateConfig config) ->
        In message ["Groq API key is required"; "Temperature must be between 0 and 1";
                    "Max tokens must be greater than 0"; "Top K must be greater than 0";
                    "Chunk size must be at least 100 characters"])
  /\ (List.length (Config.validateConfig config) <= 5)%nat.
Proof.
  unfold Config.validateConfig. repeat split.
  - rewrite !pushIf_In. cbn. intuition discriminate.
  - rewrite !pushIf_In. intro H. apply temperatureOutOfRange_true. cbn in H. intuition discriminate.
  - rewrite !pushIf_In. intro H. apply presentAndBelow_true. cbn in H. intuition discriminate.
  - rewrite !pushIf_In. intro H. apply presentAndBelow_true. cbn in H. intuition discriminate.
  - rewrite !pushIf_In. intro H. apply presentAndBelow_true. cbn in H. intuition discriminate.
  - intro message. rewrite !pushIf_In. cbn. intuition auto.
  - unfold Config.pushIf.
    destruct (Config.missingKey _), (Config.temperatureOutOfRange _),
      (Config.presentAndBelow (Config.maxTokens config) 1),
      (Config.presentAndBelow (Config.topK config) 1),
      (Config.presentAndBelow (Config.chunkSize config) 100); cbn; lia.
Qed.

Lemma pushIf_nil (condition : bool) (message : string) (errors : list string) :
  Config.pushIf condition message errors = [] -> condition = false /\ errors = [].
Proof.
  unfold Config.pushIf. destruct condition; [|now split].
  destruct errors; discriminate.
Qed.

Lemma validateConfig_nil (config : Config.PartialRAGConfig) :
  Config.validateConfig config = [] ->
  Config.missingKey (Config.groqApiKey config) = false
  /\ Config.temperatureOutOfRange (Config.temperature config) = false
  /\ Config.presentAndBelow (Config.maxTokens config) 1 = false
  /\ Config.presentAndBelow (Config.topK config) 1 = false
  /\ Config.presentAndBelow (Config.chunkSize config) 100 = false.
Proof.
  unfold Config.validateConfig. intro H.
  apply pushIf_nil in H. destruct H as [H5 H]. apply pushIf_nil in H. destruct H as [H4 H].
  apply pushIf_nil in H. destruct H as [H3 H]. apply pushIf_nil in H. destruct H as [H2 H].
  apply pushIf_nil in H. destruct H as [H1 _]. tauto.
Qed.

Lemma presentAndBelow_false (field : option Z) (bound fallback : Z) :
  Config.presentAndBelow field bound = false ->
  (fallback = 0 \/ bound <= fallback)%Z ->
  let v := match field with Some n => n | None => fallback end in
  (v = 0 \/ bound <= v)%Z.
Proof.
  destruct field as [n|]; cbn; [|tauto]. intros H _.
  apply andb_false_iff in H. rewrite negb_false_iff, Z.eqb_eq, Z.ltb_ge in H. tauto.
Qed.

Lemma validateConfig_nil_accepted (config : Config.PartialRAGConfig) :
  Config.validateConfig config = [] -> accepted (Config.withDefaults config).
Proof.
  intro H. apply validateConfig_nil in H. destruct H as (Hk & Ht & Hm & Hp & Hc).
  unfold accepted, Config.withDefaults. cbn.
  destruct config as [key model temperature maxTokens topK chunkSize chunkOverlap]. cbn in *.
  repeat split.
  - destruct key as [k|]; [|discriminate]. cbn in *.
    destruct (allWhiteSpace k) eqn:E; [|reflexivity].
    apply trim_empty_iff in E. rewrite E in Hk. discriminate.
  - destruct temperature as [t|]; cbn; [|reflexivity].
    destruct (PrimFloat.ltb t 0) eqn:E; [|reflexivity].
    assert (Hout : Config.temperatureOutOfRange (Some t) = true)
      by (apply temperatureOutOfRange_true; exists t; auto).
    congruence.
  - destruct temperature as [t|]; cbn; [|reflexivity].
    destruct (PrimFloat.ltb 1 t) eqn:E; [|reflexivity].
    assert (Hout : Config.temperatureOutOfRange (Some t) = true)
      by (apply temperatureOutOfRange_true; exists t; auto).
    congruence.
  - pose proof (@presentAndBelow_false maxTokens 1%Z 1024%Z Hm) as H. cbn in H.
    destruct maxTokens; cbn in *; lia.
  - pose proof (@presentAndBelow_false topK 1%Z 4%Z Hp) as H. cbn in H.
    destruct topK; cbn in *; lia.
  - pose proof (@presentAndBelow_false chunkSize 100%Z 1000%Z Hc) as H. cbn in H.
    destruct chunkSize; cbn in *; lia.
Qed.

(** X19. A key that [validateGroqApiKey] accepts starts with [gsk_],
    has more than 20 characters, and does not count as missing for
    [validateConfig]. *)
Theorem validateGroqApiKey_implies_key_present (apiKey : string) :
  RAGPipeline.validateGroqApiKey apiKey = true ->
  Config.missingKey (Some apiKey) = false
  /\ (20 < String.length apiKey)%nat
  /\ exists rest, apiKey = "gsk_" ++ rest.
Proof.
  unfold RAGPipeline.validateGroqApiKey. intro H. apply andb_true_iff in H. destruct H as [Hp Hl].
  apply Nat.ltb_lt in Hl.
  assert (E : exists rest, apiKey = "gsk_" ++ rest).
  { destruct apiKey as [|a apiKey]; cbn [String.prefix] in Hp; [discriminate|].
    destruct (Ascii.ascii_dec "g" a) as [<-|]; [|discriminate].
    destruct apiKey as [|b apiKey]; cbn [String.prefix] in Hp; [discriminate|].
    destruct (Ascii.ascii_dec "s" b) as [<-|]; [|discriminate].
    destruct apiKey as [|c apiKey]; cbn [String.prefix] in Hp; [discriminate|].
    destruct (Ascii.ascii_dec "k" c) as [<-|]; [|discriminate].
    destruct apiKey as [|d rest]; cbn [String.prefix] in Hp; [discriminate|].
    destruct (Ascii.ascii_dec "_" d) as [<-|]; [|discriminate].
    now exists rest. }
  split; [|split; [exact Hl|exact E]].
  destruct (Config.missingKey (Some apiKey)) eqn:M; [|reflexivity].
  cbn [Config.missingKey] in M. apply String.eqb_eq in M. apply trim_empty_iff in M.
  destruct E as [rest ->]. cbn in M. discriminate M.
Qed.

(** * Prompts *)

Lemma slice_last {A : Type} (n : nat) (older recent : list A) :
  List.length recent = S n ->
  slice (- Z.of_nat (S n)) None (older ++ recent) = recent.
Proof.
  intro H. unfold slice, relativeIndex.
  replace (- Z.of_nat (S n) <? 0)%Z with true by (symmetry; apply Z.ltb_lt; lia).
  rewrite length_app, H.
  replace (Z.to_nat (Z.max (Z.of_nat (List.length older + S n) + - Z.of_nat (S n)) 0))
    with (List.length older + 0)%nat by lia.
  rewrite skipn_app, skipn_all2 by lia.
  replace (List.length older + 0 - List.length older)%nat with 0%nat by lia.
  cbn [skipn app]. apply firstn_all2. lia.
Qed.

Lemma slice_last_three {A : Type} (older recent : list A) :
  List.length recent = 3%nat -> slice (-3) None (older ++ recent) = recent.
Proof. intro H. exact (@slice_last A 2 older recent H). Qed.

(** X20. [createConversationPrompt] with no history is the template
    alone; of a longer history it reads the last three exchanges only; and
    the prompt always ends with the template filled in. *)
Theorem createConversationPrompt_reads_last_three (question context : string) :
  createConversationPrompt question context [] = Prompts.RAG_PROMPT_TEMPLATE context question
  /\ (forall older recent,
        List.length recent = 3%nat ->
        createConversationPrompt question context (older ++ recent)
        = createConversationPrompt question context recent)
  /\ (forall history,
        exists preamble,
          createConversationPrompt question context history
          = preamble ++ Prompts.RAG_PROMPT_TEMPLATE context question).
Proof.
  split; [reflexivity|]. split.
  - intros older recent H. unfold createConversationPrompt.
    rewrite (slice_last_three older recent H).
    rewrite (slice_last_three [] recent H : slice (-3) None recent = recent).
    rewrite length_app, H.
    replace (0 <? List.length older + 3)%nat with true by (symmetry; apply Nat.ltb_lt; lia).
    reflexivity.
  - intro history. unfold createConversationPrompt. eexists. reflexivity.
Qed.

Lemma includes_refl (s : string) : includes s s = true.
Proof. destruct s; cbn; [reflexivity|]. destruct (ascii_dec a a); [|congruence]. now rewrite prefix_refl. Qed.

Lemma includes_append_r (h t n : string) : includes t n = true -> includes (h ++ t) n = true.
Proof.
  intro H. induction h as [|c h IH]; [exact H|].
  cbn [append includes]. rewrite IH. apply orb_true_r.
Qed.

Lemma includes_append_l (h t n : string) : includes h n = true -> includes (h ++ t) n = true.
Proof.
  induction h as [|c h IH]; intro H.
  - cbn in H. rewrite orb_false_r in H. destruct n; [|discriminate H]. destruct t; reflexivity.
  - cbn [includes] in H. apply orb_prop in H. destruct H as [H|H].
    + cbn [append includes]. change (String c (h ++ t)) with (String c h ++ t).
      rewrite (prefix_append_r _ _ t H). reflexivity.
    + cbn [append includes]. rewrite (IH H). apply orb_true_r.
Qed.

Lemma join_includes (separator part : string) (parts : list string) :
  In part parts -> includes (Prompts.join separator parts) part = true.
Proof.
  induction parts as [|p parts IH]; [intros []|].
  intros [<-|H].
  - destruct parts; cbn [Prompts.join]; [apply includes_refl|].
    apply includes_append_l, includes_refl.
  - destruct parts as [|p' parts]; [destruct H|].
    cbn [Prompts.join]. apply includes_append_r, includes_append_r. now apply IH.
Qed.

Lemma includes_trans (a b c : string) :
  includes a b = true -> includes b c = true -> includes a c = true.
Proof.
  revert b c. induction a as [|x a IH]; intros b c Hab Hbc.
  - cbn in Hab. rewrite orb_false_r in Hab. destruct b; [exact Hbc|discriminate].
  - cbn [includes] in Hab. apply orb_prop in Hab. destruct Hab as [Hab|Hab].
    + apply prefix_correct in Hab.
      assert (E : exists t, String x a = b ++ t).
      { clear -Hab. revert Hab. generalize (String x a) as s. clear.
        induction b as [|y b IH]; intros s H.
        - now exists s.
        - destruct s as [|z s]; [discriminate H|]. cbn in H. injection H as -> H.
          destruct (IH s H) as [t ->]. now exists t. }
      destruct E as [t ->]. now apply includes_append_l.
    + cbn [includes]. rewrite (IH b c Hab Hbc). apply orb_true_r.
Qed.

Lemma In_indexed {A : Type} (l : list A) (x : A) :
  In x l -> exists i, In (i, x) (indexed l).
Proof.
  unfold indexed. generalize 0%nat. induction l as [|y l IH]; intros n [].
  - subst. exists n. now left.
  - destruct (IH (S n) H) as [i Hi]. exists i. now right.
Qed.

(** Finds the piece of a concatenation that [found] shows to include the text. *)
Ltac within found :=
  solve [ apply includes_append_l; found | apply includes_append_r; within found ].

(** X21. The prompt sent to the model contains the question and the
    content of every retrieved chunk, whatever the history is. *)
Theorem prompt_carries_question_and_chunks
  (question : string) (chunks : list DocumentChunk) (history : list Exchange.t) (c : DocumentChunk) :
  In c chunks ->
  includes (Prompts.formatContextChunks chunks) (content c) = true
  /\ includes (createConversationPrompt question (Prompts.formatContextChunks chunks) history)
       (content c) = true
  /\ includes (createConversationPrompt question (Prompts.formatContextChunks chunks) history)
       question = true.
Proof.
  intro H.
  assert (Hc : includes (Prompts.formatContextChunks chunks) (content c) = true).
  { destruct (In_indexed chunks c H) as [i Hi]. unfold Prompts.formatContextChunks.
    eapply includes_trans.
    - apply join_includes. apply in_map_iff. exists (i, c). split; [reflexivity|exact Hi].
    - cbn beta iota. within ltac:(apply includes_refl). }
  split; [exact Hc|]. unfold createConversationPrompt, Prompts.RAG_PROMPT_TEMPLATE. split.
  - apply includes_append_r. within ltac:(exact Hc).
  - apply includes_append_r. within ltac:(apply includes_refl).
Qed.

(** * The pipeline, further *)
Section PipelineMore.

Variable createEmbedding : string -> result (list float).
Context {L : Type} {llm : LLMProvider L}.

Implicit Types (p : Pipeline.t (L := L)) (g : Pipeline.Generator).

Lemma retrieveContext_from_store (question : string) p :
  incl (Pipeline.retrieveContext createEmbedding question p)
    (VectorStore.getAllChunks (Pipeline.vectorStore p))
  /\ ((0 <= Config.topK' (Pipeline.config p))%Z ->
      (Z.of_nat (List.length (Pipeline.retrieveContext createEmbedding question p))
       <= Config.topK' (Pipeline.config p))%Z).
Proof.
  unfold Pipeline.retrieveContext.
  destruct (VectorStore.similaritySearch createEmbedding question _ _) as [chunks|message] eqn:E.
  - split; [exact (@similaritySearch_incl _ _ _ _ _ E)|].
    exact (@similaritySearch_length_le _ _ _ _ _ E).
  - split; [intros c []|cbn; lia].
Qed.

(** X22. When [query] throws, the message starts with
    [Query failed: ] and the history, the store and the configuration are as
    before. *)
Theorem query_failure_leaves_state
  (queryId : string) (now : Z) (question message : string) p :
  snd (Pipeline.query createEmbedding queryId now question p) = Throw message ->
  (exists cause, message = "Query failed: " ++ cause)
  /\ Pipeline.conversationHistory (fst (Pipeline.query createEmbedding queryId now question p))
     = Pipeline.conversationHistory p
  /\ Pipeline.vectorStore (fst (Pipeline.query createEmbedding queryId now question p))
     = Pipeline.vectorStore p
  /\ Pipeline.config (fst (Pipeline.query createEmbedding queryId now question p))
     = Pipeline.config p.
Proof.
  unfold Pipeline.query.
  destruct (List.length (Pipeline.retrieveContext createEmbedding question p) =? 0)%nat;
    [discriminate|].
  destruct (generate _ _) as [backend [answer|cause]]; cbn; [discriminate|].
  intros [= <-]. split; [now exists cause|]. now repeat split.
Qed.

(** X23. An answer of [query] with a context carries the id, the
    question and the time of the call; its context is the contents of the
    retrieved chunks, which are chunks of the store and at most [topK]; its
    sources are the distinct source names of these chunks; the store and
    the configuration are as before. *)
Theorem query_answer_cites_retrieved_chunks
  (queryId : string) (now : Z) (question : string) p (r : RAGQuery.t) :
  snd (Pipeline.query createEmbedding queryId now question p) = Ok r ->
  RAGQuery.context r <> [] ->
  RAGQuery.id r = queryId /\ RAGQuery.question r = question /\ RAGQuery.timestamp r = now
  /\ RAGQuery.context r = map content (Pipeline.retrieveContext createEmbedding question p)
  /\ incl (Pipeline.retrieveContext createEmbedding question p)
       (VectorStore.getAllChunks (Pipeline.vectorStore p))
  /\ ((0 <= Config.topK' (Pipeline.config p))%Z ->
      (Z.of_nat (List.length (RAGQuery.context r)) <= Config.topK' (Pipeline.config p))%Z)
  /\ NoDup (RAGQuery.sources r)
  /\ (forall name,
        In name (RAGQuery.sources r)
        <-> exists c, In c (Pipeline.retrieveContext createEmbedding question p)
                      /\ source (metadata c) = name)
  /\ Pipeline.vectorStore (fst (Pipeline.query createEmbedding queryId now question p))
     = Pipeline.vectorStore p
  /\ Pipeline.config (fst (Pipeline.query createEmbedding queryId now question p))
     = Pipeline.config p.
Proof.
  pose proof (retrieveContext_from_store question p) as [Hincl Hlen].
  unfold Pipeline.query.
  destruct (Pipeline.retrieveContext createEmbedding question p) as [|c cs] eqn:Hr.
  - cbn. intros H Hctx. exfalso. apply Hctx. now injection H as <-.
  - cbn [List.length Nat.eqb].
    destruct (generate _ _) as [backend [answer|cause]]; cbn [fst snd]; [|discriminate].
    intros H _.
    assert (E : r = {| RAGQuery.id := queryId;
                       RAGQuery.question := question;
                       RAGQuery.context := map content (c :: cs);
                       RAGQuery.answer := answer;
                       RAGQuery.timestamp := now;
                       RAGQuery.sources := unique (map (fun c => source (metadata c)) (c :: cs)) |})
      by congruence.
    clear H. subst r. cbn [RAGQuery.id RAGQuery.question RAGQuery.timestamp RAGQuery.context
                           RAGQuery.sources Pipeline.vectorStore Pipeline.config].
    repeat split; try assumption.
    + intro Hk. rewrite length_map. now apply Hlen.
    + apply unique_NoDup.
    + intro Hn. apply (proj1 (unique_In _ _)) in Hn. apply in_map_iff in Hn.
      destruct Hn as [c' [Hc' Hin]]. now exists c'.
    + intros [c' [Hin Hc']]. apply (proj2 (unique_In _ _)). apply in_map_iff. now exists c'.
Qed.

Lemma append_empty_r (s : string) : s ++ "" = s.
Proof. induction s as [|c s IH]; cbn; [reflexivity|]. now rewrite IH. Qed.

Lemma append_assoc' (a b c : string) : (a ++ b) ++ c = a ++ (b ++ c).
Proof. induction a as [|x a IH]; cbn; [reflexivity|]. now rewrite IH. Qed.

Lemma fold_append_concat (texts : list string) (fullAnswer : string) :
  fold_left append texts fullAnswer = fullAnswer ++ String.concat "" texts.
Proof.
  revert fullAnswer. induction texts as [|text texts IH]; intro fullAnswer.
  - cbn. now rewrite append_empty_r.
  - cbn [fold_left]. rewrite IH, append_assoc'. f_equal.
    destruct texts; cbn; [now rewrite append_empty_r|reflexivity].
Qed.

Lemma consume_fragments
  (queryId : string) (now : Z) (question : string) (chunks : list DocumentChunk)
  (texts : list string) (fullAnswer : string) p :
  Pipeline.consume createEmbedding (S (List.length texts)) p
    (Pipeline.InLoop queryId now question chunks fullAnswer (RAGPipeline.fragments texts))
  = (fst (fst (Pipeline.resumeLoop queryId now question chunks (fold_left append texts fullAnswer)
                 EndOfStream p)),
     Pipeline.Finished,
     (map (fun text => Pipeline.Yielded {| type := TypeAnswer; eventContent := text |}) texts
      ++ [snd (Pipeline.resumeLoop queryId now question chunks (fold_left append texts fullAnswer)
                 EndOfStream p)])%list).
Proof.
  revert fullAnswer. induction texts as [|text texts IH]; intro fullAnswer.
  - reflexivity.
  - cbn [List.length RAGPipeline.fragments fold_left map app].
    change (Pipeline.consume createEmbedding (S (S (List.length texts))) p
              (Pipeline.InLoop queryId now question chunks fullAnswer
                 (Fragment text (RAGPipeline.fragments texts))))
      with (let '(p2, g2, items) :=
              Pipeline.consume createEmbedding (S (List.length texts)) p
                (Pipeline.InLoop queryId now question chunks (fullAnswer ++ text)
                   (RAGPipeline.fragments texts)) in
            (p2, g2, Pipeline.Yielded {| type := TypeAnswer; eventContent := text |} :: items)).
    now rewrite IH.
Qed.

Lemma consume_fragmentsThenError
  (queryId : string) (now : Z) (question : string) (chunks : list DocumentChunk)
  (texts : list string) (cause fullAnswer : string) p :
  Pipeline.consume createEmbedding (S (List.length texts)) p
    (Pipeline.InLoop queryId now question chunks fullAnswer
       (RAGPipeline.fragmentsThenError texts cause))
  = (p, Pipeline.Finished,
     (map (fun text => Pipeline.Yielded {| type := TypeAnswer; eventContent := text |}) texts
      ++ [Pipeline.Thrown ("Stream query failed: " ++ cause)])%list).
Proof.
  revert fullAnswer. induction texts as [|text texts IH]; intro fullAnswer.
  - reflexivity.
  - cbn [List.length RAGPipeline.fragmentsThenError map app].
    change (Pipeline.consume createEmbedding (S (S (List.length texts))) p
              (Pipeline.InLoop queryId now question chunks fullAnswer
                 (Fragment text (RAGPipeline.fragmentsThenError texts cause))))
      with (let '(p2, g2, items) :=
              Pipeline.consume createEmbedding (S (List.length texts)) p
                (Pipeline.InLoop queryId now question chunks (fullAnswer ++ text)
                   (RAGPipeline.fragmentsThenError texts cause)) in
            (p2, g2, Pipeline.Yielded {| type := TypeAnswer; eventContent := text |} :: items)).
    now rewrite IH.
Qed.

(** X25. [streamQuery] run to its end over retrieved chunks, with a
    backend that streams the fragments [texts]: it yields the two context
    events, then each fragment as an answer event in order, returns the
    query whose answer is the fragments concatenated, and has remembered
    the exchange with that answer. *)
Theorem streamQuery_assembles_answer
  (queryId : string) (now : Z) (question : string) p
  (c : DocumentChunk) (cs : list DocumentChunk) (backend : L) (texts : list string) :
  Pipeline.retrieveContext createEmbedding question p = c :: cs ->
  stream (Pipeline.llmProvider p)
    (createConversationPrompt question (Prompts.formatContextChunks (c :: cs))
       (Pipeline.conversationHistory p))
  = (backend, RAGPipeline.fragments texts) ->
  Pipeline.consume createEmbedding (3 + List.length texts) p
    (Pipeline.streamQuery queryId now question)
  = ({| Pipeline.llmProvider := backend;
        Pipeline.vectorStore := Pipeline.vectorStore p;
        Pipeline.config := Pipeline.config p;
        Pipeline.conversationHistory :=
          Pipeline.remember
            {| Exchange.question := question; Exchange.answer := String.concat "" texts |}
            (Pipeline.conversationHistory p) |},
     Pipeline.Finished,
     ([Pipeline.Yielded {| type := TypeContext; eventContent := "Searching knowledge base..." |};
       Pipeline.Yielded {| type := TypeContext;
                           eventContent := "Found " ++ showNat (List.length (c :: cs))
                                           ++ " relevant document(s). Generating response..." |}]
      ++ map (fun text => Pipeline.Yielded {| type := TypeAnswer; eventContent := text |}) texts
      ++ [Pipeline.Returned
            {| RAGQuery.id := queryId;
               RAGQuery.question := question;
               RAGQuery.context := map content (c :: cs);
               RAGQuery.answer := String.concat "" texts;
               RAGQuery.timestamp := now;
               RAGQuery.sources := unique (map (fun c => source (metadata c)) (c :: cs)) |}])%list).
Proof.
  intros Hr Hs. unfold Pipeline.streamQuery.
  change (3 + List.length texts)%nat with (S (S (S (List.length texts)))).
  cbn [Pipeline.consume Pipeline.next]. rewrite Hr. cbn [List.length Nat.eqb].
  destruct texts as [|text texts].
  - cbn [List.length Pipeline.consume Pipeline.next]. rewrite Hs. reflexivity.
  - cbn [List.length].
    change (Pipeline.consume createEmbedding (S (S (List.length texts))) p
              (Pipeline.AfterFound queryId now question (c :: cs)))
      with (let '(p1, g1, item) :=
              Pipeline.next createEmbedding p (Pipeline.AfterFound queryId now question (c :: cs)) in
            let '(p2, g2, items) := Pipeline.consume createEmbedding (S (List.length texts)) p1 g1 in
            (p2, g2, item :: items)).
    cbn [Pipeline.next]. rewrite Hs.
    cbn [RAGPipeline.fragments Pipeline.resumeLoop].
    rewrite consume_fragments. cbn [Pipeline.resumeLoop fst snd].
    rewrite fold_append_concat. cbn [append].
    replace (String.concat "" (text :: texts)) with (text ++ String.concat "" texts)
      by (destruct texts; cbn; [now rewrite append_empty_r|reflexivity]).
    reflexivity.
Qed.

(** X26. [streamQuery] with a backend that fails after some
    fragments: the fragments streamed so far are yielded, then the generator
    throws [Stream query failed: ] followed by the cause, and the history is
    as before, without the partial answer. *)
Theorem streamQuery_backend_failure
  (queryId : string) (now : Z) (question : string) p
  (c : DocumentChunk) (cs : list DocumentChunk) (backend : L) (texts : list string)
  (cause : string) :
  Pipeline.retrieveContext createEmbedding question p = c :: cs ->
  stream (Pipeline.llmProvider p)
    (createConversationPrompt question (Prompts.formatContextChunks (c :: cs))
       (Pipeline.conversationHistory p))
  = (backend, RAGPipeline.fragmentsThenError texts cause) ->
  Pipeline.consume createEmbedding (3 + List.length texts) p
    (Pipeline.streamQuery queryId now question)
  = ({| Pipeline.llmProvider := backend;
        Pipeline.vectorStore := Pipeline.vectorStore p;
        Pipeline.config := Pipeline.config p;
        Pipeline.conversationHistory := Pipeline.conversationHistory p |},
     Pipeline.Finished,
     ([Pipeline.Yielded {| type := TypeContext; eventContent := "Searching knowledge base..." |};
       Pipeline.Yielded {| type := TypeContext;
                           eventContent := "Found " ++ showNat (List.length (c :: cs))
                                           ++ " relevant document(s). Generating response..." |}]
      ++ map (fun text => Pipeline.Yielded {| type := TypeAnswer; eventContent := text |}) texts
      ++ [Pipeline.Thrown ("Stream query failed: " ++ cause)])%list).
Proof.
  intros Hr Hs. unfold Pipeline.streamQuery.
  change (3 + List.length texts)%nat with (S (S (S (List.length texts)))).
  cbn [Pipeline.consume Pipeline.next]. rewrite Hr. cbn [List.length Nat.eqb].
  destruct texts as [|text texts].
  - cbn [List.length Pipeline.consume Pipeline.next]. rewrite Hs. reflexivity.
  - cbn [List.length].
    change (Pipeline.consume createEmbedding (S (S (List.length texts))) p
              (Pipeline.AfterFound queryId now question (c :: cs)))
      with (let '(p1, g1, item) :=
              Pipeline.next createEmbedding p (Pipeline.AfterFound queryId now question (c :: cs)) in
            let '(p2, g2, items) := Pipeline.consume createEmbedding (S (List.length texts)) p1 g1 in
            (p2, g2, item :: items)).
    cbn [Pipeline.next]. rewrite Hs.
    cbn [RAGPipeline.fragmentsThenError Pipeline.resumeLoop].
    rewrite consume_fragmentsThenError. reflexivity.
Qed.

End PipelineMore.

Section Configuring.

Context {L : Type} {llm : LLMProvider L}.
Variable newLLMProvider : Config.RAGConfig -> result L.
Variable Splitter : Type.
Variable newSplitter : Z -> Z -> result Splitter.
Variable reconfigure : L -> Config.RAGConfig -> L * result unit.

Implicit Types (p : Pipeline.t (L := L)).

Lemma merged_fields (current : Config.RAGConfig) (newConfig : Config.PartialRAGConfig) :
  let config := Config.withDefaults (RAGPipeline.merged current newConfig) in
  Config.groqApiKey' config
  = match Config.groqApiKey newConfig with Some v => v | None => Config.groqApiKey' current end
  /\ Config.model' config
     = match Config.model newConfig with Some v => v | None => Config.model' current end
  /\ Config.temperature' config
     = match Config.temperature newConfig with Some v => v | None => Config.temperature' current end
  /\ Config.maxTokens' config
     = match Config.maxTokens newConfig with Some v => v | None => Config.maxTokens' current end
  /\ Config.topK' config
     = match Config.topK newConfig with Some v => v | None => Config.topK' current end
  /\ Config.chunkSize' config
     = match Config.chunkSize newConfig with Some v => v | None => Config.chunkSize' current end
  /\ Config.chunkOverlap' config
     = match Config.chunkOverlap newConfig with Some v => v | None => Config.chunkOverlap' current end.
Proof.
  destruct newConfig as [key model temperature maxTokens topK chunkSize chunkOverlap].
  cbn. destruct key, model, temperature, maxTokens, topK, chunkSize, chunkOverlap; repeat split.
Qed.

(** X24. The constructor returns only when the validation reports
    nothing and both components could be built; the pipeline then has the
    backend and the splitter built for the given options over the defaults,
    an empty store and an empty history, and its configuration is within the
    bounds validation checks.  When the validation reports errors it throws
    [Configuration errors: ] with the errors joined by commas, whatever the
    component constructors would do (a missing key is such a case).
    Otherwise it throws what the first failing component constructor threw,
    unchanged: a configuration that passes the validation can still be
    refused. *)
Theorem create_outcomes (partial : Config.PartialRAGConfig) :
  let config := Config.withDefaults partial in
  (forall p splitter,
      RAGPipeline.create newLLMProvider newSplitter partial = Ok (p, splitter) ->
      Config.validateConfig partial = []
      /\ newLLMProvider config = Ok (Pipeline.llmProvider p)
      /\ newSplitter (Config.chunkSize' config) (Config.chunkOverlap' config) = Ok splitter
      /\ Pipeline.vectorStore p = []
      /\ Pipeline.conversationHistory p = []
      /\ Pipeline.config p = config
      /\ accepted (Pipeline.config p))
  /\ (Config.validateConfig partial <> [] ->
      RAGPipeline.create newLLMProvider newSplitter partial
      = Throw ("Configuration errors: " ++ Prompts.join ", " (Config.validateConfig partial)))
  /\ (Config.missingKey (Config.groqApiKey partial) = true ->
      Config.validateConfig partial <> [])
  /\ (Config.validateConfig partial = [] ->
      forall message,
        RAGPipeline.create newLLMProvider newSplitter partial = Throw message
        <-> newLLMProvider config = Throw message
            \/ ((exists backend, newLLMProvider config = Ok backend)
                /\ newSplitter (Config.chunkSize' config) (Config.chunkOverlap' config)
                   = Throw message)).
Proof.
  intro config. subst config. unfold RAGPipeline.create. split; [|split; [|split]].
  - intros p splitter.
    destruct (Config.validateConfig partial) as [|e errors] eqn:E; cbn [List.length Nat.ltb Nat.leb];
      [|discriminate].
    destruct (newLLMProvider (Config.withDefaults partial)) as [backend|message]; [|discriminate].
    destruct (newSplitter _ _) as [splitter'|message]; [|discriminate].
    intro H. apply eq_sym in H. injection H as Hp Hs. subst p splitter.
    cbn [Pipeline.llmProvider Pipeline.vectorStore Pipeline.conversationHistory Pipeline.config].
    do 6 (split; [reflexivity|]). now apply validateConfig_nil_accepted.
  - destruct (Config.validateConfig partial) as [|e errors]; [intro H; now contradiction H|].
    reflexivity.
  - intros H E. apply validateConfig_nil in E. destruct E as [E _]. congruence.
  - intros E message. rewrite E. cbn [List.length Nat.ltb Nat.leb].
    destruct (newLLMProvider (Config.withDefaults partial)) as [backend|cause].
    + destruct (newSplitter _ _) as [splitter|cause]; split.
      * discriminate.
      * intros [H|[_ H]]; discriminate H.
      * intro H. right. split; [now exists backend|]. congruence.
      * intros [H|[_ H]]; [discriminate H|congruence].
    + split.
      * intro H. left. congruence.
      * intros [H|[[backend H] _]]; [congruence|discriminate H].
Qed.

(** X27. [updateConfig] is all or nothing only as far as the
    validation goes: when the merged configuration fails it, the call throws
    [Configuration errors: ] and nothing has changed.  When it passes, the
    configuration is replaced at once -- each option is the new value where
    one is given and the old one otherwise, within the bounds validation
    checks -- and the store and the history are as before, whatever happens
    next.  The call then returns exactly when the backend accepts the new
    configuration and a splitter can be built for it, which becomes the
    splitter in use; when either throws, the error reaches the caller
    unchanged and the old splitter stays in use under the new
    configuration. *)
Theorem updateConfig_outcomes (newConfig : Config.PartialRAGConfig) p (splitter : Splitter) :
  let merged := RAGPipeline.merged (Pipeline.config p) newConfig in
  let config := Config.withDefaults merged in
  let after := fst (RAGPipeline.updateConfig newSplitter reconfigure newConfig (p, splitter)) in
  let outcome := snd (RAGPipeline.updateConfig newSplitter reconfigure newConfig (p, splitter)) in
  (Config.groqApiKey' config
   = match Config.groqApiKey newConfig with
     | Some v => v | None => Config.groqApiKey' (Pipeline.config p) end
   /\ Config.model' config
      = match Config.model newConfig with
        | Some v => v | None => Config.model' (Pipeline.config p) end
   /\ Config.temperature' config
      = match Config.temperature newConfig with
        | Some v => v | None => Config.temperature' (Pipeline.config p) end
   /\ Config.maxTokens' config
      = match Config.maxTokens newConfig with
        | Some v => v | None => Config.maxTokens' (Pipeline.config p) end
   /\ Config.topK' config
      = match Config.topK newConfig with
        | Some v => v | None => Config.topK' (Pipeline.config p) end
   /\ Config.chunkSize' config
      = match Config.chunkSize newConfig with
        | Some v => v | None => Config.chunkSize' (Pipeline.config p) end
   /\ Config.chunkOverlap' config
      = match Config.chunkOverlap newConfig with
        | Some v => v | None => Config.chunkOverlap' (Pipeline.config p) end)
  /\ (Config.validateConfig merged <> [] ->
   after = (p, splitter)
   /\ outcome = Throw ("Configuration errors: " ++ Prompts.join ", " (Config.validateConfig merged)))
  /\ (Config.validateConfig merged = [] ->
      Pipeline.config (fst after) = config
      /\ accepted config
      /\ Pipeline.vectorStore (fst after) = Pipeline.vectorStore p
      /\ Pipeline.conversationHistory (fst after) = Pipeline.conversationHistory p
      /\ Pipeline.llmProvider (fst after) = fst (reconfigure (Pipeline.llmProvider p) config)
      /\ (outcome = Ok tt
          <-> (exists done, snd (reconfigure (Pipeline.llmProvider p) config) = Ok done)
              /\ newSplitter (Config.chunkSize' config) (Config.chunkOverlap' config)
                 = Ok (snd after))
      /\ (forall message,
            outcome = Throw message ->
            snd after = splitter
            /\ (snd (reconfigure (Pipeline.llmProvider p) config) = Throw message
                \/ ((exists done, snd (reconfigure (Pipeline.llmProvider p) config) = Ok done)
                    /\ newSplitter (Config.chunkSize' config) (Config.chunkOverlap' config)
                       = Throw message)))).
Proof.
  intros merged config after outcome. subst after outcome config merged.
  split; [apply merged_fields|].
  unfold RAGPipeline.updateConfig.
  destruct (Config.validateConfig (RAGPipeline.merged (Pipeline.config p) newConfig))
    as [|e errors] eqn:E; cbn [List.length Nat.ltb Nat.leb].
  - split; [intro H; now contradiction H|]. intros _.
    destruct (reconfigure (Pipeline.llmProvider p)
                (Config.withDefaults (RAGPipeline.merged (Pipeline.config p) newConfig)))
      as [backend [[]|cause]].
    + destruct (newSplitter _ _) as [splitter'|cause] eqn:Hs;
        cbn [fst snd Pipeline.config Pipeline.vectorStore Pipeline.conversationHistory
               Pipeline.llmProvider].
      * split; [reflexivity|]. split; [now apply validateConfig_nil_accepted|].
        do 3 (split; [reflexivity|]). split; [|discriminate].
        split; [intros _; split; [now exists tt|reflexivity]|reflexivity].
      * split; [reflexivity|]. split; [now apply validateConfig_nil_accepted|].
        do 3 (split; [reflexivity|]). split.
        -- split; [discriminate|]. intros [_ H]. discriminate H.
        -- intros message H. split; [reflexivity|]. right. split; [now exists tt|congruence].
    + cbn [fst snd Pipeline.config Pipeline.vectorStore Pipeline.conversationHistory
             Pipeline.llmProvider].
      split; [reflexivity|]. split; [now apply validateConfig_nil_accepted|].
      do 3 (split; [reflexivity|]). split.
      * split; [discriminate|]. intros [[done H] _]. discriminate H.
      * intros message H. split; [reflexivity|]. left. congruence.
  - split; [|discriminate]. intros _. split; reflexivity.
Qed.

End Configuring.

Section Ingesting.

Variable createEmbedding : string -> result (list float).
Variable splitText : string -> result (list string).
Variable extractFromPDF extractFromText extractFromDocx : File.t -> result string.
Context {L : Type} {llm : LLMProvider L}.

Implicit Types (p : Pipeline.t (L := L)).

(** X28. [removeDocument] of the id of a document that [addDocument]
    has added leaves the store as [removeDocument] would have left it
    before the document was added: the store before, when no key of it
    starts with that id.  [addDocument] leaves the history and the
    configuration alone. *)
Theorem removeDocument_undoes_addDocument
  (documentId : string) (now : Z) (file : File.t) p (document : Document.t) :
  snd (RAGPipeline.addDocument createEmbedding
         (DocumentProcessor.processDocument splitText extractFromPDF extractFromText
            extractFromDocx documentId now) file p) = Ok document ->
  let p' := fst (RAGPipeline.addDocument createEmbedding
                   (DocumentProcessor.processDocument splitText extractFromPDF extractFromText
                      extractFromDocx documentId now) file p) in
  Document.id document = documentId
  /\ Pipeline.vectorStore (RAGPipeline.removeDocument (L := L) documentId p')
     = VectorStore.delete documentId (Pipeline.vectorStore p)
  /\ (Forall (fun key => String.prefix documentId key = false)
        (JSMap.keys (Pipeline.vectorStore p)) ->
      Pipeline.vectorStore (RAGPipeline.removeDocument documentId p') = Pipeline.vectorStore p)
  /\ Pipeline.conversationHistory p' = Pipeline.conversationHistory p
  /\ Pipeline.config p' = Pipeline.config p.
Proof.
  unfold RAGPipeline.addDocument.
  destruct (DocumentProcessor.processDocument _ _ _ _ documentId now file) as [doc|message] eqn:Hp;
    [|discriminate].
  apply processDocument_inversion in Hp. destruct Hp as (text & chunks & _ & _ & _ & Hcreate & ->).
  cbn [Document.chunks].
  destruct (VectorStore.completion (VectorStore.addDocuments createEmbedding chunks
                                      (Pipeline.vectorStore p))) as [[]|message] eqn:Hc;
    cbn [fst snd]; [|discriminate].
  intros H. apply eq_sym in H. injection H as H. subst document.
  cbn [RAGPipeline.removeDocument Pipeline.vectorStore Pipeline.conversationHistory Pipeline.config].
  pose proof (createChunks_prefixed _ _ Hcreate) as Hpre. cbn [Document.id] in Hpre.
  pose proof (@delete_after_addDocuments createEmbedding documentId chunks
                (Pipeline.vectorStore p) Hpre) as E.
  cbn [Document.id]. split; [reflexivity|]. split; [exact E|].
  split; [|split; reflexivity].
  intro Hfresh. rewrite E. now apply delete_no_match.
Qed.

End Ingesting.

Import Scenario.

(** * The properties at sample data *)

Lemma storeOf_wellKeyed (chunks : list DocumentChunk) : wellKeyed (storeOf chunks).
Proof. apply addDocuments_wellKeyed. split; constructor. Qed.

Lemma store_stays_wellKeyed_witness :
  wellKeyed (VectorStore.documentsAfter
               (VectorStore.addDocuments VectorStore.InMemory [skyAgain] (storeOf [sky; grass])))
  /\ wellKeyed (VectorStore.delete "doc1" (storeOf [sky; grass]))
  /\ wellKeyed (VectorStore.clear (storeOf [sky; grass]))
  /\ NoDup (map id (VectorStore.getAllChunks (storeOf [sky; grass]))).
Proof.
  apply (@store_stays_wellKeyed VectorStore.InMemory [skyAgain] "doc1" (storeOf [sky; grass])).
  apply storeOf_wellKeyed.
Defined.

Lemma addDocuments_then_get_witness :
  let stored := VectorStore.documentsAfter
                  (VectorStore.addDocuments VectorStore.InMemory [sky; grass] (storeOf [skyAgain])) in
  (forall c, In c [sky; grass] ->
     exists e, VectorStore.InMemory (content c) = Ok e
               /\ JSMap.get stored (id c) = Some {| chunkOf := c; embedding := e |})
  /\ (forall key, ~ In key (map id [sky; grass]) ->
        JSMap.get stored key = JSMap.get (storeOf [skyAgain]) key).
Proof.
  apply (@addDocuments_then_get VectorStore.InMemory [sky; grass] (storeOf [skyAgain])).
  - repeat constructor; eexists; reflexivity.
  - cbn. repeat constructor; simpl; intuition discriminate.
Defined.

Lemma addDocuments_overwrites_in_place_witness :
  JSMap.keys (VectorStore.documentsAfter
                (VectorStore.addDocuments VectorStore.InMemory [sky] (storeOf [sky; grass])))
  = JSMap.keys (storeOf [sky; grass]).
Proof.
  apply (@addDocuments_overwrites_in_place VectorStore.InMemory [sky] (storeOf [sky; grass])).
  constructor; [vm_compute; left; reflexivity|constructor].
Defined.

Lemma similaritySearch_results_from_store_witness :
  incl [sky] (VectorStore.getAllChunks (storeOf [sky; grass]))
  /\ (List.length [sky] <= JSMap.size (storeOf [sky; grass]))%nat
  /\ ((0 <= 1)%Z -> (Z.of_nat (List.length [sky]) <= 1)%Z)
  /\ (wellKeyed (storeOf [sky; grass]) -> NoDup (map id [sky])).
Proof.
  apply (@similaritySearch_results_from_store VectorStore.InMemory skyQuestion 1%Z
           (storeOf [sky; grass]) [sky]).
  vm_compute. reflexivity.
Defined.

Example tenth_is_stored :
  JSMap.keys (storeOf [sky; tenth]) = ["doc1_chunk_0"; "doc10_chunk_0"].
Proof. vm_compute. reflexivity. Qed.

Lemma delete_reaches_documents_sharing_the_prefix_witness :
  JSMap.get (VectorStore.delete "doc1" (storeOf [sky; tenth])) (DocumentProcessor.chunkId "doc10" 0)
  = None.
Proof.
  apply (@delete_reaches_documents_sharing_the_prefix "doc1" "doc10" 0 (storeOf [sky; tenth])).
  reflexivity.
Defined.

Lemma deleted_chunks_are_not_retrieved_witness :
  Forall (fun c => String.prefix "doc1" (id c) = false) [skyAgain].
Proof.
  apply (@deleted_chunks_are_not_retrieved VectorStore.InMemory "doc1" skyQuestion 2%Z
           (storeOf [sky; skyAgain]) [skyAgain]).
  - apply storeOf_wellKeyed.
  - vm_compute. reflexivity.
Defined.

Lemma delete_undoes_addDocuments_witness :
  VectorStore.delete "doc1"
    (VectorStore.documentsAfter
       (VectorStore.addDocuments VectorStore.InMemory [sky; grass] (storeOf [skyAgain])))
  = VectorStore.delete "doc1" (storeOf [skyAgain])
  /\ (Forall (fun key => String.prefix "doc1" key = false) (JSMap.keys (storeOf [skyAgain])) ->
      VectorStore.delete "doc1"
        (VectorStore.documentsAfter
           (VectorStore.addDocuments VectorStore.InMemory [sky; grass] (storeOf [skyAgain])))
      = storeOf [skyAgain]).
Proof.
  apply (@delete_undoes_addDocuments VectorStore.InMemory "doc1" [sky; grass] (storeOf [skyAgain])).
  repeat constructor.
Defined.

Lemma advancedSearch_filters_and_bounds_witness :
  let k := match InMemoryVectorStore.k onlySecond with Some k => k | None => 4%Z end in
  incl [skyAgain] (VectorStore.getAllChunks (storeOf [sky; skyAgain; grass]))
  /\ ((0 <= k)%Z -> (Z.of_nat (List.length [skyAgain]) <= k)%Z)
  /\ (forall name names,
        InMemoryVectorStore.sourceFilter onlySecond = Some (name :: names) ->
        Forall (fun c => In (source (metadata c)) (name :: names)) [skyAgain])
  /\ (forall limit,
        InMemoryVectorStore.maxChunkLength onlySecond = Some limit -> limit <> 0%Z ->
        Forall (fun c => (Z.of_nat (String.length (content c)) <= limit)%Z) [skyAgain]).
Proof.
  apply (@advancedSearch_filters_and_bounds VectorStore.InMemory skyQuestion onlySecond
           (storeOf [sky; skyAgain; grass]) [skyAgain]).
  vm_compute. reflexivity.
Defined.

Lemma advancedSearch_without_filters_witness :
  InMemoryVectorStore.advancedSearch VectorStore.InMemory skyQuestion
    {| InMemoryVectorStore.k := Some 1%Z;
       InMemoryVectorStore.minSimilarity := Some 0.9%float;
       InMemoryVectorStore.sourceFilter := None;
       InMemoryVectorStore.maxChunkLength := None |} (storeOf [sky; grass])
  = VectorStore.similaritySearch VectorStore.InMemory skyQuestion 1 (storeOf [sky; grass]).
Proof.
  apply (@advancedSearch_without_filters VectorStore.InMemory skyQuestion 1%Z (Some 0.9%float)
           (storeOf [sky; grass]) (createSimpleEmbedding skyQuestion)).
  - lia.
  - reflexivity.
  - vm_compute. reflexivity.
Defined.

Lemma createChunks_shape_witness :
  exists chunks,
    DocumentProcessor.createChunks splitWords skyDocument = Ok chunks
    /\ Document.content skyDocument <> ""
    /\ (exists texts,
          splitWords (Document.content skyDocument) = Ok texts
          /\ map content chunks = map trim texts)
    /\ map id chunks
       = map (DocumentProcessor.chunkId (Document.id skyDocument)) (seq 0 (List.length chunks))
    /\ NoDup (map id chunks)
    /\ Forall (fun c =>
                 String.prefix (Document.id skyDocument) (id c) = true
                 /\ source (metadata c) = Document.name skyDocument
                 /\ trim (content c) = content c
                 /\ (Z.of_nat (String.length (content c))
                     <= endIndex (metadata c) - startIndex (metadata c))%Z) chunks.
Proof.
  eexists. split.
  - vm_compute. reflexivity.
  - apply (@createChunks_shape splitWords skyDocument). vm_compute. reflexivity.
Defined.

Example sky_in_four_chunks :
  option_map (map (fun c => (id c, content c, startIndex (metadata c), endIndex (metadata c))))
    (match DocumentProcessor.createChunks splitWords skyDocument with
     | Ok chunks => Some chunks
     | Throw _ => None
     end)
  = Some [("doc1_chunk_0", "The", 0%Z, 3%Z); ("doc1_chunk_1", "sky", 4%Z, 7%Z);
          ("doc1_chunk_2", "is", 8%Z, 10%Z); ("doc1_chunk_3", "blue.", 11%Z, 16%Z)].
Proof. vm_compute. reflexivity. Qed.

Lemma processDocument_ready_witness :
  exists document,
    DocumentProcessor.processDocument splitWords unreadable readSky unreadable "doc1" 0 skyFile
    = Ok document
    /\ DocumentProcessor.validateFile skyFile = Ok tt
    /\ Document.id document = "doc1"
    /\ Document.name document = File.name skyFile
    /\ Document.status document = "ready"
    /\ trim (Document.content document) <> ""
    /\ exists chunks,
         Document.chunks document = Some chunks
         /\ DocumentProcessor.createChunks splitWords document = Ok chunks.
Proof.
  eexists. split.
  - vm_compute. reflexivity.
  - apply (@processDocument_ready splitWords unreadable readSky unreadable "doc1" 0%Z skyFile).
    vm_compute. reflexivity.
Defined.

Lemma prompt_carries_question_and_chunks_witness :
  includes (Prompts.formatContextChunks [sky; grass]) (content sky) = true
  /\ includes (createConversationPrompt skyQuestion (Prompts.formatContextChunks [sky; grass]) [])
       (content sky) = true
  /\ includes (createConversationPrompt skyQuestion (Prompts.formatContextChunks [sky; grass]) [])
       skyQuestion = true.
Proof.
  apply (@prompt_carries_question_and_chunks skyQuestion [sky; grass] [] sky).
  left. reflexivity.
Defined.

Lemma validateGroqApiKey_implies_key_present_witness :
  Config.missingKey (Some "gsk_0123456789abcdefghij") = false
  /\ (20 < String.length "gsk_0123456789abcdefghij")%nat
  /\ exists rest, "gsk_0123456789abcdefghij" = "gsk_" ++ rest.
Proof.
  apply (@validateGroqApiKey_implies_key_present "gsk_0123456789abcdefghij").
  reflexivity.
Defined.

Lemma query_failure_leaves_state_witness :
  (exists cause, "Query failed: rate limit exceeded" = "Query failed: " ++ cause)
  /\ Pipeline.conversationHistory
       (fst (Pipeline.query VectorStore.InMemory "query_1" 0 skyQuestion
               (outOfService (storeOf [sky; grass]))))
     = Pipeline.conversationHistory (outOfService (storeOf [sky; grass]))
  /\ Pipeline.vectorStore
       (fst (Pipeline.query VectorStore.InMemory "query_1" 0 skyQuestion
               (outOfService (storeOf [sky; grass]))))
     = Pipeline.vectorStore (outOfService (storeOf [sky; grass]))
  /\ Pipeline.config
       (fst (Pipeline.query VectorStore.InMemory "query_1" 0 skyQuestion
               (outOfService (storeOf [sky; grass]))))
     = Pipeline.config (outOfService (storeOf [sky; grass])).
Proof.
  apply (@query_failure_leaves_state VectorStore.InMemory unit failingBackend "query_1" 0%Z
           skyQuestion "Query failed: rate limit exceeded" (outOfService (storeOf [sky; grass]))).
  vm_compute. reflexivity.
Defined.

Lemma query_answer_cites_retrieved_chunks_witness :
  exists r,
    snd (Pipeline.query VectorStore.InMemory "query_1" 0 skyQuestion
           (pipelineOver (storeOf [sky; grass]))) = Ok r
    /\ RAGQuery.id r = "query_1" /\ RAGQuery.question r = skyQuestion
    /\ RAGQuery.timestamp r = 0%Z
    /\ RAGQuery.context r
       = map content (Pipeline.retrieveContext VectorStore.InMemory skyQuestion
                        (pipelineOver (storeOf [sky; grass])))
    /\ incl (Pipeline.retrieveContext VectorStore.InMemory skyQuestion
               (pipelineOver (storeOf [sky; grass])))
         (VectorStore.getAllChunks (Pipeline.vectorStore (pipelineOver (storeOf [sky; grass]))))
    /\ ((0 <= Config.topK' (Pipeline.config (pipelineOver (storeOf [sky; grass]))))%Z ->
        (Z.of_nat (List.length (RAGQuery.context r))
         <= Config.topK' (Pipeline.config (pipelineOver (storeOf [sky; grass]))))%Z)
    /\ NoDup (RAGQuery.sources r)
    /\ (forall name,
          In name (RAGQuery.sources r)
          <-> exists c, In c (Pipeline.retrieveContext VectorStore.InMemory skyQuestion
                                (pipelineOver (storeOf [sky; grass])))
                        /\ source (metadata c) = name)
    /\ Pipeline.vectorStore
         (fst (Pipeline.query VectorStore.InMemory "query_1" 0 skyQuestion
                 (pipelineOver (storeOf [sky; grass]))))
       = Pipeline.vectorStore (pipelineOver (storeOf [sky; grass]))
    /\ Pipeline.config
         (fst (Pipeline.query VectorStore.InMemory "query_1" 0 skyQuestion
                 (pipelineOver (storeOf [sky; grass]))))
       = Pipeline.config (pipelineOver (storeOf [sky; grass])).
Proof.
  eexists. split.
  - vm_compute. reflexivity.
  - apply (@query_answer_cites_retrieved_chunks VectorStore.InMemory nat countingBackend
             "query_1" 0%Z skyQuestion (pipelineOver (storeOf [sky; grass]))).
    + vm_compute. reflexivity.
    + vm_compute. discriminate.
Defined.

Lemma streamQuery_assembles_answer_witness :
  Pipeline.consume VectorStore.InMemory (3 + List.length ["The sky "; "is "; "blue."])
    (pipelineOver (storeOf [sky; grass])) (Pipeline.streamQuery "query_1" 0 skyQuestion)
  = ({| Pipeline.llmProvider := 1;
        Pipeline.vectorStore := Pipeline.vectorStore (pipelineOver (storeOf [sky; grass]));
        Pipeline.config := Pipeline.config (pipelineOver (storeOf [sky; grass]));
        Pipeline.conversationHistory :=
          Pipeline.remember
            {| Exchange.question := skyQuestion;
               Exchange.answer := String.concat "" ["The sky "; "is "; "blue."] |}
            (Pipeline.conversationHistory (pipelineOver (storeOf [sky; grass]))) |},
     Pipeline.Finished,
     ([Pipeline.Yielded {| type := TypeContext; eventContent := "Searching knowledge base..." |};
       Pipeline.Yielded {| type := TypeContext;
                           eventContent := "Found " ++ showNat (List.length (sky :: [grass]))
                                           ++ " relevant document(s). Generating response..." |}]
      ++ map (fun text => Pipeline.Yielded {| type := TypeAnswer; eventContent := text |})
           ["The sky "; "is "; "blue."]
      ++ [Pipeline.Returned
            {| RAGQuery.id := "query_1";
               RAGQuery.question := skyQuestion;
               RAGQuery.context := map content (sky :: [grass]);
               RAGQuery.answer := String.concat "" ["The sky "; "is "; "blue."];
               RAGQuery.timestamp := 0;
               RAGQuery.sources := unique (map (fun c => source (metadata c)) (sky :: [grass])) |}])%list).
Proof.
  apply (@streamQuery_assembles_answer VectorStore.InMemory nat countingBackend "query_1" 0%Z
           skyQuestion (pipelineOver (storeOf [sky; grass])) sky [grass] 1
           ["The sky "; "is "; "blue."]).
  - vm_compute. reflexivity.
  - reflexivity.
Defined.

Lemma streamQuery_backend_failure_witness :
  Pipeline.consume VectorStore.InMemory (3 + List.length ["The "])
    (outOfService (storeOf [sky; grass])) (Pipeline.streamQuery "query_1" 0 skyQuestion)
  = ({| Pipeline.llmProvider := tt;
        Pipeline.vectorStore := Pipeline.vectorStore (outOfService (storeOf [sky; grass]));
        Pipeline.config := Pipeline.config (outOfService (storeOf [sky; grass]));
        Pipeline.conversationHistory :=
          Pipeline.conversationHistory (outOfService (storeOf [sky; grass])) |},
     Pipeline.Finished,
     ([Pipeline.Yielded {| type := TypeContext; eventContent := "Searching knowledge base..." |};
       Pipeline.Yielded {| type := TypeContext;
                           eventContent := "Found " ++ showNat (List.length (sky :: [grass]))
                                           ++ " relevant document(s). Generating response..." |}]
      ++ map (fun text => Pipeline.Yielded {| type := TypeAnswer; eventContent := text |}) ["The "]
      ++ [Pipeline.Thrown ("Stream query failed: " ++ "connection reset")])%list).
Proof.
  apply (@streamQuery_backend_failure VectorStore.InMemory unit failingBackend "query_1" 0%Z
           skyQuestion (outOfService (storeOf [sky; grass])) sky [grass] tt ["The "]
           "connection reset").
  - vm_compute. reflexivity.
  - reflexivity.
Defined.

Lemma removeDocument_undoes_addDocument_witness :
  exists document,
    snd (RAGPipeline.addDocument VectorStore.InMemory
           (DocumentProcessor.processDocument splitWords unreadable readSky unreadable "doc1" 0)
           skyFile (pipelineOver (storeOf [skyAgain]))) = Ok document
    /\ let p' := fst (RAGPipeline.addDocument VectorStore.InMemory
                        (DocumentProcessor.processDocument splitWords unreadable readSky
                           unreadable "doc1" 0)
                        skyFile (pipelineOver (storeOf [skyAgain]))) in
       Document.id document = "doc1"
       /\ Pipeline.vectorStore (RAGPipeline.removeDocument (L := nat) "doc1" p')
          = VectorStore.delete "doc1" (Pipeline.vectorStore (pipelineOver (storeOf [skyAgain])))
       /\ (Forall (fun key => String.prefix "doc1" key = false)
             (JSMap.keys (Pipeline.vectorStore (pipelineOver (storeOf [skyAgain])))) ->
           Pipeline.vectorStore (RAGPipeline.removeDocument "doc1" p')
           = Pipeline.vectorStore (pipelineOver (storeOf [skyAgain])))
       /\ Pipeline.conversationHistory p'
          = Pipeline.conversationHistory (pipelineOver (storeOf [skyAgain]))
       /\ Pipeline.config p' = Pipeline.config (pipelineOver (storeOf [skyAgain])).
Proof.
  eexists. split.
  - vm_compute. reflexivity.
  - apply (@removeDocument_undoes_addDocument VectorStore.InMemory splitWords unreadable readSky
             unreadable nat "doc1" 0%Z skyFile (pipelineOver (storeOf [skyAgain]))).
    vm_compute. reflexivity.
Defined.

Example added_then_removed :
  Pipeline.vectorStore
    (RAGPipeline.removeDocument "doc1"
       (fst (RAGPipeline.addDocument VectorStore.InMemory
               (DocumentProcessor.processDocument splitWords unreadable readSky unreadable "doc1" 0)
               skyFile (pipelineOver (storeOf [skyAgain])))))
  = storeOf [skyAgain].
Proof. vm_compute. reflexivity. Qed.

Example valid_configuration_refused :
  Config.validateConfig equalOverlap = []
  /\ RAGPipeline.create freshBackend strictSplitter equalOverlap
     = Throw "Cannot have chunkOverlap >= chunkSize".
Proof. split; vm_compute; reflexivity. Qed.

Example rejected_update_has_replaced_the_config :
  let outcome := RAGPipeline.updateConfig strictSplitter agreeableBackend widerOverlap
                   (pipelineOver [], (1000, 200)%Z) in
  snd outcome = Throw "Cannot have chunkOverlap >= chunkSize"
  /\ Config.chunkOverlap' (Pipeline.config (pipelineOver [])) = 200%Z
  /\ Config.chunkOverlap' (Pipeline.config (fst (fst outcome))) = 1000%Z
  /\ snd (fst outcome) = (1000, 200)%Z.
Proof. repeat split; vm_compute; reflexivity. Qed.

Example no_break_space_key_is_missing :
  Config.missingKey (Some (String (ascii_of_nat 160) (String (ascii_of_nat 9) " "))) = true
  /\ Config.missingKey (Some (String (ascii_of_nat 133) "")) = false.
Proof. split; reflexivity. Qed.

Example accented_capitals_are_lowered :
  toLowerCase (String (ascii_of_nat 201) (String (ascii_of_nat 215) "T"))
  = String (ascii_of_nat 233) (String (ascii_of_nat 215) "t").
Proof. reflexivity. Qed.
